(** * Basket KPIs API: the aggregation endpoints of [main.py]

    A shallow embedding of the FastAPI application of [src/main.py] and of the
    pandas operations it calls, and the properties its specification states.

    Modelling conventions.
    - A numeric value is [NaN] or a number.  The numbers of a table are exact
      rationals and so are their sums: these are the sums int64 and float64
      additions give on whole numbers below 2^53, the item counts of the data
      model, and the theorems that need it say so.  A quotient or a product
      of two floats is the exact one rounded to binary64
      ([round_binary64], to nearest, ties to even; the exponent range of
      binary64, which no quotient of counts comes near, is left out), and
      [round(x, n)] rounds the exact value of the float it is given half to
      even, as Python does.
    - A [DataFrame] is a header and its rows.  Every column the aggregations
      read is numeric; a row that is shorter than the header reads [NaN] in
      the columns it lacks, as [read_csv] pads it.  Column names are looked up
      by their first occurrence ([read_csv] makes the names of a header
      distinct).
    - What the code takes from its libraries without fixing it is a
      parameter, [Library]: the arrangement [sort_values] and [sort_index]
      give (pandas' default [kind="quicksort"] is not stable, so values that
      are equal come in an order the code does not choose), the message of
      the [KeyError] of [df[names]], and the reading of a query value as an
      [int].  What the libraries promise is stated as [sorting_contract] and
      [int_contract], hypotheses of the theorems that need them.  Statements
      about one table are evaluated with [reference_library], whose sorts are
      stable and which reads plain decimal numerals.
    - An exception is a value of the error monad [outcome]; the two exception
      handlers of the application turn it into a response.
    - [get_order_distribution] raises [KeyError] when the table lacks one of
      its two columns or holds a day whose integer part is no key of
      [day_names]; what it returns is stated for the tables on which it
      returns. *)

From Stdlib Require Import ZArith QArith Qround Qreduction Qabs Qpower Lia Lqa Ascii String.
From Stdlib Require Import Sorting.Sorted Sorting.Permutation Floats.SpecFloat.
From stdpp Require Import base list sorting gmap strings pretty.

Set Warnings "-register-all".
Local Open Scope string_scope.
Local Open Scope list_scope.
Local Open Scope Z_scope.

(** ** Numbers *)

(** A float64 cell or scalar. *)
Inductive num : Type :=
  | NaN
  | Num (q : Q).

#[global] Instance num_inhabited : Inhabited num := populate NaN.

(** Python's [int(x)] on a finite number: truncation towards zero. *)
Definition py_int (q : Q) : Z :=
  if Qle_bool 0 q then Qfloor q else Qceiling q.

(** The integer nearest to [q], a tie going to the even neighbour. *)
Definition round_half_even (q : Q) : Z :=
  let f := Qfloor q in
  match Qcompare (q - inject_Z f) (1 # 2) with
  | Lt => f
  | Gt => f + 1
  | Eq => if Z.even f then f else f + 1
  end.

(** [q] rounded to [ndigits] decimal places: a whole number of units of
    [10^-ndigits]. *)
Definition round_to (q : Q) (ndigits : nat) : Q :=
  let scale := 10 ^ Z.of_nat ndigits in
  inject_Z (round_half_even (q * inject_Z scale)) / inject_Z scale.

(** [round(x, ndigits)] of a Python float, for [ndigits >= 0]: the decimal
    of [ndigits] places nearest to the exact value of [x], a tie going to the
    even digit; [round(nan, n)] is [nan]. *)
Definition py_round (x : num) (ndigits : nat) : num :=
  match x with
  | NaN => NaN
  | Num q => Num (round_to q ndigits)
  end.

(** The exponent of the leading bit of a positive number:
    [2^ilog2 q <= q < 2^(ilog2 q + 1)]. *)
Definition ilog2 (q : Q) : Z :=
  let a := Qnum q in
  let b := Zpos (Qden q) in
  let d := Z.log2 a - Z.log2 b in
  if a * 2 ^ Z.log2 b <? b * 2 ^ Z.log2 a then d - 1 else d.

(** The binary64 number nearest to [q], a tie going to the even significand:
    [q] rounded to a whole number of units of the last of its 53 bits. *)
Definition round_binary64 (q : Q) : Q :=
  let q := Qred q in
  if Qeq_bool q 0 then 0%Q
  else
    let e := ilog2 (Qabs q) - 52 in
    Qred (inject_Z (round_half_even (q / 2 ^ e)) * 2 ^ e).

(** [x / y] and [x * y] of two floats. *)
Definition float_div (x y : Q) : Q := round_binary64 (x / y).

Definition float_mul (x y : Q) : Q := round_binary64 (x * y).

(** 2^-53: rounding to binary64 moves a number by at most this part of it. *)
Definition half_ulp : Q := 1 # 9007199254740992.

(** [Series.sum()] and the row or column sums of [DataFrame.sum]: missing
    values are skipped ([skipna=True]), the empty sum is 0. *)
Definition nansum (l : list num) : Q :=
  foldl (fun acc c => match c with NaN => acc | Num q => (acc + q)%Q end) 0%Q l.

(** The sum of a series that has no missing value. *)
Definition Qsum (l : list Q) : Q := foldl Qplus 0%Q l.

(** ** Stable insertion sort *)

Section Isort.
Context {A : Type} (before : A -> A -> bool).

(** [x] goes in front of the first element it may precede. *)
Fixpoint insert_sorted (x : A) (l : list A) : list A :=
  match l with
  | [] => [x]
  | y :: t => if before x y then x :: y :: t else y :: insert_sorted x t
  end.

Fixpoint isort (l : list A) : list A :=
  match l with
  | [] => []
  | x :: t => insert_sorted x (isort t)
  end.
End Isort.

(** ** What the libraries fix *)

(** The operations whose result the code leaves to pandas and to the
    framework: the positions of a series in the order numpy's [argsort] of
    [kind="quicksort"] puts its values in, ascending; the positions in the
    order [sort_values(ascending=False)] gives; the message of the
    [KeyError] that [df[names]] raises on a frame of the columns [cols]; and
    the [int] a query value is read as, when it is read as one. *)
Class Library : Type := {
  argsort : list Q -> list nat;
  argsort_descending : list Q -> list nat;
  not_in_index : forall cols names : list string, string;
  parse_int : string -> option Z
}.

(** ** Series *)

(** [Series.mean()] of a series without missing values: the float64
    quotient of the sum by the count, [nan] when empty. *)
Definition series_mean (s : list Q) : num :=
  match s with
  | [] => NaN
  | _ => Num (float_div (Qsum s) (inject_Z (Z.of_nat (length s))))
  end.

(** [Series.median()]: the middle of the sorted values, the mean of the two
    middle ones for an even count, [nan] when empty. *)
Definition series_median (s : list Q) : num :=
  let sorted := isort Qle_bool s in
  let n := length s in
  match n with
  | O => NaN
  | _ =>
      if Nat.even n
      then Num ((nth (n / 2 - 1) sorted 0 + nth (n / 2) sorted 0) / 2)%Q
      else Num (nth (n / 2) sorted 0%Q)
  end.

(** A labelled series: index label and value, in order. *)
Definition Series (K V : Type) : Type := list (K * V).

(** [s.iloc[order]]: the entries of [s] at the positions [order]. *)
Definition iloc {A} (s : list A) (order : list nat) : list A :=
  omap (fun i => s !! i) order.

(** [sort_values(ascending=False)]: the entries in the order the library
    puts their values in.  It is given the numbers, not the fractions that
    stand for them. *)
Definition sort_values_desc `{Library} {K} (s : Series K Q) : Series K Q :=
  iloc s (argsort_descending (map (fun kv => Qred kv.2) s)).

(** [sort_index()]: the entries in the order [argsort] puts their labels
    in. *)
Definition sort_index `{Library} {V} (s : Series Q V) : Series Q V :=
  iloc s (argsort (map (fun kv => Qred kv.1) s)).

(** [head(n)]. *)
Definition head {A} (n : nat) (s : list A) : list A := take n s.

(** The hash table of [value_counts]: a key is counted where it stands, a
    new key is appended. *)
Fixpoint count_into (k : Q) (tbl : list (Q * nat)) : list (Q * nat) :=
  match tbl with
  | [] => [(k, 1%nat)]
  | (k', n) :: t =>
      if Qeq_bool k k' then (k', S n) :: t else (k', n) :: count_into k t
  end.

(** The values of a series that are not missing. *)
Definition dropna (s : list num) : list Q :=
  omap (fun c => match c with NaN => None | Num q => Some q end) s.

(** The table after every value is counted, from the first to the last. *)
Definition hash_counts (s : list Q) : list (Q * nat) :=
  foldl (fun tbl k => count_into k tbl) [] s.

(** [Series.value_counts()]: missing values dropped, the distinct values in
    the order they are first met with their counts, then sorted by count,
    descending. *)
Definition value_counts `{Library} (s : list num) : Series Q Q :=
  sort_values_desc
    (map (fun kn => (kn.1, inject_Z (Z.of_nat kn.2))) (hash_counts (dropna s))).

(** ** Data frames *)

Record DataFrame : Type := {
  columns : list string;
  values : list (list num)
}.

(** [len(df)]. *)
Definition len (df : DataFrame) : nat := length (values df).

(** The position of a column. *)
Definition get_loc (cols : list string) (name : string) : option nat :=
  fst <$> list_find (fun c => c = name) cols.

Definition cell_at (row : list num) (i : nat) : num := default NaN (row !! i).

(** ** Exceptions *)

Inductive exception : Type :=
  | HTTPException (status_code : Z) (detail : string)
  | RequestValidationError (loc : string) (msg : string)
  | KeyError (key : string)
  | FileNotFoundError (msg : string).

Inductive outcome (A : Type) : Type :=
  | Return (a : A)
  | Raise (e : exception).
Arguments Return {A} a.
Arguments Raise {A} e.

#[global] Instance outcome_ret : MRet outcome := fun A a => Return a.
#[global] Instance outcome_bind : MBind outcome := fun A B k m =>
  match m with
  | Return a => k a
  | Raise e => Raise e
  end.

(** [df[name]]: one column, [KeyError] when the frame has none of that name. *)
Definition getitem (df : DataFrame) (name : string) : outcome (list num) :=
  match get_loc (columns df) name with
  | Some i => Return (map (fun row => cell_at row i) (values df))
  | None => Raise (KeyError name)
  end.

(** [df[names]]: the sub-frame of the named columns, in the order asked;
    one [KeyError] when the frame lacks any of them. *)
Definition getitem_cols `{Library} (df : DataFrame) (names : list string) :
    outcome DataFrame :=
  match mapM (get_loc (columns df)) names with
  | Some locs =>
      Return {| columns := names;
                values := map (fun row => map (cell_at row) locs) (values df) |}
  | None => Raise (KeyError (not_in_index (columns df) names))
  end.

(** [df.fillna(0)]. *)
Definition fillna_cell (c : num) : num :=
  match c with
  | NaN => Num 0
  | Num q => Num q
  end.

Definition fillna0 (df : DataFrame) : DataFrame :=
  {| columns := columns df; values := map (map fillna_cell) (values df) |}.

(** [df[names] = sub]: each named column takes the values of the column of
    [sub] of that name, the other columns keep theirs. *)
Definition setitem_cols (df : DataFrame) (names : list string) (sub : DataFrame) : DataFrame :=
  {| columns := columns df;
     values :=
       zip_with (fun row subrow =>
                   imap (fun i name =>
                           match get_loc names name with
                           | Some j => cell_at subrow j
                           | None => cell_at row i
                           end) (columns df))
                (values df) (values sub) |}.

(** [df.sum(axis=1)]: the sum of each row. *)
Definition sum_axis1 (df : DataFrame) : list Q := map nansum (values df).

(** [df.sum()]: the sum of each column, labelled by the column. *)
Definition sum_axis0 (df : DataFrame) : Series string Q :=
  imap (fun j name => (name, nansum (map (fun row => cell_at row j) (values df))))
       (columns df).

(** ** [load_data] *)

Definition meta_cols : list string :=
  ["order_id"; "order_dow"; "order_hour_of_day"; "days_since_prior_order"].

(** [load_data], from the frame [pd.read_csv] parsed. *)
Definition load_data `{Library} (data : DataFrame) : outcome (DataFrame * list string) :=
  let cats := filter (fun col => col ∉ meta_cols) (columns data) in
  sub ← getitem_cols data cats;
  let data := setitem_cols data cats (fillna0 sub) in
  Return (data, cats).

(** The table of [test_api.py]. *)
Definition sample_data : DataFrame :=
  {| columns := ["order_id"; "order_dow"; "order_hour_of_day";
                 "days_since_prior_order"; "fresh_fruits"; "yogurt";
                 "packaged_cheese"];
     values := [ [Num 1; Num 0; Num 10; Num 5;  Num 2; Num 1; Num 1];
                 [Num 2; Num 1; Num 14; Num 10; Num 0; Num 3; Num 1];
                 [Num 3; Num 2; Num 10; Num 7;  Num 5; Num 0; Num 0] ] |}.

(** ** The application *)

(** JSON values, the bodies of the responses. *)
Inductive json : Type :=
  | JInt (z : Z)
  | JFloat (x : num)
  | JStr (s : string)
  | JList (l : list json)
  | JDict (kv : list (string * json)).

(** The two module globals, [df] and [category_columns]. *)
Record State : Type := {
  df : option DataFrame;
  category_columns : list string
}.

Definition initial_state : State := {| df := None; category_columns := [] |}.

(** [lifespan], up to its [yield]: [data] is what [read_csv] parses from
    [orders.csv], [None] when the file does not exist. *)
Definition lifespan `{Library} (data : option DataFrame) : outcome State :=
  match data with
  | None => Raise (FileNotFoundError
      "orders.csv not found. Please ensure the file exists in the project root.")
  | Some data =>
      loaded ← load_data data;
      Return {| df := Some loaded.1; category_columns := loaded.2 |}
  end.

(** [GET /health]. *)
Definition health : outcome json := Return (JDict [("status", JStr "ok")]).

(** [GET /kpis]. *)
Definition get_kpis `{Library} (st : State) : outcome json :=
  match df st with
  | None => Raise (HTTPException 500 "Data not loaded")
  | Some df =>
      sub ← getitem_cols df (category_columns st);
      let items_per_order := sum_axis1 sub in
      let total_orders := len df in
      let total_items := py_int (Qsum items_per_order) in
      let avg_items := series_mean items_per_order in
      let median_items := series_median items_per_order in
      Return (JDict [("total_orders", JInt (Z.of_nat total_orders));
                     ("total_items", JInt total_items);
                     ("avg_items_per_order", JFloat (py_round avg_items 2));
                     ("median_items_per_order", JFloat (py_round median_items 2))])
  end.

(** [GET /categories/top], with the validated [limit] ([1 <= limit <= 100],
    so [head] takes the first [limit] entries). *)
Definition get_top_categories `{Library} (st : State) (limit : Z) : outcome json :=
  match df st with
  | None => Raise (HTTPException 500 "Data not loaded")
  | Some df =>
      sub ← getitem_cols df (category_columns st);
      let category_totals := sort_values_desc (sum_axis0 sub) in
      let top_n := head (Z.to_nat limit) category_totals in
      let top_categories :=
        map (fun item => JDict [("category", JStr item.1);
                                ("total_items", JInt (py_int item.2))]) top_n in
      Return (JDict [("limit", JInt limit);
                     ("top_categories", JList top_categories)])
  end.

Definition day_names : gmap Z string :=
  list_to_map [(0, "Sunday"); (1, "Monday"); (2, "Tuesday"); (3, "Wednesday");
               (4, "Thursday"); (5, "Friday"); (6, "Saturday")].

(** [format_hour], the f-strings printing the integer in decimal. *)
Definition format_hour (hour : Z) : string :=
  if hour =? 0 then "12:00 AM"
  else if hour <? 12 then pretty hour +:+ ":00 AM"
  else if hour =? 12 then "12:00 PM"
  else pretty (hour - 12) +:+ ":00 PM".

(** One entry of [dow_distribution]; [day_names[int(dow)]] raises
    [KeyError] outside 0..6. *)
Definition dow_entry (total : nat) (item : Q * Q) : outcome json :=
  let '(dow, count) := item in
  match day_names !! py_int dow with
  | None => Raise (KeyError (pretty (py_int dow)))
  | Some day =>
      Return (JDict [("day", JStr day);
                     ("day_number", JInt (py_int dow));
                     ("orders", JInt (py_int count));
                     ("percentage",
                      JFloat (py_round
                                (Num (float_mul
                                        (float_div count (inject_Z (Z.of_nat total)))
                                        100)) 1))])
  end.

(** One entry of [top_hours]. *)
Definition hour_entry (item : Q * Q) : json :=
  let '(hour, count) := item in
  JDict [("hour", JStr (format_hour (py_int hour)));
         ("hour_24", JInt (py_int hour));
         ("orders", JInt (py_int count))].

(** [GET /orders/distribution]. *)
Definition get_order_distribution `{Library} (st : State) : outcome json :=
  match df st with
  | None => Raise (HTTPException 500 "Data not loaded")
  | Some df =>
      order_dow ← getitem df "order_dow";
      let dow_counts := sort_index (value_counts order_dow) in
      let total := len df in
      dow_distribution ← mapM (dow_entry total) dow_counts;
      order_hour_of_day ← getitem df "order_hour_of_day";
      let hour_counts :=
        head 10 (sort_values_desc (value_counts order_hour_of_day)) in
      let top_hours := map hour_entry hour_counts in
      Return (JDict [("summary",
                      JDict [("total_orders", JInt (Z.of_nat total));
                             ("analysis_period", JStr "All available data")]);
                     ("day_of_week_distribution", JList dow_distribution);
                     ("peak_hours", JList top_hours)])
  end.

(** *** Query validation and the exception handlers *)

Definition digit_of (c : ascii) : option Z :=
  let n := Z.of_N (N_of_ascii c) in
  if (48 <=? n) && (n <=? 57) then Some (n - 48) else None.

Fixpoint parse_digits (acc : Z) (s : string) : option Z :=
  match s with
  | EmptyString => Some acc
  | String c s' => d ← digit_of c; parse_digits (acc * 10 + d) s'
  end.

(** The reading of a plain decimal numeral: decimal digits after an
    optional sign. *)
Definition parse_decimal (s : string) : option Z :=
  match s with
  | EmptyString => None
  | String "-" (String _ _ as s') => Z.opp <$> parse_digits 0 s'
  | String "+" (String _ _ as s') => parse_digits 0 s'
  | _ => parse_digits 0 s
  end.

(** [limit: int = Query(default=10, ge=1, le=100)]: the value the handler
    receives, or the validation error raised before the handler runs. *)
Definition limit_param `{Library} (raw : option string) : outcome Z :=
  match raw with
  | None => Return 10
  | Some s =>
      match parse_int s with
      | None => Raise (RequestValidationError "limit" "int_parsing")
      | Some n =>
          if n <? 1 then Raise (RequestValidationError "limit" "greater_than_equal")
          else if 100 <? n then Raise (RequestValidationError "limit" "less_than_equal")
          else Return n
      end
  end.

Inductive body : Type :=
  | JsonBody (j : json)
  | TextBody (s : string).

Record Response : Type := {
  status_code : Z;
  content : body
}.

Definition http_exception_handler (exc_status_code : Z) (exc_detail : string) : Response :=
  {| status_code := exc_status_code;
     content := JsonBody (JDict [("status", JStr "error");
                                 ("message", JStr exc_detail)]) |}.

Definition validation_exception_handler (exc_loc exc_msg : string) : Response :=
  {| status_code := 400;
     content := JsonBody (JDict
       [("status", JStr "error");
        ("message", JStr "Invalid query parameter: limit must be between 1 and 100")]) |}.

(** The routes of the application; [limit] is the raw query value, when the
    request has one. *)
Inductive Request : Type :=
  | GET_health
  | GET_kpis
  | GET_categories_top (limit : option string)
  | GET_orders_distribution.

Definition route `{Library} (st : State) (req : Request) : outcome json :=
  match req with
  | GET_health => health
  | GET_kpis => get_kpis st
  | GET_categories_top raw => limit ← limit_param raw; get_top_categories st limit
  | GET_orders_distribution => get_order_distribution st
  end.

(** What the client receives: the handler's value is a 200, an exception
    goes to its registered handler, any other exception is the server's
    plain 500. *)
Definition respond (result : outcome json) : Response :=
  match result with
  | Return j => {| status_code := 200; content := JsonBody j |}
  | Raise (HTTPException status detail) => http_exception_handler status detail
  | Raise (RequestValidationError loc msg) => validation_exception_handler loc msg
  | Raise _ => {| status_code := 500; content := TextBody "Internal Server Error" |}
  end.

Definition app `{Library} (st : State) (req : Request) : Response := respond (route st req).


Definition sample_state : State :=
  {| df := Some sample_data;
     category_columns := ["fresh_fruits"; "yogurt"; "packaged_cheese"] |}.

(** ** A library to evaluate with *)

(** The positions of [l] in the order a stable sort by [before] puts its
    values in. *)
Definition stable_argsort (before : Q -> Q -> bool) (l : list Q) : list nat :=
  map fst (isort (fun a b : nat * Q => before a.2 b.2) (zip (seq 0 (length l)) l)).

(** A library whose sorts are stable, whose [KeyError] names the labels it
    did not find, and which reads plain decimal numerals and nothing else. *)
Definition reference_library : Library :=
  {| argsort := stable_argsort Qle_bool;
     argsort_descending := stable_argsort (fun x y => Qle_bool y x);
     not_in_index := fun cols names =>
       "['" +:+ String.concat "', '" (List.filter (fun name => bool_decide (name ∉ cols)) names)
            +:+ "'] not in index";
     parse_int := parse_decimal |}.

(** A library whose descending order is its ascending order read backwards:
    values that are equal come in the reverse of the order they stood in. *)
Definition reversing_library : Library :=
  {| argsort := stable_argsort Qle_bool;
     argsort_descending := fun l => rev (stable_argsort Qle_bool l);
     not_in_index := not_in_index (Library := reference_library);
     parse_int := parse_decimal |}.

(** ** IEEE 754 binary64 as the Standard Library specifies it *)

(** The float64 of an integer, float64 division and multiplication (round
    to nearest, ties to even), and the exact value of a float64. *)
Definition float64_of_Z (z : Z) : spec_float := binary_normalize 53 1024 z 0 false.

Definition float64_div (x y : spec_float) : spec_float := SFdiv 53 1024 x y.

Definition float64_mul (x y : spec_float) : spec_float := SFmul 53 1024 x y.

Definition float64_value (x : spec_float) : num :=
  match x with
  | S754_zero _ => Num 0
  | S754_finite sign m e =>
      Num ((if sign then - inject_Z (Zpos m) else inject_Z (Zpos m))
           * (if 0 <=? e then inject_Z (2 ^ e) else / inject_Z (2 ^ (- e))))%Q
  | _ => NaN
  end.

(** The float64 [x] is the number [q]. *)
Definition agree (x : num) (q : Q) : bool :=
  match x with
  | Num x => Qeq_bool x q
  | NaN => false
  end.

(** ** What the specification states, in its own words *)

(** Python's [sub in s]. *)
Definition str_in (sub s : string) : bool :=
  match index 0 sub s with
  | Some _ => true
  | None => false
  end.

(** The body of every error response. *)
Definition error_body (message : string) : body :=
  JsonBody (JDict [("status", JStr "error"); ("message", JStr message)]).

(** The strings the four rules of the specification give for the hours 0
    to 23. *)
Definition twelve_hour_clock : list string :=
  ["12:00 AM"; "1:00 AM"; "2:00 AM"; "3:00 AM"; "4:00 AM"; "5:00 AM";
   "6:00 AM"; "7:00 AM"; "8:00 AM"; "9:00 AM"; "10:00 AM"; "11:00 AM";
   "12:00 PM"; "1:00 PM"; "2:00 PM"; "3:00 PM"; "4:00 PM"; "5:00 PM";
   "6:00 PM"; "7:00 PM"; "8:00 PM"; "9:00 PM"; "10:00 PM"; "11:00 PM"].

(** The names of a header that are no metadata names, in header order. *)
Definition categories_of (cols : list string) : list string :=
  filter (fun col => col ∉ meta_cols) cols.

(** The value a cell adds to a sum that skips the missing ones. *)
Definition num_value (c : num) : Q :=
  match c with
  | NaN => 0%Q
  | Num q => q
  end.

(** [r] is [x] rounded to [ndigits] decimal places: a multiple of
    [10^-ndigits] nearest to [x]. *)
Definition rounded_to (ndigits : nat) (x r : Q) : Prop :=
  exists k : Z,
    (r == inject_Z k / inject_Z (10 ^ Z.of_nat ndigits))%Q
    /\ (inject_Z k - (1 # 2) <= x * inject_Z (10 ^ Z.of_nat ndigits))%Q
    /\ (x * inject_Z (10 ^ Z.of_nat ndigits) <= inject_Z k + (1 # 2))%Q.

(** [z] is [q] with its fraction dropped: the whole number next to [q] on
    the side of 0. *)
Definition truncated (q : Q) (z : Z) : Prop :=
  ((0 <= q)%Q -> (inject_Z z <= q)%Q /\ (q < inject_Z z + 1)%Q)
  /\ ((q <= 0)%Q -> (inject_Z z - 1 < q)%Q /\ (q <= inject_Z z)%Q).

(** [ranking] reads [l] along a rearrangement of its positions in which
    elements of equal [key] stand in the order they have in [l]: the first
    of them in [l] wins. *)
Definition keeps_ties {A} (key : A -> Q) (l ranking : list A) : Prop :=
  exists positions : list nat,
    positions ≡ₚ seq 0 (length l)
    /\ Forall2 (fun a p => l !! p = Some a) ranking positions
    /\ forall i j p q a b,
         (i < j)%nat -> positions !! i = Some p -> positions !! j = Some q ->
         l !! p = Some a -> l !! q = Some b -> (key a == key b)%Q -> (p < q)%nat.


(** [row[name]]: the cell of a row under a column name. *)
Definition row_cell (cols : list string) (row : list num) (name : string) : num :=
  cell_at row (default 0%nat (get_loc cols name)).

(** The items of one order: the sum over the category columns of the row's
    cells, a null counting for 0. *)
Definition basket_size (data : DataFrame) (row : list num) : Q :=
  Qsum (map (fun name => num_value (row_cell (columns data) row name))
            (categories_of (columns data))).

(** The items of one category: the sum over the orders of the column's
    cells, a null counting for 0. *)
Definition category_total (data : DataFrame) (name : string) : Q :=
  Qsum (map (fun row => num_value (row_cell (columns data) row name)) (values data)).

(** [a] is the arithmetic mean of [l]. *)
Definition arithmetic_mean (l : list Q) (a : Q) : Prop :=
  l <> [] /\ (a * inject_Z (Z.of_nat (length l)) == Qsum l)%Q.

(** [m] is the median of [l]: the half sum of the lower and the upper middle
    value of [l] in ascending order (the middle value twice when the length
    is odd). *)
Definition statistical_median (l : list Q) (m : Q) : Prop :=
  exists (s : list Q) (lo hi : Q),
    s ≡ₚ l /\ StronglySorted Qle s
    /\ s !! ((length l - 1) / 2)%nat = Some lo
    /\ s !! (length l / 2)%nat = Some hi
    /\ (m == (lo + hi) / 2)%Q.

(** The number of values of [l] equal to [q]. *)
Definition occurrences (q : Q) (l : list Q) : nat :=
  length (List.filter (fun x => Qeq_bool x q) l).

(** The distinct values of [l], in the order they are first met. *)
Definition first_seen (l : list Q) : list Q :=
  foldl (fun seen x => if existsb (Qeq_bool x) seen then seen else seen ++ [x]) [] l.

(** A cell that holds a whole number of [lo..hi]. *)
Definition whole_in (lo hi : Z) (c : num) : Prop :=
  exists (q : Q) (z : Z), c = Num q /\ (q == inject_Z z)%Q /\ lo <= z <= hi.

(** The two columns [get_order_distribution] reads, as the data model has
    them: [order_dow] of 0..6 and [order_hour_of_day] of 0..23. *)
Definition order_table (table : DataFrame) : Prop :=
  exists dows hours,
    getitem table "order_dow" = Return dows /\ Forall (whole_in 0 6) dows
    /\ getitem table "order_hour_of_day" = Return hours
    /\ Forall (whole_in 0 23) hours.

(** The fixed mapping of day numbers to day names. *)
Definition day_name (d : Z) : string :=
  match d with
  | 0 => "Sunday"
  | 1 => "Monday"
  | 2 => "Tuesday"
  | 3 => "Wednesday"
  | 4 => "Thursday"
  | 5 => "Friday"
  | 6 => "Saturday"
  | _ => ""
  end.

(** The number of orders placed on day [d]. *)
Definition orders_on (dows : list num) (d : Z) : nat :=
  occurrences (inject_Z d) (dropna dows).

(** The share of day [d] in [total] orders, in percent. *)
Definition day_share (dows : list num) (total : nat) (d : Z) : Q :=
  (inject_Z (Z.of_nat (orders_on dows d)) / inject_Z (Z.of_nat total) * 100)%Q.

(** The float [(count / total) * 100] of two whole numbers. *)
Definition percent (count total : nat) : Q :=
  float_mul (float_div (inject_Z (Z.of_nat count)) (inject_Z (Z.of_nat total))) 100.

(** The entry of [day_of_week_distribution] for day [d]. *)
Definition day_entry (dows : list num) (total : nat) (d : Z) : json :=
  JDict [("day", JStr (day_name d));
         ("day_number", JInt d);
         ("orders", JInt (Z.of_nat (orders_on dows d)));
         ("percentage", JFloat (py_round (Num (percent (orders_on dows d) total)) 1))].

(** The entry of [peak_hours] for the hour value [h]. *)
Definition hour_json (hours : list num) (h : Q) : json :=
  JDict [("hour", JStr (format_hour (py_int h)));
         ("hour_24", JInt (py_int h));
         ("orders", JInt (Z.of_nat (occurrences h (dropna hours))))].

(** [d[key]] of a JSON object. *)
Definition json_get (key : string) (j : json) : option json :=
  match j with
  | JDict kv => (fun p => p.2) <$> (snd <$> list_find (fun p => p.1 = key) kv)
  | _ => None
  end.

(** ** Auxiliary definitions of the proofs *)

(** The positions [df[names]] reads. *)
Definition locs_of (cols names : list string) : list nat :=
  map (fun name => default 0%nat (get_loc cols name)) names.

(** A row of the loaded table: the cells under a category name filled, the
    others as they were. *)
Definition load_row (cols cats : list string) (row : list num) : list num :=
  imap (fun i name =>
          match get_loc cats name with
          | Some _ => fillna_cell (cell_at row (default 0%nat (get_loc cols name)))
          | None => cell_at row i
          end) cols.

(** The table [load_data] returns. *)
Definition loaded_table (data : DataFrame) : DataFrame :=
  {| columns := columns data;
     values := map (load_row (columns data) (categories_of (columns data)))
                   (values data) |}.

(** Its category columns, [df[category_columns]]. *)
Definition loaded_categories (data : DataFrame) : DataFrame :=
  {| columns := categories_of (columns data);
     values := map (fun row =>
                      map (fun name => fillna_cell (row_cell (columns data) row name))
                          (categories_of (columns data)))
                   (values data) |}.

(** The total the code computes for a category. *)
Definition column_nansum (data : DataFrame) (name : string) : Q :=
  nansum (map (fun row => fillna_cell (row_cell (columns data) row name)) (values data)).

(** The order of decorated elements: by [before], a tie by position. *)
Definition decorated_before {A} (before : A -> A -> bool) (x y : nat * A) : Prop :=
  before x.2 y.2 = true /\ (before y.2 x.2 = true -> (x.1 < y.1)%nat).

(** Equal numbers, or both missing. *)
Definition num_eq (x y : num) : Prop :=
  match x, y with
  | NaN, NaN => True
  | Num a, Num b => (a == b)%Q
  | _, _ => False
  end.

(** The counted value as [value_counts] holds it. *)
Definition counted (s : list num) (k : Q) : Q * Q :=
  (k, inject_Z (Z.of_nat (occurrences k (dropna s)))).

(** The distinct values of a column, ascending. *)
Definition ascending_values (s : list num) : list Q :=
  isort Qle_bool (first_seen (dropna s)).

(** The day numbers of the distribution: the distinct values of the column,
    ascending. *)
Definition dow_days (dows : list num) : list Z := map py_int (ascending_values dows).

(** The categories in the order [sort_values] puts their totals in. *)
Definition ranked_categories `{Library} (data : DataFrame) : list string :=
  map fst (sort_values_desc (sum_axis0 (loaded_categories data))).

(** The distinct hours in the order of [hour_counts]. *)
Definition ranked_hours `{Library} (hours : list num) : list Q :=
  map fst (sort_values_desc (value_counts hours)).

(** ** Definitions for the further properties *)

(** The sum of a list of integers. *)
Definition sum_Z (l : list Z) : Z := foldr Z.add 0 l.

(** A cell that is missing or holds a whole number. *)
Definition whole_or_null (c : num) : Prop :=
  match c with
  | NaN => True
  | Num q => exists z : Z, (q == inject_Z z)%Q
  end.

(** The entry of [top_categories] for a category column. *)
Definition top_entry (data : DataFrame) (name : string) : json :=
  JDict [("category", JStr name);
         ("total_items", JInt (py_int (category_total data name)))].

(** ** What the libraries promise *)

(** [order] holds every position of [l] once, and along it the values stand
    in the order [before]. *)
Definition sorting (before : Q -> Q -> Prop) (l : list Q) (order : list nat) : Prop :=
  order ≡ₚ seq 0 (length l)
  /\ StronglySorted
       (fun i j => exists x y, l !! i = Some x /\ l !! j = Some y /\ before x y) order.

(** The sorts, whatever their [kind]: the values in order, none lost and
    none repeated. *)
Definition sorting_contract (L : Library) : Prop :=
  (forall l, sorting Qle l (argsort l))
  /\ (forall l, sorting (fun x y => (y <= x)%Q) l (argsort_descending l)).

(** A descending sort that is stable: values that are equal stay in the
    order they stood in. *)
Definition stable_descending (L : Library) : Prop :=
  forall l, argsort_descending l = stable_argsort (fun x y => Qle_bool y x) l.

Definition is_letter (c : ascii) : bool :=
  let n := Z.of_N (N_of_ascii c) in
  ((65 <=? n) && (n <=? 90)) || ((97 <=? n) && (n <=? 122)).

(** [s] is a word of letters of [a..z] and [A..Z]. *)
Definition only_letters (s : string) : bool :=
  match s with
  | EmptyString => false
  | String _ _ => forallb is_letter (list_ascii_of_string s)
  end.

(** The validation of an [int]: a plain decimal numeral of up to 18
    characters is read as its value, and a word of letters is not read as
    an integer. *)
Definition int_contract (L : Library) : Prop :=
  (forall s n, (String.length s <= 18)%nat -> parse_decimal s = Some n ->
               parse_int s = Some n)
  /\ (forall s, only_letters s = true -> parse_int s = None).

(** ** The data model *)

(** A cell of an item count: missing, or a whole number that is not
    negative. *)
Definition count_cell (c : num) : Prop :=
  match c with
  | NaN => True
  | Num q => exists n : nat, (q == inject_Z (Z.of_nat n))%Q
  end.

(** The category cells of a table are item counts. *)
Definition item_counts (data : DataFrame) : Prop :=
  forall row name, row ∈ values data -> name ∈ categories_of (columns data) ->
                   count_cell (row_cell (columns data) row name).

(** The number of cells of a column that hold the number [q]. *)
Definition cells_with (col : list num) (q : Q) : nat :=
  length (List.filter (fun c => match c with Num x => Qeq_bool x q | NaN => false end) col).

(** The share of the rows whose cell of the column holds [q], in percent:
    (count / total rows) * 100. *)
Definition share (col : list num) (total : nat) (q : Q) : Q :=
  (inject_Z (Z.of_nat (cells_with col q)) / inject_Z (Z.of_nat total) * 100)%Q.

(** The entry of [day_of_week_distribution] for the day value [k], of day
    number [d] and percentage [p]. *)
Definition dow_json (dows : list num) (k : Q) (d : Z) (p : Q) : json :=
  JDict [("day", JStr (day_name d));
         ("day_number", JInt d);
         ("orders", JInt (Z.of_nat (cells_with dows k)));
         ("percentage", JFloat (Num p))].
(** * Properties *)

Section Properties.
Context {L : Library}.
Hypothesis library_sorts : sorting_contract L.
Hypothesis library_reads : int_contract L.

(** ** Numbers: truncation *)

Lemma py_int_comp (q q' : Q) : q == q' -> py_int q = py_int q'.
Proof.
  intros Heq. unfold py_int.
  rewrite (Qfloor_comp _ _ Heq), (Qceiling_comp _ _ Heq).
  now rewrite (Qleb_comp 0%Q 0%Q (Qeq_refl 0) _ _ Heq).
Qed.

Lemma py_int_inject_Z (z : Z) : py_int (inject_Z z) = z.
Proof.
  unfold py_int. rewrite Qfloor_Z, Qceiling_Z. now destruct (Qle_bool 0 (inject_Z z)).
Qed.

Lemma py_int_truncated (q : Q) : truncated q (py_int q).
Proof.
  unfold truncated, py_int.
  pose proof (Qfloor_le q) as Hf1. pose proof (Qlt_floor q) as Hf2.
  pose proof (Qle_ceiling q) as Hc1. pose proof (Qceiling_lt q) as Hc2.
  rewrite inject_Z_plus in Hf2.
  replace (Qceiling q - 1) with (Qceiling q + -1) in Hc2 by lia.
  rewrite inject_Z_plus in Hc2.
  change (inject_Z 1) with 1%Q in *. change (inject_Z (-1)) with (-1)%Q in *.
  destruct (Qle_bool 0 q) eqn:Hsign.
  - apply Qle_bool_iff in Hsign. split; [intros _; split; lra|].
    intros Hq. assert (Hzero : (q == 0)%Q) by lra.
    rewrite (Qfloor_comp _ _ Hzero). rewrite Hzero.
    change (Qfloor 0) with 0. change (inject_Z 0) with 0%Q. split; lra.
  - assert (Hneg : (q < 0)%Q).
    { apply Qnot_le_lt. intros Hle. apply Qle_bool_iff in Hle. congruence. }
    split; [intros Hq; lra | intros _; split; lra].
Qed.

(** ** Hours *)

Ltac hour_rule := intros; first [reflexivity | exfalso; lia].

(** C6. For an hour [h] of 0..23 the entry of [peak_hours] carries [h] as
    [hour_24] and, as [hour], the 12-hour reading of [h]: "12:00 AM" for 0,
    "h:00 AM" for 1..11, "12:00 PM" for 12 and "(h-12):00 PM" for 13..23,
    the number written in decimal. *)
Theorem format_hour_12h (h : Z) (hour count : Q) :
  0 <= h <= 23 ->
  hour == inject_Z h ->
  hour_entry (hour, count)
    = JDict [("hour", JStr (format_hour h)); ("hour_24", JInt h);
             ("orders", JInt (py_int count))]
  /\ twelve_hour_clock !! Z.to_nat h = Some (format_hour h)
  /\ (h = 0 -> format_hour h = "12:00 AM")
  /\ (1 <= h <= 11 -> format_hour h = pretty h +:+ ":00 AM")
  /\ (h = 12 -> format_hour h = "12:00 PM")
  /\ (13 <= h <= 23 -> format_hour h = pretty (h - 12) +:+ ":00 PM").
Proof.
  intros Hh Hhour. split.
  { unfold hour_entry. now rewrite (py_int_comp _ _ Hhour), py_int_inject_Z. }
  assert (Hn : (Z.to_nat h < 24)%nat) by lia.
  rewrite <- (Z2Nat.id h) by lia.
  rewrite Nat2Z.id.
  generalize dependent (Z.to_nat h). intros n Hn.
  do 24 (destruct n as [|n];
         [split; [reflexivity | split; [hour_rule | split;
            [hour_rule | split; [hour_rule | hour_rule]]]] |]).
  lia.
Qed.

(** ** Looking columns up *)

Lemma get_loc_Some (cols : list string) (name : string) (i : nat) :
  get_loc cols name = Some i -> cols !! i = Some name.
Proof.
  unfold get_loc. intros H.
  destruct (list_find (fun c => c = name) cols) as [[j x]|] eqn:Hfind;
    simpl in H; [|discriminate].
  injection H as <-.
  apply list_find_Some in Hfind as (Hj & -> & _). exact Hj.
Qed.

Lemma get_loc_elem_of (cols : list string) (name : string) :
  name ∈ cols -> exists i, get_loc cols name = Some i.
Proof.
  intros Hin. unfold get_loc.
  destruct (list_find_elem_of (fun c => c = name) cols name Hin eq_refl) as [[i x] ->].
  now exists i.
Qed.

Lemma get_loc_None (cols : list string) (name : string) :
  name ∉ cols -> get_loc cols name = None.
Proof.
  intros Hnin. unfold get_loc.
  destruct (list_find (fun c => c = name) cols) as [[j x]|] eqn:Hfind; [|reflexivity].
  apply list_find_Some in Hfind as (Hj & -> & _).
  exfalso. apply Hnin. eapply list_elem_of_lookup_2. exact Hj.
Qed.

Lemma getitem_cols_Return (df : DataFrame) (names : list string) :
  Forall (fun name => name ∈ columns df) names ->
  getitem_cols df names
  = Return {| columns := names;
              values := map (fun row => map (cell_at row) (locs_of (columns df) names))
                            (values df) |}.
Proof.
  intros Hall. unfold getitem_cols.
  assert (Hlocs : mapM (get_loc (columns df)) names = Some (locs_of (columns df) names)).
  { induction Hall as [|name names Hin _ IH]; [reflexivity|].
    destruct (get_loc_elem_of _ _ Hin) as [i Hi].
    cbn [mapM]. rewrite Hi, IH. unfold locs_of. cbn. now rewrite Hi. }
  now rewrite Hlocs.
Qed.

Lemma cell_at_lookup (row : list num) (i : nat) (c : num) :
  row !! i = Some c -> cell_at row i = c.
Proof. unfold cell_at. now intros ->. Qed.

Lemma cell_at_map {A} (f : A -> num) (l : list A) (j : nat) (x : A) :
  l !! j = Some x -> cell_at (map f l) j = f x.
Proof.
  intros H. apply cell_at_lookup.
  change (map f l) with (f <$> l). now rewrite list_lookup_fmap, H.
Qed.

Lemma locs_of_lookup (cols names : list string) (j i : nat) (name : string) :
  names !! j = Some name -> get_loc cols name = Some i ->
  locs_of cols names !! j = Some i.
Proof.
  intros Hj Hi. unfold locs_of.
  change (map ?f names) with (f <$> names).
  now rewrite list_lookup_fmap, Hj; cbn; rewrite Hi.
Qed.

(** ** [load_data] *)

Lemma categories_of_elem_of (cols : list string) (name : string) :
  name ∈ categories_of cols <-> (name ∉ meta_cols) /\ (name ∈ cols).
Proof. unfold categories_of. now rewrite list_elem_of_filter. Qed.

Lemma load_data_Return (data : DataFrame) :
  load_data data
  = Return ({| columns := columns data;
               values := map (load_row (columns data) (categories_of (columns data)))
                             (values data) |},
            categories_of (columns data)).
Proof.
  unfold load_data. fold (categories_of (columns data)).
  set (cols := columns data). set (cats := categories_of cols).
  rewrite getitem_cols_Return.
  2:{ apply Forall_forall. intros name Hin. now apply categories_of_elem_of in Hin. }
  cbn. unfold setitem_cols, fillna0. cbn. fold cols. do 3 f_equal.
  induction (values data) as [|row rows IH]; [reflexivity|].
  cbn. f_equal; [|exact IH].
  unfold load_row. apply imap_ext. intros i name Hi. cbn.
  destruct (get_loc cats name) as [j|] eqn:Hj; [|reflexivity].
  pose proof (get_loc_Some _ _ _ Hj) as Hcat.
  assert (Hin : name ∈ cols).
  { apply list_elem_of_lookup_2 in Hcat. now apply categories_of_elem_of in Hcat. }
  destruct (get_loc_elem_of _ _ Hin) as [i0 Hi0]. rewrite Hi0. cbn.
  rewrite map_map.
  apply (cell_at_map (fun x => fillna_cell (cell_at row x)) _ j i0).
  eapply locs_of_lookup; eassumption.
Qed.

Lemma load_row_cell (cols cats : list string) (row : list num) (i : nat) (name : string) :
  cols !! i = Some name ->
  cell_at (load_row cols cats row) i
  = match get_loc cats name with
    | Some _ => fillna_cell (cell_at row (default 0%nat (get_loc cols name)))
    | None => cell_at row i
    end.
Proof.
  intros Hi. apply cell_at_lookup. unfold load_row.
  now rewrite list_lookup_imap, Hi.
Qed.




(** ** Numbers: sums and rounding *)

Section Sums.
Local Open Scope Q_scope.

Lemma foldl_Qplus (a : Q) (l : list Q) : foldl Qplus a l == a + Qsum l.
Proof.
  unfold Qsum. revert a. induction l as [|x l IH]; intros a; cbn [foldl].
  - lra.
  - rewrite (IH (a + x)), (IH (0 + x)). lra.
Qed.

Lemma Qsum_cons (x : Q) (l : list Q) : Qsum (x :: l) == x + Qsum l.
Proof. unfold Qsum at 1. cbn [foldl]. rewrite foldl_Qplus. lra. Qed.

Lemma Qsum_Forall2 (l k : list Q) : Forall2 Qeq l k -> Qsum l == Qsum k.
Proof.
  induction 1 as [|x y l k Hxy _ IH]; [reflexivity|].
  now rewrite !Qsum_cons, Hxy, IH.
Qed.

Lemma nansum_Qsum (l : list num) : nansum l == Qsum (map num_value l).
Proof.
  unfold nansum. rewrite <- (Qplus_0_l (Qsum (map num_value l))). generalize 0 as a.
  assert (H : forall a, foldl (fun acc c => match c with NaN => acc | Num q => acc + q end) a l
                        == a + Qsum (map num_value l)).
  { induction l as [|c l IH]; intros a; cbn [foldl map].
    - change (Qsum []) with 0. lra.
    - rewrite IH, Qsum_cons. destruct c; cbn [num_value]; lra. }
  intros a. apply H.
Qed.

Lemma round_half_even_comp (q q' : Q) :
  q == q' -> round_half_even q = round_half_even q'.
Proof.
  intros Heq. unfold round_half_even. cbv zeta.
  rewrite (Qfloor_comp _ _ Heq).
  assert (Hcmp : Qcompare (q - inject_Z (Qfloor q')) (1 # 2)
                 = Qcompare (q' - inject_Z (Qfloor q')) (1 # 2)).
  { apply Qcompare_comp; [|reflexivity]. now apply Qplus_comp. }
  now rewrite Hcmp.
Qed.

Lemma round_half_even_bounds (q : Q) :
  inject_Z (round_half_even q) - (1 # 2) <= q
  /\ q <= inject_Z (round_half_even q) + (1 # 2).
Proof.
  unfold round_half_even. cbv zeta.
  pose proof (Qfloor_le q) as Hlo. pose proof (Qlt_floor q) as Hhi.
  rewrite inject_Z_plus in Hhi.
  change (inject_Z 1) with 1 in Hhi.
  set (f := Qfloor q) in *.
  destruct (Qcompare (q - inject_Z f) (1 # 2)) eqn:Hcmp.
  - apply Qeq_alt in Hcmp.
    destruct (Z.even f); rewrite ?inject_Z_plus; change (inject_Z 1) with 1; lra.
  - apply Qlt_alt in Hcmp. lra.
  - apply Qgt_alt in Hcmp. rewrite inject_Z_plus. change (inject_Z 1) with 1. lra.
Qed.

Lemma py_round_comp (q q' : Q) (ndigits : nat) :
  q == q' -> py_round (Num q) ndigits = py_round (Num q') ndigits.
Proof.
  intros Heq. unfold py_round, round_to. cbv zeta.
  rewrite (round_half_even_comp (q * inject_Z (10 ^ Z.of_nat ndigits))
                                (q' * inject_Z (10 ^ Z.of_nat ndigits))); [reflexivity|].
  now apply Qmult_comp.
Qed.

Lemma py_round_rounded (x : Q) (ndigits : nat) :
  exists r, py_round (Num x) ndigits = Num r /\ rounded_to ndigits x r.
Proof.
  eexists. split; [reflexivity|].
  exists (round_half_even (x * inject_Z (10 ^ Z.of_nat ndigits))).
  split; [reflexivity | apply round_half_even_bounds].
Qed.

Lemma round_to_rounded (x : Q) (ndigits : nat) : rounded_to ndigits x (round_to x ndigits).
Proof.
  destruct (py_round_rounded x ndigits) as (r & [= <-] & Hr). exact Hr.
Qed.

(** Rounding to one decimal place moves a value by 0.05 at most. *)
Lemma rounded_to_1_error (x r : Q) :
  rounded_to 1 x r -> r - (1 # 20) <= x /\ x <= r + (1 # 20).
Proof.
  intros (k & Hr & Hlo & Hhi).
  change (inject_Z (10 ^ Z.of_nat 1)) with 10 in *.
  rewrite Hr. unfold Qdiv. change (/ 10) with (1 # 10).
  generalize dependent (inject_Z k). intros z _ Hlo Hhi. split; lra.
Qed.

Lemma round_half_even_le (b : Z) (q : Q) :
  q < inject_Z b + (1 # 2) -> (round_half_even q <= b)%Z.
Proof.
  intros Hq. destruct (round_half_even_bounds q) as [Hlo _].
  destruct (Z_le_gt_dec (round_half_even q) b) as [|Hgt]; [assumption|].
  assert (Hk : inject_Z b + 1 <= inject_Z (round_half_even q)).
  { change 1 with (inject_Z 1). rewrite <- inject_Z_plus, <- Zle_Qle. lia. }
  lra.
Qed.

Lemma round_half_even_ge (a : Z) (q : Q) :
  inject_Z a - (1 # 2) < q -> (a <= round_half_even q)%Z.
Proof.
  intros Hq. destruct (round_half_even_bounds q) as [_ Hhi].
  destruct (Z_le_gt_dec a (round_half_even q)) as [|Hgt]; [assumption|].
  assert (Hk : inject_Z (round_half_even q) + 1 <= inject_Z a).
  { change 1 with (inject_Z 1). rewrite <- inject_Z_plus, <- Zle_Qle. lia. }
  lra.
Qed.

Lemma round_half_even_inject_Z (z : Z) : round_half_even (inject_Z z) = z.
Proof.
  apply Z.le_antisymm.
  - apply round_half_even_le. lra.
  - apply round_half_even_ge. lra.
Qed.

(** ** binary64 *)

Lemma Qdiv_le_cross (x y c d : Z) :
  (0 < c)%Z -> (0 < d)%Z -> (x * d <= y * c)%Z ->
  inject_Z x / inject_Z c <= inject_Z y / inject_Z d.
Proof.
  intros Hc Hd Hle.
  assert (Hc' : 0 < inject_Z c) by (change 0 with (inject_Z 0); now rewrite <- Zlt_Qlt).
  assert (Hd' : 0 < inject_Z d) by (change 0 with (inject_Z 0); now rewrite <- Zlt_Qlt).
  apply Qle_shift_div_l; [exact Hd'|].
  assert (Heq : inject_Z x / inject_Z c * inject_Z d
                == inject_Z x * inject_Z d / inject_Z c) by (field; lra).
  rewrite Heq. apply Qle_shift_div_r; [exact Hc'|].
  rewrite <- !inject_Z_mult, <- Zle_Qle. exact Hle.
Qed.

Lemma Qpow2_pos (e : Z) : 0 < 2 ^ e.
Proof. apply Qpower_0_lt. reflexivity. Qed.

Lemma Qpow2_inject (n : Z) : (0 <= n)%Z -> 2 ^ n == inject_Z (2 ^ n).
Proof. intros Hn. now rewrite (Zpower_Qpower 2 n Hn). Qed.

(** The leading bit of a positive number is not above it. *)
Lemma ilog2_le (q : Q) : 0 < q -> 2 ^ ilog2 q <= q.
Proof.
  destruct q as [a b]. intros Hq.
  assert (Ha : (0 < a)%Z) by (unfold Qlt in Hq; cbn in Hq; lia).
  unfold ilog2. cbn [Qnum Qden].
  pose proof (Z.log2_nonneg a) as Hla. pose proof (Z.log2_nonneg (Z.pos b)) as Hlb.
  destruct (Z.log2_spec a Ha) as [Ha1 Ha2].
  destruct (Z.log2_spec (Z.pos b) (Pos2Z.is_pos b)) as [Hb1 Hb2].
  set (la := Z.log2 a) in *. set (lb := Z.log2 (Z.pos b)) in *.
  assert (Hpa : (0 < 2 ^ la)%Z) by (apply Z.pow_pos_nonneg; lia).
  assert (Hpb : (0 < 2 ^ lb)%Z) by (apply Z.pow_pos_nonneg; lia).
  rewrite (Qmake_Qdiv a b).
  destruct (Z.ltb_spec (a * 2 ^ lb) (Z.pos b * 2 ^ la)) as [Hlt | Hge].
  - replace (la - lb - 1)%Z with (la - (lb + 1))%Z by lia.
    rewrite Qpower_minus by discriminate.
    rewrite (Qpow2_inject la), (Qpow2_inject (lb + 1)) by lia.
    apply Qdiv_le_cross; [apply Z.pow_pos_nonneg; lia | lia |].
    replace (Z.succ lb) with (lb + 1)%Z in Hb2 by lia. nia.
  - rewrite Qpower_minus by discriminate.
    rewrite (Qpow2_inject la), (Qpow2_inject lb) by lia.
    apply Qdiv_le_cross; [lia | lia | lia].
Qed.

(** It is half of the next power of two at most. *)
Lemma ilog2_lt (q : Q) : 0 < q -> q < 2 ^ (ilog2 q + 1).
Proof.
  destruct q as [a b]. intros Hq.
  assert (Ha : (0 < a)%Z) by (unfold Qlt in Hq; cbn in Hq; lia).
  unfold ilog2. cbn [Qnum Qden].
  pose proof (Z.log2_nonneg a) as Hla. pose proof (Z.log2_nonneg (Z.pos b)) as Hlb.
  destruct (Z.log2_spec a Ha) as [Ha1 Ha2].
  destruct (Z.log2_spec (Z.pos b) (Pos2Z.is_pos b)) as [Hb1 Hb2].
  set (la := Z.log2 a) in *. set (lb := Z.log2 (Z.pos b)) in *.
  assert (Hpa : (0 < 2 ^ la)%Z) by (apply Z.pow_pos_nonneg; lia).
  assert (Hpb : (0 < 2 ^ lb)%Z) by (apply Z.pow_pos_nonneg; lia).
  replace (Z.succ la) with (la + 1)%Z in Ha2 by lia.
  assert (Hcross : forall x y c d : Z,
            (0 < c)%Z -> (0 < d)%Z -> (x * d < y * c)%Z ->
            inject_Z x / inject_Z c < inject_Z y / inject_Z d).
  { intros x y c d Hc Hd Hlt.
    assert (Hc' : 0 < inject_Z c) by (change 0 with (inject_Z 0); now rewrite <- Zlt_Qlt).
    assert (Hd' : 0 < inject_Z d) by (change 0 with (inject_Z 0); now rewrite <- Zlt_Qlt).
    apply Qlt_shift_div_l; [exact Hd'|].
    assert (Heq : inject_Z x / inject_Z c * inject_Z d
                  == inject_Z x * inject_Z d / inject_Z c) by (field; lra).
    rewrite Heq. apply Qlt_shift_div_r; [exact Hc'|].
    rewrite <- !inject_Z_mult, <- Zlt_Qlt. exact Hlt. }
  rewrite (Qmake_Qdiv a b).
  destruct (Z.ltb_spec (a * 2 ^ lb) (Z.pos b * 2 ^ la)) as [Hlt | Hge].
  - replace (la - lb - 1 + 1)%Z with (la - lb)%Z by lia.
    rewrite Qpower_minus by discriminate.
    rewrite (Qpow2_inject la), (Qpow2_inject lb) by lia.
    apply Hcross; [lia | lia | lia].
  - replace (la - lb + 1)%Z with (la + 1 - lb)%Z by lia.
    rewrite Qpower_minus by discriminate.
    rewrite (Qpow2_inject (la + 1)), (Qpow2_inject lb) by lia.
    apply Hcross; [lia | lia | nia].
Qed.

(** Rounding looks at the number, not at the fraction that stands for it. *)
Lemma round_binary64_comp (q q' : Q) : q == q' -> round_binary64 q = round_binary64 q'.
Proof.
  intros Heq. unfold round_binary64. now rewrite (Qred_complete _ _ Heq).
Qed.

(** Rounding to binary64 moves a number by at most 2^-53 of itself. *)
Lemma round_binary64_error (q : Q) :
  0 <= q ->
  q * (1 - half_ulp) <= round_binary64 q /\ round_binary64 q <= q * (1 + half_ulp).
Proof.
  intros Hq. unfold round_binary64. cbv zeta.
  pose proof (Qred_correct q) as Hred.
  set (q' := Qred q) in *.
  destruct (Qeq_bool q' 0) eqn:Hzero.
  - apply Qeq_bool_iff in Hzero. rewrite Hzero in Hred.
    unfold half_ulp. split; lra.
  - apply Qeq_bool_neq in Hzero.
    assert (Hpos : 0 < q') by lra.
    clearbody q'.
    assert (Habs : Qabs q' = q').
    { destruct q' as [a b]. unfold Qabs. rewrite Z.abs_eq; [reflexivity|].
      unfold Qlt in Hpos. cbn in Hpos. lia. }
    rewrite Habs.
    set (k := ilog2 q').
    pose proof (ilog2_le q' Hpos) as Hk. fold k in Hk.
    rewrite Qred_correct.
    set (e := (k - 52)%Z).
    pose proof (Qpow2_pos e) as He.
    assert (Hke : 2 ^ k == 2 ^ e * inject_Z (2 ^ 52)).
    { replace k with (e + 52)%Z by (unfold e; lia).
      rewrite Qpower_plus by discriminate. now rewrite (Qpow2_inject 52). }
    destruct (round_half_even_bounds (q' / 2 ^ e)) as [Hlo Hhi].
    set (r := inject_Z (round_half_even (q' / 2 ^ e))) in *.
    assert (Hx : q' / 2 ^ e * 2 ^ e == q') by (field; lra).
    assert (Hlo' : (r - (1 # 2)) * 2 ^ e <= q').
    { rewrite <- Hx. apply Qmult_le_compat_r; [exact Hlo | lra]. }
    assert (Hhi' : q' <= (r + (1 # 2)) * 2 ^ e).
    { rewrite <- Hx. apply Qmult_le_compat_r; [exact Hhi | lra]. }
    change (inject_Z (2 ^ 52)) with 4503599627370496 in Hke.
    rewrite Hke in Hk. rewrite <- Hred.
    unfold half_ulp. clearbody r. clear Hx Hlo Hhi Hke.
    generalize dependent (2 ^ e). intros p Hp Hk Hlo' Hhi'.
    split; nra.
Qed.

Lemma round_binary64_nonneg (q : Q) : 0 <= q -> 0 <= round_binary64 q.
Proof.
  intros Hq. destruct (round_binary64_error q Hq) as [Hlo _].
  unfold half_ulp in Hlo. nra.
Qed.

(** A quotient [a / c] of whole numbers that is known within less than
    [1 / (2 c)] is rounded to a whole number nearest to it. *)
Lemma round_half_even_nearest (a c : Z) (y' delta : Q) :
  (0 < c)%Z ->
  inject_Z a / inject_Z c - delta <= y' ->
  y' <= inject_Z a / inject_Z c + delta ->
  inject_Z (2 * c) * delta < 1 ->
  inject_Z (round_half_even y') - (1 # 2) <= inject_Z a / inject_Z c
  /\ inject_Z a / inject_Z c <= inject_Z (round_half_even y') + (1 # 2).
Proof.
  intros Hc Hlo Hhi Hdelta.
  destruct (round_half_even_bounds y') as [Hklo Hkhi].
  set (k := round_half_even y') in *.
  assert (Hc' : 0 < inject_Z c) by (change 0 with (inject_Z 0); now rewrite <- Zlt_Qlt).
  assert (Hy : inject_Z a / inject_Z c * inject_Z c == inject_Z a) by (field; lra).
  rewrite inject_Z_mult in Hdelta. change (inject_Z 2) with 2 in Hdelta.
  set (y := inject_Z a / inject_Z c) in *. clearbody y.
  assert (Hinj : forall u v : Z, (u <= v)%Z -> inject_Z u <= inject_Z v)
    by (intros u v Huv; now rewrite <- Zle_Qle).
  split.
  - destruct (Z_le_gt_dec (2 * k * c) (2 * a + c)) as [Hle | Hgt].
    + apply Hinj in Hle. rewrite inject_Z_plus, !inject_Z_mult in Hle.
      change (inject_Z 2) with 2 in Hle. nra.
    + exfalso.
      assert (Hgt' : (2 * a + c + 1 <= 2 * k * c)%Z) by lia.
      apply Hinj in Hgt'. rewrite !inject_Z_plus, !inject_Z_mult in Hgt'.
      change (inject_Z 2) with 2 in Hgt'. change (inject_Z 1) with 1 in Hgt'.
      nra.
  - destruct (Z_le_gt_dec (2 * a) (2 * k * c + c)) as [Hle | Hgt].
    + apply Hinj in Hle. rewrite inject_Z_plus, !inject_Z_mult in Hle.
      change (inject_Z 2) with 2 in Hle. nra.
    + exfalso.
      assert (Hgt' : (2 * k * c + c + 1 <= 2 * a)%Z) by lia.
      apply Hinj in Hgt'. rewrite !inject_Z_plus, !inject_Z_mult in Hgt'.
      change (inject_Z 2) with 2 in Hgt'. change (inject_Z 1) with 1 in Hgt'.
      nra.
Qed.
End Sums.

(** ** Sorting *)

Lemma StronglySorted_lookup {A} (R : A -> A -> Prop) (l : list A) (i j : nat) (x y : A) :
  StronglySorted R l -> (i < j)%nat -> l !! i = Some x -> l !! j = Some y -> R x y.
Proof.
  intros Hsorted. revert i j.
  induction Hsorted as [|z l _ IH Hall]; intros i j Hij Hi Hj; [discriminate|].
  destruct j as [|j]; [lia|]. cbn in Hj.
  destruct i as [|i]; cbn in Hi.
  - injection Hi as ->. eapply Forall_forall; [exact Hall|].
    eapply list_elem_of_lookup_2, Hj.
  - apply (IH i j); [lia | assumption | assumption].
Qed.


Lemma StronglySorted_weaken {A} (R R' : A -> A -> Prop) (l : list A) :
  (forall a b, R a b -> R' a b) -> StronglySorted R l -> StronglySorted R' l.
Proof.
  intros Himpl. induction 1 as [|x l _ IH Hall]; constructor; [exact IH|].
  eapply Forall_impl; [exact Hall|]. apply Himpl.
Qed.

Section IsortFacts.
Context {A : Type} (before : A -> A -> bool).

Lemma insert_sorted_Permutation (x : A) (l : list A) :
  insert_sorted before x l ≡ₚ x :: l.
Proof.
  induction l as [|y l IH]; cbn; [reflexivity|].
  destruct (before x y); [reflexivity|].
  rewrite IH. apply Permutation_swap.
Qed.

Lemma isort_Permutation (l : list A) : isort before l ≡ₚ l.
Proof.
  induction l as [|x l IH]; cbn; [reflexivity|].
  now rewrite insert_sorted_Permutation, IH.
Qed.

Lemma isort_length (l : list A) : length (isort before l) = length l.
Proof. apply Permutation_length, isort_Permutation. Qed.
End IsortFacts.

Section IsortOrder.
Context {A : Type} (before : A -> A -> bool).
Hypothesis before_total : forall a b, before a b = false -> before b a = true.
Hypothesis before_trans :
  forall a b c, before a b = true -> before b c = true -> before a c = true.

Lemma isort_StronglySorted (l : list A) :
  StronglySorted (fun a b => before a b = true) (isort before l).
Proof.
  induction l as [|x l IH]; cbn; [constructor|].
  induction IH as [|y s Hs IHs Hall]; cbn; [repeat constructor|].
  destruct (before x y) eqn:Hb.
  - constructor; [now constructor|].
    constructor; [exact Hb|].
    eapply Forall_impl; [exact Hall|]. cbn. eauto.
  - constructor; [exact IHs|].
    rewrite insert_sorted_Permutation. constructor; [|exact Hall].
    now apply before_total.
Qed.

Lemma zip_seq_lookup (l : list A) (p : nat) (a : A) :
  (p, a) ∈ zip (seq 0 (length l)) l -> l !! p = Some a.
Proof.
  intros Hin. apply list_elem_of_lookup in Hin as [i Hi].
  apply lookup_zip_Some in Hi as [Hp Ha].
  apply lookup_seq in Hp as [-> _]. exact Ha.
Qed.
End IsortOrder.

Lemma Qle_bool_total (x y : Q) : Qle_bool x y = false -> Qle_bool y x = true.
Proof.
  intros Hxy. apply Qle_bool_iff.
  destruct (Qlt_le_dec y x) as [Hlt|Hle]; [now apply Qlt_le_weak|].
  apply Qle_bool_iff in Hle. congruence.
Qed.

Lemma Qle_bool_trans (x y z : Q) :
  Qle_bool x y = true -> Qle_bool y z = true -> Qle_bool x z = true.
Proof. rewrite !Qle_bool_iff. apply Qle_trans. Qed.

(** Two arrangements of the same entries in ascending order of keys that are
    all different are one arrangement. *)
Lemma sorted_unique {A} (key : A -> Q) (l k : list A) :
  l ≡ₚ k ->
  StronglySorted (fun a b => (key a <= key b)%Q) l ->
  StronglySorted (fun a b => (key a <= key b)%Q) k ->
  (forall a b, a ∈ l -> b ∈ l -> (key a == key b)%Q -> a = b) ->
  l = k.
Proof.
  intros Hperm Hl. revert k Hperm.
  induction Hl as [|x l Hl IH Hx]; intros k Hperm Hk Hkeys.
  - now apply Permutation_nil_l in Hperm.
  - destruct Hk as [|y k Hk Hy].
    { now apply Permutation_nil_r in Hperm. }
    rewrite Forall_forall in Hx, Hy.
    assert (Hxy : x = y).
    { assert (H1 : x ∈ y :: k) by (rewrite <- Hperm; left).
      assert (H2 : y ∈ x :: l) by (rewrite Hperm; left).
      apply elem_of_cons in H1 as [H1 | H1]; [assumption|].
      apply elem_of_cons in H2 as [H2 | H2]; [now symmetry|].
      apply Hkeys; [left | now right |].
      apply Qle_antisym; [now apply Hx | now apply Hy]. }
    subst y. f_equal. apply IH.
    + now apply Permutation_cons_inv in Hperm.
    + exact Hk.
    + intros a b Ha Hb. apply Hkeys; now right.
Qed.

(** *** [iloc] *)

Lemma iloc_elem_of {A} (s : list A) (order : list nat) (x : A) :
  x ∈ iloc s order -> x ∈ s.
Proof.
  unfold iloc. rewrite list_elem_of_omap. intros (i & _ & Hi).
  eapply list_elem_of_lookup_2, Hi.
Qed.

Lemma iloc_seq {A} (s : list A) : iloc s (seq 0 (length s)) = s.
Proof.
  unfold iloc.
  assert (H : forall pre : list A,
            omap (fun i => (pre ++ s) !! i) (seq (length pre) (length s)) = s).
  { induction s as [|x t IH]; intros pre; [reflexivity|].
    cbn. rewrite list_lookup_middle by reflexivity. cbn.
    f_equal. specialize (IH (pre ++ [x])).
    rewrite <- app_assoc, length_app in IH. cbn in IH.
    now rewrite Nat.add_1_r in IH. }
  exact (H []).
Qed.

Lemma iloc_Permutation {A} (s : list A) (order : list nat) :
  order ≡ₚ seq 0 (length s) -> iloc s order ≡ₚ s.
Proof.
  intros Hperm. rewrite <- (iloc_seq s) at 2. unfold iloc. now rewrite Hperm.
Qed.

Lemma iloc_sorted {A} (R : A -> A -> Prop) (before : nat -> nat -> Prop)
    (s : list A) (order : list nat) :
  StronglySorted before order ->
  (forall i j a b, before i j -> s !! i = Some a -> s !! j = Some b -> R a b) ->
  StronglySorted R (iloc s order).
Proof.
  intros Hsorted HR. unfold iloc.
  induction Hsorted as [|i order _ IH Hall]; cbn; [constructor|].
  destruct (s !! i) as [a|] eqn:Hi; [|exact IH].
  constructor; [exact IH|].
  apply Forall_forall. intros b Hb.
  apply list_elem_of_omap in Hb as (j & Hj & Hsj).
  rewrite Forall_forall in Hall. eauto.
Qed.

Lemma iloc_Forall2 {A B} (R : A -> B -> Prop) (s : list A) (s' : list B)
    (order : list nat) :
  Forall2 R s s' -> Forall2 R (iloc s order) (iloc s' order).
Proof.
  intros Hss. unfold iloc.
  induction order as [|i order IH]; cbn; [constructor|].
  destruct (s !! i) as [a|] eqn:Hi.
  - destruct (Forall2_lookup_l _ _ _ _ _ Hss Hi) as (b & -> & Hab).
    now constructor.
  - assert (Hi' : s' !! i = None).
    { apply lookup_ge_None. apply lookup_ge_None in Hi.
      now rewrite <- (Forall2_length _ _ _ Hss). }
    now rewrite Hi'.
Qed.

(** *** [sort_values] and [sort_index] *)

Lemma sort_values_desc_elem_of {K} (s : Series K Q) (x : K * Q) :
  x ∈ sort_values_desc s -> x ∈ s.
Proof. apply iloc_elem_of. Qed.

(** Sorting looks at the numbers only: series with the same labels and equal
    numbers are put in the same order. *)
Lemma sort_values_desc_ext {K} (s s' : Series K Q) :
  Forall2 (fun a b => a.1 = b.1 /\ (a.2 == b.2)%Q) s s' ->
  Forall2 (fun a b => a.1 = b.1 /\ (a.2 == b.2)%Q)
          (sort_values_desc s) (sort_values_desc s').
Proof.
  intros Hss. unfold sort_values_desc.
  replace (map (fun kv => Qred kv.2) s') with (map (fun kv : K * Q => Qred kv.2) s).
  - now apply iloc_Forall2.
  - induction Hss as [|a b s s' [_ Hab] _ IH]; [reflexivity|].
    cbn. now rewrite IH, (Qred_complete _ _ Hab).
Qed.

Lemma sort_values_desc_Permutation {K} (s : Series K Q) : sort_values_desc s ≡ₚ s.
Proof.
  apply iloc_Permutation.
  destruct library_sorts as [_ Hdesc].
  destruct (Hdesc (map (fun kv : K * Q => Qred kv.2) s)) as [Hperm _].
  now rewrite length_map in Hperm.
Qed.

Lemma sort_values_desc_sorted {K} (s : Series K Q) :
  StronglySorted (fun a b => (b.2 <= a.2)%Q) (sort_values_desc s).
Proof.
  destruct library_sorts as [_ Hdesc].
  destruct (Hdesc (map (fun kv : K * Q => Qred kv.2) s)) as [_ Hsorted].
  eapply iloc_sorted; [exact Hsorted|].
  intros i j a b (x & y & Hx & Hy & Hxy) Ha Hb.
  change (map ?f s) with (f <$> s) in Hx, Hy.
  rewrite list_lookup_fmap, Ha in Hx. rewrite list_lookup_fmap, Hb in Hy.
  cbn in Hx, Hy. injection Hx as <-. injection Hy as <-.
  now rewrite !Qred_correct in Hxy.
Qed.

Lemma sort_index_Permutation {V} (s : Series Q V) : sort_index s ≡ₚ s.
Proof.
  apply iloc_Permutation.
  destruct library_sorts as [Hasc _].
  destruct (Hasc (map (fun kv : Q * V => Qred kv.1) s)) as [Hperm _].
  now rewrite length_map in Hperm.
Qed.

Lemma sort_index_sorted {V} (s : Series Q V) :
  StronglySorted (fun a b => (a.1 <= b.1)%Q) (sort_index s).
Proof.
  destruct library_sorts as [Hasc _].
  destruct (Hasc (map (fun kv : Q * V => Qred kv.1) s)) as [_ Hsorted].
  eapply iloc_sorted; [exact Hsorted|].
  intros i j a b (x & y & Hx & Hy & Hxy) Ha Hb.
  change (map ?f s) with (f <$> s) in Hx, Hy.
  rewrite list_lookup_fmap, Ha in Hx. rewrite list_lookup_fmap, Hb in Hy.
  cbn in Hx, Hy. injection Hx as <-. injection Hy as <-.
  now rewrite !Qred_correct in Hxy.
Qed.

(** *** Stable sorts *)

Section IsortStable.
Context {A : Type} (before : A -> A -> bool).
Hypothesis before_total : forall a b, before a b = false -> before b a = true.
Hypothesis before_trans :
  forall a b c, before a b = true -> before b c = true -> before a c = true.


Lemma insert_sorted_decorated (x : nat * A) (s : list (nat * A)) :
  Forall (fun y => (x.1 < y.1)%nat) s ->
  StronglySorted (decorated_before before) s ->
  StronglySorted (decorated_before before)
    (insert_sorted (fun a b => before a.2 b.2) x s).
Proof.
  intros Hpos Hsorted.
  induction Hsorted as [|y s Hs IH Hall]; cbn.
  - repeat constructor.
  - apply Forall_cons in Hpos as [Hxy Hpos].
    destruct (before x.2 y.2) eqn:Hb.
    + constructor; [now constructor|].
      constructor; [now split|].
      apply Forall_forall. intros z Hz.
      pose proof (proj1 (Forall_forall _ _) Hpos z Hz) as Hxz.
      pose proof (proj1 (Forall_forall _ _) Hall z Hz) as [Hyz _].
      split; [eauto|auto].
    + constructor; [now apply IH|].
      rewrite insert_sorted_Permutation. constructor; [|exact Hall].
      split; [now apply before_total|]. cbn. congruence.
Qed.

Lemma isort_decorated (dl : list (nat * A)) :
  StronglySorted (fun x y => (x.1 < y.1)%nat) dl ->
  StronglySorted (decorated_before before) (isort (fun a b => before a.2 b.2) dl).
Proof.
  induction 1 as [|x dl _ IH Hall]; cbn; [constructor|].
  apply insert_sorted_decorated; [|exact IH].
  now rewrite isort_Permutation.
Qed.

Lemma zip_seq_positions (l : list A) (k : nat) :
  StronglySorted (fun x y : nat * A => (x.1 < y.1)%nat) (zip (seq k (length l)) l).
Proof.
  revert k. induction l as [|a l IH]; intros k; cbn; [constructor|].
  constructor; [apply IH|].
  apply Forall_forall. intros [p b] Hin. cbn.
  apply elem_of_zip_l, elem_of_seq in Hin. lia.
Qed.

End IsortStable.

Lemma stable_argsort_Permutation (before : Q -> Q -> bool) (l : list Q) :
  stable_argsort before l ≡ₚ seq 0 (length l).
Proof.
  unfold stable_argsort. change (map fst ?s) with (s.*1).
  rewrite isort_Permutation, fst_zip; [reflexivity|].
  now rewrite length_seq.
Qed.

Section StableArgsort.
Context (before : Q -> Q -> bool).
Hypothesis before_total : forall a b, before a b = false -> before b a = true.
Hypothesis before_trans :
  forall a b c, before a b = true -> before b c = true -> before a c = true.

(** Along the order of a stable sort the values stand in order, and of two
    values that may go either way round the one of the lower position is
    first. *)
Lemma stable_argsort_ranks (l : list Q) (i j p q : nat) (a b : Q) :
  (i < j)%nat ->
  stable_argsort before l !! i = Some p -> stable_argsort before l !! j = Some q ->
  l !! p = Some a -> l !! q = Some b ->
  before a b = true /\ (before b a = true -> (p < q)%nat).
Proof.
  intros Hij Hi Hj Ha Hb. unfold stable_argsort in Hi, Hj.
  set (sd := isort (fun a b : nat * Q => before a.2 b.2) (zip (seq 0 (length l)) l)) in *.
  assert (Hin : forall x, x ∈ sd -> l !! x.1 = Some x.2).
  { intros [p' a'] Hx. unfold sd in Hx. rewrite isort_Permutation in Hx.
    now apply zip_seq_lookup. }
  assert (Hsorted : StronglySorted (decorated_before before) sd)
    by (apply isort_decorated, zip_seq_positions; assumption).
  change (map fst sd) with (fst <$> sd) in Hi, Hj.
  apply list_lookup_fmap_Some in Hi as (x & -> & Hx).
  apply list_lookup_fmap_Some in Hj as (y & -> & Hy).
  destruct (StronglySorted_lookup _ _ _ _ _ _ Hsorted Hij Hx Hy) as [Hb' Htie].
  pose proof (Hin x (list_elem_of_lookup_2 _ _ _ Hx)) as Hxa.
  pose proof (Hin y (list_elem_of_lookup_2 _ _ _ Hy)) as Hyb.
  rewrite Ha in Hxa. rewrite Hb in Hyb.
  injection Hxa as Hxa. injection Hyb as Hyb. rewrite <- Hxa, <- Hyb in *.
  now split.
Qed.


Lemma stable_argsort_sorting (R : Q -> Q -> Prop) (l : list Q) :
  (forall a b, before a b = true -> R a b) ->
  sorting R l (stable_argsort before l).
Proof.
  intros HR. split; [apply stable_argsort_Permutation|].
  unfold stable_argsort.
  set (sd := isort (fun a b : nat * Q => before a.2 b.2) (zip (seq 0 (length l)) l)).
  assert (Hin : forall x, x ∈ sd -> l !! x.1 = Some x.2).
  { intros [p' a'] Hx. unfold sd in Hx. rewrite isort_Permutation in Hx.
    now apply zip_seq_lookup. }
  assert (Hsorted : StronglySorted (fun a b : nat * Q => before a.2 b.2 = true) sd).
  { apply isort_StronglySorted.
    - intros a b. apply before_total.
    - intros a b c. apply before_trans. }
  clearbody sd. induction Hsorted as [|x sd _ IH Hall]; cbn; constructor.
  - apply IH. intros y Hy. apply Hin. now right.
  - apply Forall_forall. intros p Hp.
    apply list_elem_of_fmap in Hp as (y & -> & Hy).
    exists x.2, y.2. split; [apply Hin; left|]. split; [apply Hin; now right|].
    apply HR. exact (proj1 (Forall_forall _ _) Hall y Hy).
Qed.
End StableArgsort.

Lemma iloc_lookups {A} (s : list A) (order : list nat) :
  Forall (fun p => (p < length s)%nat) order ->
  Forall2 (fun a p => s !! p = Some a) (iloc s order) order.
Proof.
  unfold iloc. induction 1 as [|p order Hp _ IH]; cbn; [constructor|].
  destruct (lookup_lt_is_Some_2 s p Hp) as [a Ha]. rewrite Ha. cbn.
  now constructor.
Qed.

Lemma order_positions (order : list nat) (n : nat) :
  order ≡ₚ seq 0 n -> Forall (fun p => (p < n)%nat) order.
Proof.
  intros Hperm. apply Forall_forall. intros p Hp.
  rewrite Hperm in Hp. apply elem_of_seq in Hp. lia.
Qed.

Lemma Qge_bool_total (x y : Q) : Qle_bool y x = false -> Qle_bool x y = true.
Proof. apply Qle_bool_total. Qed.

Lemma Qge_bool_trans (x y z : Q) :
  Qle_bool y x = true -> Qle_bool z y = true -> Qle_bool z x = true.
Proof. intros Hxy Hyz. exact (Qle_bool_trans _ _ _ Hyz Hxy). Qed.

(** Under a stable sort the entries of equal number keep their order. *)
Lemma sort_values_desc_keeps_ties {K} (s : Series K Q) :
  stable_descending L -> keeps_ties snd s (sort_values_desc s).
Proof.
  intros Hstable. unfold sort_values_desc. rewrite Hstable.
  set (keys := map (fun kv : K * Q => Qred kv.2) s).
  assert (Hlen : length keys = length s) by apply length_map.
  exists (stable_argsort (fun x y => Qle_bool y x) keys).
  pose proof (stable_argsort_Permutation (fun x y => Qle_bool y x) keys) as Hperm.
  rewrite Hlen in Hperm.
  split; [exact Hperm|]. split.
  - apply iloc_lookups. now apply order_positions.
  - intros i j p q a b Hij Hi Hj Ha Hb Hkey.
    assert (Ha' : keys !! p = Some (Qred a.2)).
    { unfold keys. change (map ?f s) with (f <$> s). now rewrite list_lookup_fmap, Ha. }
    assert (Hb' : keys !! q = Some (Qred b.2)).
    { unfold keys. change (map ?f s) with (f <$> s). now rewrite list_lookup_fmap, Hb. }
    apply (stable_argsort_ranks (fun x y => Qle_bool y x) Qge_bool_total Qge_bool_trans
             keys i j p q _ _ Hij Hi Hj Ha' Hb').
    apply Qle_bool_iff. rewrite !Qred_correct, Hkey. apply Qle_refl.
Qed.

(** Under a stable sort the labels of equal number keep their order. *)
Lemma sort_values_desc_labels_keep_ties {K} (key value : K -> Q) (l : list K) :
  (forall k, (value k == key k)%Q) ->
  stable_descending L ->
  keeps_ties key l (map fst (sort_values_desc (map (fun k => (k, value k)) l))).
Proof.
  intros Hvalue Hstable.
  destruct (sort_values_desc_keeps_ties (map (fun k => (k, value k)) l) Hstable)
    as (positions & Hperm & Hread & Hties).
  rewrite length_map in Hperm.
  assert (Hlookup : forall p a, l !! p = Some a ->
            map (fun k => (k, value k)) l !! p = Some (a, value a)).
  { intros p a Ha. change (map ?f l) with (f <$> l).
    now rewrite list_lookup_fmap, Ha. }
  exists positions. split; [exact Hperm|]. split.
  - apply Forall2_fmap_l. eapply Forall2_impl; [exact Hread|].
    intros item p Hitem. cbn in Hitem.
    change (map ?f l) with (f <$> l) in Hitem.
    rewrite list_lookup_fmap in Hitem.
    destruct (l !! p) as [name|] eqn:Hname; [|discriminate].
    cbn in Hitem. injection Hitem as <-. exact Hname.
  - intros i j p q a b Hij Hi Hj Ha Hb Hkey.
    apply (Hties i j p q _ _ Hij Hi Hj (Hlookup _ _ Ha) (Hlookup _ _ Hb)).
    cbn. now rewrite !Hvalue.
Qed.


(** ** The category columns of the loaded table *)

Lemma lifespan_Return (data : DataFrame) (st : State) :
  lifespan (Some data) = Return st ->
  st = {| df := Some (loaded_table data);
          category_columns := categories_of (columns data) |}.
Proof.
  unfold lifespan. rewrite load_data_Return. cbn. now intros [= <-].
Qed.

Lemma getitem_cols_loaded (data : DataFrame) :
  getitem_cols (loaded_table data) (categories_of (columns data))
  = Return (loaded_categories data).
Proof.
  rewrite getitem_cols_Return.
  2:{ apply Forall_forall. intros name Hin. now apply categories_of_elem_of in Hin. }
  unfold loaded_categories, loaded_table. cbn [columns values].
  do 2 f_equal. rewrite map_map. apply map_ext. intros row.
  unfold locs_of. rewrite map_map. apply map_ext_in. intros name Hin.
  apply list_elem_of_In in Hin.
  assert (Hcol : name ∈ columns data) by now apply categories_of_elem_of in Hin.
  destruct (get_loc_elem_of _ _ Hcol) as [i Hi].
  destruct (get_loc_elem_of _ _ Hin) as [j Hj].
  unfold row_cell. rewrite Hi. cbn [default].
  rewrite (load_row_cell _ _ _ _ name) by (eapply get_loc_Some, Hi).
  now rewrite Hj, Hi.
Qed.

Lemma num_value_fillna (c : num) : num_value (fillna_cell c) = num_value c.
Proof. now destruct c. Qed.

Lemma sum_axis1_loaded (data : DataFrame) :
  Forall2 Qeq (sum_axis1 (loaded_categories data))
              (map (basket_size data) (values data)).
Proof.
  unfold sum_axis1, loaded_categories. cbn [values]. rewrite map_map.
  apply Forall2_fmap, Forall_Forall2_diag, Forall_forall. intros row _.
  rewrite nansum_Qsum, map_map. unfold basket_size.
  apply Qsum_Forall2, Forall2_fmap, Forall_Forall2_diag, Forall_forall.
  intros name _. now rewrite num_value_fillna.
Qed.

Lemma column_nansum_total (data : DataFrame) (name : string) :
  (column_nansum data name == category_total data name)%Q.
Proof.
  unfold column_nansum, category_total. rewrite nansum_Qsum, map_map.
  apply Qsum_Forall2, Forall2_fmap, Forall_Forall2_diag, Forall_forall.
  intros row _. now rewrite num_value_fillna.
Qed.

Lemma sum_axis0_loaded (data : DataFrame) :
  sum_axis0 (loaded_categories data)
  = map (fun name => (name, column_nansum data name)) (categories_of (columns data)).
Proof.
  unfold sum_axis0, loaded_categories. cbn [columns values].
  transitivity (imap (const (fun name => (name, column_nansum data name)))
                     (categories_of (columns data))); [|apply imap_const].
  apply imap_ext. intros j name Hj. cbn.
  f_equal. unfold column_nansum. f_equal. rewrite map_map. apply map_ext. intros row.
  now apply (cell_at_map (fun name => fillna_cell (row_cell (columns data) row name)) _ j).
Qed.

(** ** Error responses *)

(** C7, as amended.  When the table is not loaded ([df is None]), each of
    the three aggregation handlers raises before it aggregates anything,
    whatever the other global holds, and a request that reaches its handler
    (any request for [/kpis] or [/orders/distribution], a request for
    [/categories/top] whose [limit] is valid) is answered by a 500 whose
    body is [{"status": "error", "message": "Data not loaded"}]. *)
Theorem data_not_loaded_500 (st : State) (req : Request) (limit : Z) :
  df st = None ->
  (req = GET_kpis
   \/ (exists raw, req = GET_categories_top raw /\ limit_param raw = Return limit)
   \/ req = GET_orders_distribution) ->
  get_kpis st = Raise (HTTPException 500 "Data not loaded")
  /\ get_top_categories st limit = Raise (HTTPException 500 "Data not loaded")
  /\ get_order_distribution st = Raise (HTTPException 500 "Data not loaded")
  /\ app st req = {| status_code := 500; content := error_body "Data not loaded" |}.
Proof.
  intros Hdf Hreq.
  assert (Hk : get_kpis st = Raise (HTTPException 500 "Data not loaded"))
    by (unfold get_kpis; now rewrite Hdf).
  assert (Ht : get_top_categories st limit = Raise (HTTPException 500 "Data not loaded"))
    by (unfold get_top_categories; now rewrite Hdf).
  assert (Ho : get_order_distribution st = Raise (HTTPException 500 "Data not loaded"))
    by (unfold get_order_distribution; now rewrite Hdf).
  split; [exact Hk | split; [exact Ht | split; [exact Ho |]]].
  unfold app.
  destruct Hreq as [-> | [(raw & -> & Hraw) | ->]]; simpl.
  - now rewrite Hk.
  - rewrite Hraw. simpl. now rewrite Ht.
  - now rewrite Ho.
Qed.

(** C10. The validation handler looks at nothing of the error it is given:
    whichever parameter and failure the error names, its answer is the 400
    with the one body [{"status": "error", "message": "Invalid query
    parameter: limit must be between 1 and 100"}]; this is the response to
    every validation error, and so to every request, of any route, that
    fails validation. *)
Theorem validation_error_fixed_400 (loc msg : string) :
  validation_exception_handler loc msg
    = {| status_code := 400;
         content := error_body "Invalid query parameter: limit must be between 1 and 100" |}
  /\ respond (Raise (RequestValidationError loc msg))
     = {| status_code := 400;
          content := error_body "Invalid query parameter: limit must be between 1 and 100" |}
  /\ forall (st : State) (req : Request),
       route st req = Raise (RequestValidationError loc msg) ->
       app st req
       = {| status_code := 400;
            content := error_body "Invalid query parameter: limit must be between 1 and 100" |}.
Proof.
  split; [reflexivity|]. split; [reflexivity|].
  intros st req Hroute. unfold app. now rewrite Hroute.
Qed.

Lemma limit_400 (st : State) (raw : string) :
  parse_int raw = None \/ (exists n, parse_int raw = Some n /\ (n < 1 \/ 100 < n)) ->
  exists message,
    app st (GET_categories_top (Some raw))
      = {| status_code := 400; content := error_body message |}
    /\ str_in "limit must be between 1 and 100" message = true
    /\ status_code (app st (GET_categories_top (Some raw))) <> 500.
Proof.
  intros Hraw.
  exists "Invalid query parameter: limit must be between 1 and 100".
  assert (Happ : app st (GET_categories_top (Some raw))
                 = {| status_code := 400;
                      content := error_body
                        "Invalid query parameter: limit must be between 1 and 100" |}).
  { unfold app, route, limit_param.
    destruct Hraw as [-> | (n & -> & Hn)]; [reflexivity|].
    destruct (Z.ltb_spec n 1); [reflexivity|].
    destruct (Z.ltb_spec 100 n); [reflexivity | lia]. }
  rewrite Happ. split; [reflexivity | split; [reflexivity | discriminate]].
Qed.

(** C3. A request for [/categories/top] whose [limit] is not read as an
    integer, or is read as one outside [1, 100], is answered by a 400 (not a
    500), loaded table or not, with an error body whose message contains
    "limit must be between 1 and 100".  So are [limit=0], [limit=101] and
    [limit=abc]: a plain decimal numeral is read as its value, and a string
    of letters is not read as an integer. *)
Theorem invalid_limit_400 (st : State) :
  (forall raw : string,
     parse_int raw = None \/ (exists n, parse_int raw = Some n /\ (n < 1 \/ 100 < n)) ->
     exists message,
       app st (GET_categories_top (Some raw))
         = {| status_code := 400; content := error_body message |}
       /\ str_in "limit must be between 1 and 100" message = true
       /\ status_code (app st (GET_categories_top (Some raw))) <> 500)
  /\ Forall (fun raw =>
               exists message,
                 app st (GET_categories_top (Some raw))
                   = {| status_code := 400; content := error_body message |}
                 /\ str_in "limit must be between 1 and 100" message = true
                 /\ status_code (app st (GET_categories_top (Some raw))) <> 500)
            ["0"; "101"; "abc"].
Proof.
  split; [exact (limit_400 st)|].
  destruct library_reads as [Hdecimal Hletter].
  repeat constructor; apply limit_400.
  - right. exists 0. split; [apply Hdecimal; [cbn; lia | reflexivity] | lia].
  - right. exists 101. split; [apply Hdecimal; [cbn; lia | reflexivity] | lia].
  - left. apply Hletter. reflexivity.
Qed.

(** ** Top categories *)

Lemma StronglySorted_map_in {A B} (R : A -> A -> Prop) (R' : B -> B -> Prop)
    (f : A -> B) (l : list A) :
  (forall a b, a ∈ l -> b ∈ l -> R a b -> R' (f a) (f b)) ->
  StronglySorted R l -> StronglySorted R' (map f l).
Proof.
  intros Himpl Hsorted.
  induction Hsorted as [|x l _ IH Hall]; cbn; constructor.
  - apply IH. intros a b Ha Hb. apply Himpl; now right.
  - apply Forall_forall. intros y Hy.
    apply list_elem_of_fmap in Hy as (z & -> & Hz).
    apply Himpl; [left | now right |].
    exact (proj1 (Forall_forall _ _) Hall z Hz).
Qed.

(** The sorted totals are totals of category columns. *)
Lemma ranked_totals (data : DataFrame) (item : string * Q) :
  item ∈ sort_values_desc (sum_axis0 (loaded_categories data)) ->
  item = (item.1, column_nansum data item.1)
  /\ item.1 ∈ categories_of (columns data).
Proof.
  intros Hin. apply sort_values_desc_elem_of in Hin.
  rewrite sum_axis0_loaded in Hin.
  apply list_elem_of_fmap in Hin as (name & -> & Hname). now split.
Qed.

Lemma top_categories_sorted (data : DataFrame) (limit : Z) :
  get_top_categories {| df := Some (loaded_table data);
                        category_columns := categories_of (columns data) |} limit
  = Return (JDict
      [("limit", JInt limit);
       ("top_categories",
        JList (map (top_entry data)
                   (take (Z.to_nat limit) (ranked_categories data))))]).
Proof.
  unfold get_top_categories. cbn [df category_columns].
  rewrite getitem_cols_loaded. cbn [mbind outcome_bind].
  unfold head, ranked_categories.
  change (map ?f ?l) with (f <$> l).
  rewrite <- fmap_take, <- list_fmap_compose.
  do 6 f_equal. apply list_fmap_ext. intros i item Hitem. cbn.
  apply lookup_take_Some in Hitem as [Hitem _].
  apply list_elem_of_lookup_2, ranked_totals in Hitem as [-> _].
  unfold top_entry. cbn. do 5 f_equal. apply py_int_comp, column_nansum_total.
Qed.

Lemma ranked_categories_Permutation (data : DataFrame) :
  ranked_categories data ≡ₚ categories_of (columns data).
Proof.
  unfold ranked_categories.
  rewrite sort_values_desc_Permutation, sum_axis0_loaded, map_map. cbn.
  now rewrite map_id.
Qed.

Lemma ranked_categories_length (data : DataFrame) :
  length (ranked_categories data) = length (categories_of (columns data)).
Proof. apply Permutation_length, ranked_categories_Permutation. Qed.

Lemma ranked_categories_sorted (data : DataFrame) :
  StronglySorted (fun a b => (category_total data b <= category_total data a)%Q)
                 (ranked_categories data).
Proof.
  unfold ranked_categories.
  eapply StronglySorted_map_in; [|apply sort_values_desc_sorted].
  intros a b Ha Hb Hab.
  apply ranked_totals in Ha as [Ha _]. apply ranked_totals in Hb as [Hb _].
  rewrite Ha, Hb in Hab. cbn in Hab.
  now rewrite !column_nansum_total in Hab.
Qed.

(** Under a stable sort the categories of equal total keep their header
    order. *)
Lemma ranked_categories_keeps_ties (data : DataFrame) :
  stable_descending L ->
  keeps_ties (category_total data) (categories_of (columns data)) (ranked_categories data).
Proof.
  intros Hstable. unfold ranked_categories. rewrite sum_axis0_loaded.
  apply (sort_values_desc_labels_keep_ties (category_total data) (column_nansum data));
    [|exact Hstable].
  intros name. apply column_nansum_total.
Qed.

(** C2. For a loaded table of item counts (every category cell missing or a
    whole number that is not negative, fewer than 2^53 items in all) and a
    [limit] of 1..100, [top_categories] has
    [min(limit, number of category columns)] entries: the first [limit]
    category columns of a ranking of all of them by total, descending,
    each paired with its total as an integer.  Columns of equal total
    stand in the order the library's sort leaves them in: in header order
    when that sort is stable. *)
Theorem top_categories_ranked (data : DataFrame) (st : State) (limit : Z) :
  lifespan (Some data) = Return st ->
  item_counts data ->
  (Qsum (map (basket_size data) (values data)) < 9007199254740992)%Q ->
  1 <= limit <= 100 ->
  exists (ranking top : list string) (pairs : list json),
    ranking ≡ₚ category_columns st
    /\ StronglySorted (fun a b => (category_total data b <= category_total data a)%Q)
                      ranking
    /\ (stable_descending L ->
        keeps_ties (category_total data) (category_columns st) ranking)
    /\ top = take (Z.to_nat limit) ranking
    /\ length pairs = Z.to_nat (Z.min limit (Z.of_nat (length (category_columns st))))
    /\ Forall2 (fun name pair =>
                  exists total : Z,
                    pair = JDict [("category", JStr name); ("total_items", JInt total)]
                    /\ truncated (category_total data name) total)
               top pairs
    /\ get_top_categories st limit
       = Return (JDict [("limit", JInt limit); ("top_categories", JList pairs)]).
Proof.
  intros Hst _ _ Hlimit. apply lifespan_Return in Hst as ->. cbn [category_columns].
  exists (ranked_categories data), (take (Z.to_nat limit) (ranked_categories data)),
         (map (top_entry data) (take (Z.to_nat limit) (ranked_categories data))).
  split; [apply ranked_categories_Permutation|].
  split; [apply ranked_categories_sorted|].
  split; [apply ranked_categories_keeps_ties|].
  split; [reflexivity|].
  split; [rewrite length_map, length_take, ranked_categories_length; lia|].
  split; [|apply top_categories_sorted].
  apply Forall2_fmap_r, Forall_Forall2_diag, Forall_forall. intros name _.
  exists (py_int (category_total data name)).
  split; [reflexivity | apply py_int_truncated].
Qed.

(** ** Further properties of the handlers *)

Lemma getitem_cols_missing (df : DataFrame) (names : list string) (name : string) :
  name ∈ names -> name ∉ columns df ->
  exists key, getitem_cols df names = Raise (KeyError key).
Proof.
  intros Hin Hmissing. unfold getitem_cols.
  destruct (mapM (get_loc (columns df)) names) as [locs|] eqn:Hlocs;
    [|eexists; reflexivity].
  exfalso. apply mapM_Some_1 in Hlocs.
  apply list_elem_of_lookup in Hin as [i Hi].
  destruct (Forall2_lookup_l _ _ _ _ _ Hlocs Hi) as (loc & _ & Hloc).
  apply Hmissing. eapply list_elem_of_lookup_2, get_loc_Some, Hloc.
Qed.

(** X1. When [category_columns] names a column the table does not have,
    [df[category_columns]] raises a [KeyError], and so do [get_kpis] and
    [get_top_categories], whatever the limit. *)
Theorem category_column_missing (st : State) (table : DataFrame) (name : string) :
  df st = Some table ->
  name ∈ category_columns st ->
  name ∉ columns table ->
  exists key,
    get_kpis st = Raise (KeyError key)
    /\ forall limit, get_top_categories st limit = Raise (KeyError key).
Proof.
  intros Hdf Hin Hmissing.
  destruct (getitem_cols_missing table _ _ Hin Hmissing) as (key & Hkey).
  exists key. unfold get_kpis, get_top_categories. rewrite Hdf, Hkey. now split.
Qed.

(** X2. For limits [m <= n] of the valid range, the [top_categories] of
    limit [m] are the first [m] of those of limit [n]. *)
Theorem top_categories_prefix (st : State) (m n : Z) (entries : list json) :
  1 <= m <= n -> n <= 100 ->
  get_top_categories st n
  = Return (JDict [("limit", JInt n); ("top_categories", JList entries)]) ->
  get_top_categories st m
  = Return (JDict [("limit", JInt m);
                   ("top_categories", JList (take (Z.to_nat m) entries))]).
Proof.
  intros Hm Hn. unfold get_top_categories.
  destruct (df st) as [table|]; [|discriminate].
  destruct (getitem_cols table (category_columns st)) as [sub|]; [|discriminate].
  cbn [mbind outcome_bind]. intros [= <-]. unfold head.
  change (map ?f ?l) with (f <$> l).
  rewrite <- fmap_take, take_take, Nat.min_l by lia. reflexivity.
Qed.


Lemma py_int_mono (q q' : Q) : (q <= q')%Q -> py_int q <= py_int q'.
Proof.
  intros Hle. unfold py_int.
  destruct (Qle_bool 0 q) eqn:Hq, (Qle_bool 0 q') eqn:Hq'.
  - now apply Qfloor_resp_le.
  - apply Qle_bool_iff in Hq.
    assert (Hq0 : Qle_bool 0 q' = true) by (apply Qle_bool_iff; lra).
    congruence.
  - apply Qle_bool_iff in Hq'.
    assert (Hneg : (q <= 0)%Q).
    { destruct (Qlt_le_dec q 0) as [Hlt | Hge]; [lra|].
      apply Qle_bool_iff in Hge. congruence. }
    pose proof (Qceiling_resp_le _ _ Hneg) as Hc.
    pose proof (Qfloor_resp_le _ _ Hq') as Hf.
    change 0%Q with (inject_Z 0) in Hc, Hf.
    rewrite Qceiling_Z in Hc. rewrite Qfloor_Z in Hf. lia.
  - now apply Qceiling_resp_le.
Qed.


(** ** The KPIs *)

Lemma py_round_num_eq (x y : num) (ndigits : nat) :
  num_eq x y -> py_round x ndigits = py_round y ndigits.
Proof.
  destruct x as [|a], y as [|b]; cbn [num_eq]; try tauto.
  apply py_round_comp.
Qed.

Lemma insert_sorted_Qeq (x x' : Q) (s s' : list Q) :
  (x == x')%Q -> Forall2 Qeq s s' ->
  Forall2 Qeq (insert_sorted Qle_bool x s) (insert_sorted Qle_bool x' s').
Proof.
  intros Hx. induction 1 as [|y y' s s' Hy Hs IH]; cbn.
  - now repeat constructor.
  - rewrite (Qleb_comp _ _ Hx _ _ Hy).
    destruct (Qle_bool x' y'); repeat (constructor; try assumption).
Qed.

Lemma isort_Qeq (l l' : list Q) :
  Forall2 Qeq l l' -> Forall2 Qeq (isort Qle_bool l) (isort Qle_bool l').
Proof.
  induction 1 as [|x x' l l' Hx _ IH]; cbn; [constructor|].
  now apply insert_sorted_Qeq.
Qed.

Lemma nth_Qeq (l l' : list Q) (i : nat) :
  Forall2 Qeq l l' -> (nth i l 0 == nth i l' 0)%Q.
Proof.
  intros Hall. revert i.
  induction Hall as [|x x' l l' Hx _ IH]; intros [|i]; cbn; try reflexivity; auto.
Qed.

Lemma series_mean_num_eq (l l' : list Q) :
  Forall2 Qeq l l' -> num_eq (series_mean l) (series_mean l').
Proof.
  intros Hall. pose proof (Qsum_Forall2 _ _ Hall) as Hsum.
  pose proof (Forall2_length _ _ _ Hall) as Hlen.
  destruct Hall; cbn [series_mean num_eq]; [exact I|].
  unfold float_div. rewrite Hlen.
  rewrite (round_binary64_comp _ _ (Qdiv_comp _ _ Hsum _ _ (Qeq_refl _))).
  reflexivity.
Qed.

Lemma series_median_num_eq (l l' : list Q) :
  Forall2 Qeq l l' -> num_eq (series_median l) (series_median l').
Proof.
  intros Hall. pose proof (isort_Qeq _ _ Hall) as Hsorted.
  pose proof (Forall2_length _ _ _ Hall) as Hlen.
  unfold series_median. cbv zeta. rewrite <- Hlen.
  destruct (length l) as [|n]; [exact I|].
  destruct (Nat.even (S n)); cbn [num_eq].
  - now rewrite (nth_Qeq _ _ (S n / 2 - 1) Hsorted), (nth_Qeq _ _ (S n / 2) Hsorted).
  - apply nth_Qeq, Hsorted.
Qed.

Lemma StronglySorted_Qle_bool (s : list Q) :
  StronglySorted (fun a b => Qle_bool a b = true) s -> StronglySorted Qle s.
Proof.
  induction 1 as [|x s _ IH Hall]; constructor; [exact IH|].
  eapply Forall_impl; [exact Hall|]. intros y. apply Qle_bool_iff.
Qed.

Lemma series_median_spec (l : list Q) :
  l <> [] -> exists m, series_median l = Num m /\ statistical_median l m.
Proof.
  intros Hne.
  set (s := isort Qle_bool l).
  assert (Hperm : s ≡ₚ l) by apply isort_Permutation.
  assert (Hsorted : StronglySorted Qle s).
  { apply StronglySorted_Qle_bool, isort_StronglySorted.
    - apply Qle_bool_total.
    - apply Qle_bool_trans. }
  assert (Hlen : length s = length l) by apply isort_length.
  assert (Hpos : (0 < length l)%nat) by (destruct l; [congruence | cbn; lia]).
  assert (Hnth : forall i, (i < length l)%nat -> s !! i = Some (nth i s 0%Q)).
  { intros i Hi. rewrite nth_lookup.
    destruct (lookup_lt_is_Some_2 s i) as [x ->]; [lia | reflexivity]. }
  unfold series_median. cbv zeta. fold s.
  destruct (length l) as [|n] eqn:Hn; [lia|].
  destruct (Nat.even (S n)) eqn:Heven.
  - eexists. split; [reflexivity|].
    exists s, (nth (S n / 2 - 1) s 0%Q), (nth (S n / 2) s 0%Q).
    apply Nat.even_spec in Heven as [k Hk].
    assert (Hhalf : (S n / 2 = k)%nat)
      by (rewrite Hk, Nat.mul_comm; apply Nat.div_mul; lia).
    assert (Hlow : ((S n - 1) / 2 = k - 1)%nat).
    { replace (S n - 1)%nat with (1 + (k - 1) * 2)%nat by lia.
      rewrite Nat.div_add by lia. reflexivity. }
    rewrite Hn, Hlow, Hhalf.
    split; [exact Hperm|]. split; [exact Hsorted|].
    split; [apply Hnth; lia|]. split; [apply Hnth; lia | reflexivity].
  - eexists. split; [reflexivity|].
    exists s, (nth (S n / 2) s 0%Q), (nth (S n / 2) s 0%Q).
    assert (Hodd : Nat.Odd (S n)).
    { apply Nat.odd_spec. unfold Nat.odd. now rewrite Heven. }
    destruct Hodd as [k Hk].
    assert (Hhalf : (S n / 2 = k)%nat).
    { rewrite Hk, Nat.add_comm, Nat.mul_comm, Nat.div_add by lia. reflexivity. }
    assert (Hlow : ((S n - 1) / 2 = k)%nat).
    { replace (S n - 1)%nat with (k * 2)%nat by lia. apply Nat.div_mul. lia. }
    rewrite Hn, Hlow, Hhalf.
    split; [exact Hperm|]. split; [exact Hsorted|].
    split; [apply Hnth; lia|]. split; [apply Hnth; lia|].
    field.
Qed.

Lemma get_kpis_loaded (data : DataFrame) :
  get_kpis {| df := Some (loaded_table data);
              category_columns := categories_of (columns data) |}
  = Return (JDict
      [("total_orders", JInt (Z.of_nat (len data)));
       ("total_items", JInt (py_int (Qsum (map (basket_size data) (values data)))));
       ("avg_items_per_order",
        JFloat (py_round (series_mean (map (basket_size data) (values data))) 2));
       ("median_items_per_order",
        JFloat (py_round (series_median (map (basket_size data) (values data))) 2))]).
Proof.
  pose proof (sum_axis1_loaded data) as Hitems.
  unfold get_kpis. cbn [df category_columns].
  rewrite getitem_cols_loaded. cbn [mbind outcome_bind].
  rewrite (py_int_comp _ _ (Qsum_Forall2 _ _ Hitems)).
  rewrite (py_round_num_eq _ _ 2 (series_mean_num_eq _ _ Hitems)).
  rewrite (py_round_num_eq _ _ 2 (series_median_num_eq _ _ Hitems)).
  unfold len, loaded_table. cbn [values]. now rewrite length_map.
Qed.

Section Means.
Local Open Scope Q_scope.

Lemma inject_nat_pos (n : nat) : (0 < n)%nat -> 0 < inject_Z (Z.of_nat n).
Proof. intros Hn. change 0 with (inject_Z 0). rewrite <- Zlt_Qlt. lia. Qed.

Lemma inject_nat_nonneg (n : nat) : 0 <= inject_Z (Z.of_nat n).
Proof. change 0 with (inject_Z 0). rewrite <- Zle_Qle. lia. Qed.

(** The binary64 quotient of a whole sum below 2^53 / 200 by a count, when
    rounded to 2 decimal places, is a multiple of 0.01 nearest to the exact
    quotient. *)
Lemma mean_rounded (s : Q) (N n : nat) :
  s == inject_Z (Z.of_nat N) -> (0 < n)%nat -> 200 * s < 9007199254740992 ->
  rounded_to 2 (s / inject_Z (Z.of_nat n))
             (round_to (float_div s (inject_Z (Z.of_nat n))) 2).
Proof.
  intros Hs Hn Hbound.
  pose proof (inject_nat_pos n Hn) as Hc. pose proof (inject_nat_nonneg N) as HN.
  unfold rounded_to, round_to. cbv zeta. change (inject_Z (10 ^ Z.of_nat 2)) with 100.
  set (c := inject_Z (Z.of_nat n)) in *.
  exists (round_half_even (float_div s c * 100)). split; [reflexivity|].
  assert (Hq : 0 <= s / c) by (apply Qle_shift_div_l; lra).
  destruct (round_binary64_error (s / c) Hq) as [Hlo Hhi].
  fold (float_div s c) in Hlo, Hhi.
  assert (Hexact : inject_Z (100 * Z.of_nat N) / inject_Z (Z.of_nat n) == s / c * 100).
  { rewrite inject_Z_mult, <- Hs. fold c. change (inject_Z 100) with 100. field. lra. }
  rewrite <- Hexact.
  apply (round_half_even_nearest _ _ _ (100 * (s / c) * half_ulp)).
  - lia.
  - rewrite Hexact. unfold half_ulp in *. lra.
  - rewrite Hexact. unfold half_ulp in *. lra.
  - assert (Hdelta : inject_Z (2 * Z.of_nat n) * (100 * (s / c) * half_ulp)
                     == 200 * s * half_ulp).
    { rewrite inject_Z_mult. fold c. change (inject_Z 2) with 2. field. lra. }
    rewrite Hdelta. unfold half_ulp. lra.
Qed.

Lemma count_sum (l : list Q) :
  Forall (fun q => exists n : nat, q == inject_Z (Z.of_nat n)) l ->
  exists n : nat, Qsum l == inject_Z (Z.of_nat n).
Proof.
  induction 1 as [|q l (n & Hn) _ (m & Hm)].
  - now exists 0%nat.
  - exists (n + m)%nat. rewrite Qsum_cons, Hn, Hm, Nat2Z.inj_add, inject_Z_plus.
    reflexivity.
Qed.
End Means.

(** The basket sizes of a table of item counts are counts. *)
Lemma basket_size_count (data : DataFrame) (row : list num) :
  item_counts data -> row ∈ values data ->
  exists n : nat, (basket_size data row == inject_Z (Z.of_nat n))%Q.
Proof.
  intros Hcounts Hrow. unfold basket_size. apply count_sum, Forall_forall.
  intros q Hq. apply list_elem_of_fmap in Hq as (name & -> & Hname).
  specialize (Hcounts row name Hrow Hname).
  destruct (row_cell (columns data) row name) as [|q]; [now exists 0%nat | exact Hcounts].
Qed.

Lemma baskets_count (data : DataFrame) :
  item_counts data ->
  exists n : nat,
    (Qsum (map (basket_size data) (values data)) == inject_Z (Z.of_nat n))%Q.
Proof.
  intros Hcounts. apply count_sum, Forall_forall.
  intros q Hq. apply list_elem_of_fmap in Hq as (row & -> & Hrow).
  now apply basket_size_count.
Qed.

(** C1. For a loaded table of item counts (every category cell missing or a
    whole number that is not negative, fewer than 2^53 / 200 items in all)
    [get_kpis] returns the row count as [total_orders] and the truncated
    sum of the orders' basket sizes as [total_items].  For a table with
    rows, [avg_items_per_order] is a multiple of 0.01 nearest to the
    arithmetic mean of the basket sizes (the mean is divided out in
    binary64 before it is rounded, so a mean halfway between two multiples
    may go to either), and [median_items_per_order] is the median of the
    basket sizes rounded to 2 decimal places; for a table without rows both
    are [nan].  For the three orders of [sample_data] it returns 3, 13,
    4.33 and 4.0. *)
Theorem kpis_spec :
  (forall (data : DataFrame) (st : State),
     lifespan (Some data) = Return st ->
     item_counts data ->
     (200 * Qsum (map (basket_size data) (values data)) < 9007199254740992)%Q ->
     exists (total_items : Z) (avg median : num),
       get_kpis st
       = Return (JDict
           [("total_orders", JInt (Z.of_nat (len data)));
            ("total_items", JInt total_items);
            ("avg_items_per_order", JFloat avg);
            ("median_items_per_order", JFloat median)])
       /\ truncated (Qsum (map (basket_size data) (values data))) total_items
       /\ (len data = 0%nat -> avg = NaN /\ median = NaN)
       /\ ((0 < len data)%nat ->
           exists a m ra rm : Q,
             arithmetic_mean (map (basket_size data) (values data)) a
             /\ statistical_median (map (basket_size data) (values data)) m
             /\ avg = Num ra /\ rounded_to 2 a ra
             /\ median = Num rm /\ rounded_to 2 m rm))
  /\ lifespan (Some sample_data) = Return sample_state
  /\ get_kpis sample_state
     = Return (JDict [("total_orders", JInt 3);
                      ("total_items", JInt 13);
                      ("avg_items_per_order", JFloat (Num 4.33));
                      ("median_items_per_order", JFloat (Num 4.00))]).
Proof.
  split; [|split; vm_compute; reflexivity].
  intros data st Hst Hcounts Hbound. apply lifespan_Return in Hst as ->.
  destruct (baskets_count data Hcounts) as (N & HN).
  set (baskets := map (basket_size data) (values data)) in *.
  exists (py_int (Qsum baskets)), (py_round (series_mean baskets) 2),
         (py_round (series_median baskets) 2).
  split; [apply get_kpis_loaded|].
  split; [apply py_int_truncated|].
  assert (Hlen : length baskets = len data) by apply length_map.
  split.
  { intros Hempty. destruct baskets; [now split | cbn in Hlen; lia]. }
  intros Hrows.
  assert (Hne : baskets <> []) by (destruct baskets; [cbn in Hlen; lia | discriminate]).
  destruct (series_median_spec baskets Hne) as (m & -> & Hmedian).
  set (n := inject_Z (Z.of_nat (length baskets))).
  assert (Hn : (0 < n)%Q) by (apply inject_nat_pos; lia).
  exists (Qsum baskets / n)%Q, m, (round_to (float_div (Qsum baskets) n) 2), (round_to m 2).
  split.
  { split; [exact Hne|]. fold n. field. lra. }
  split; [exact Hmedian|].
  split.
  { destruct baskets; [congruence | reflexivity]. }
  split; [apply (mean_rounded _ N); [exact HN | lia | exact Hbound]|].
  split; [reflexivity | apply round_to_rounded].
Qed.

Section SumExchange.
Local Open Scope Q_scope.

Lemma Qsum_map_plus {A} (g h : A -> Q) (l : list A) :
  Qsum (map (fun x => g x + h x) l) == Qsum (map g l) + Qsum (map h l).
Proof.
  induction l as [|x l IH]; cbn [map].
  - change (Qsum []) with 0. lra.
  - rewrite !Qsum_cons, IH. lra.
Qed.

Lemma Qsum_map_zero {A} (l : list A) : Qsum (map (fun _ => 0) l) == 0.
Proof.
  induction l as [|x l IH]; cbn [map]; [reflexivity|].
  rewrite Qsum_cons, IH. lra.
Qed.

Lemma Qsum_map_ext {A} (g h : A -> Q) (l : list A) :
  (forall x, g x == h x) -> Qsum (map g l) == Qsum (map h l).
Proof.
  intros Hext. apply Qsum_Forall2, Forall2_fmap, Forall_Forall2_diag, Forall_forall.
  intros x _. apply Hext.
Qed.

(** Rows first or columns first, the sum of a table is the same. *)
Lemma Qsum_exchange {A B} (f : A -> B -> Q) (rows : list A) (cols : list B) :
  Qsum (map (fun r => Qsum (map (f r) cols)) rows)
  == Qsum (map (fun c => Qsum (map (fun r => f r c) rows)) cols).
Proof.
  induction rows as [|r rows IH]; cbn [map].
  - change (Qsum []) with 0. now rewrite Qsum_map_zero.
  - rewrite Qsum_cons, IH.
    rewrite (Qsum_map_ext (fun c => Qsum (f r c :: map (fun r0 => f r0 c) rows))
                          (fun c => f r c + Qsum (map (fun r0 => f r0 c) rows))).
    + now rewrite Qsum_map_plus.
    + intros c. apply Qsum_cons.
Qed.

Lemma baskets_by_category (data : DataFrame) :
  Qsum (map (basket_size data) (values data))
  == Qsum (map (category_total data) (categories_of (columns data))).
Proof.
  unfold basket_size, category_total.
  apply (Qsum_exchange (fun row name => num_value (row_cell (columns data) row name))).
Qed.

Lemma Qsum_whole (l : list Q) :
  Forall (fun q => exists z : Z, q == inject_Z z) l ->
  Qsum l == inject_Z (sum_Z (map py_int l)).
Proof.
  induction 1 as [|q l (z & Hz) _ IH]; cbn [map sum_Z foldr].
  - reflexivity.
  - fold (sum_Z (map py_int l)).
    rewrite Qsum_cons, IH, inject_Z_plus, (py_int_comp _ _ Hz), py_int_inject_Z.
    now rewrite Hz.
Qed.
End SumExchange.

Lemma sum_Z_Permutation (l k : list Z) : l ≡ₚ k -> sum_Z l = sum_Z k.
Proof.
  unfold sum_Z. induction 1 as [|x l k _ IH|x y l|l k m _ IH1 _ IH2]; cbn; lia.
Qed.

(** X5. When every category cell is missing or a whole number, and the
    limit is not below the number of category columns, the [total_items] of
    the entries of [top_categories] add up to the [total_items] of
    [get_kpis]. *)
Theorem top_categories_add_up (data : DataFrame) (st : State) (limit : Z) :
  lifespan (Some data) = Return st ->
  (forall row name, row ∈ values data -> name ∈ category_columns st ->
                    whole_or_null (row_cell (columns data) row name)) ->
  1 <= limit <= 100 ->
  Z.of_nat (length (category_columns st)) <= limit ->
  exists (names : list string) (total_orders avg median : json),
    get_top_categories st limit
    = Return (JDict [("limit", JInt limit);
                     ("top_categories", JList (map (top_entry data) names))])
    /\ Forall2 (fun entry name =>
                  json_get "total_items" entry
                  = Some (JInt (py_int (category_total data name))))
               (map (top_entry data) names) names
    /\ get_kpis st
       = Return (JDict
           [("total_orders", total_orders);
            ("total_items",
             JInt (sum_Z (map (fun name => py_int (category_total data name)) names)));
            ("avg_items_per_order", avg);
            ("median_items_per_order", median)]).
Proof.
  intros Hst Hwhole Hlimit Hall. apply lifespan_Return in Hst as ->.
  cbn [category_columns] in *.
  set (cats := categories_of (columns data)) in *.
  exists (ranked_categories data). do 3 eexists.
  split.
  { rewrite top_categories_sorted.
    rewrite take_ge; [reflexivity|]. rewrite ranked_categories_length. fold cats. lia. }
  split.
  { apply Forall2_fmap_l, Forall_Forall2_diag, Forall_forall. intros name _. reflexivity. }
  rewrite get_kpis_loaded. do 5 f_equal.
  rewrite (py_int_comp _ _ (baskets_by_category data)). fold cats.
  assert (Htotals : Forall (fun q => exists z : Z, (q == inject_Z z)%Q)
                           (map (category_total data) cats)).
  { apply Forall_forall. intros q Hq.
    apply list_elem_of_fmap in Hq as (name & -> & Hname).
    exists (sum_Z (map py_int (map (fun row => num_value (row_cell (columns data) row name))
                                   (values data)))).
    unfold category_total. apply Qsum_whole, Forall_forall. intros q Hq.
    apply list_elem_of_fmap in Hq as (row & -> & Hrow).
    specialize (Hwhole row name Hrow Hname).
    destruct (row_cell (columns data) row name) as [|q]; [now exists 0 | exact Hwhole]. }
  rewrite (py_int_comp _ _ (Qsum_whole _ Htotals)), py_int_inject_Z, map_map.
  f_equal. apply sum_Z_Permutation. apply Permutation_map. symmetry.
  apply ranked_categories_Permutation.
Qed.

(** ** Further properties of [load_data] *)

Lemma fillna_cell_twice (c : num) : fillna_cell (fillna_cell c) = fillna_cell c.
Proof. now destruct c. Qed.

Lemma load_row_twice (cols : list string) (row : list num) :
  load_row cols (categories_of cols) (load_row cols (categories_of cols) row)
  = load_row cols (categories_of cols) row.
Proof.
  unfold load_row at 1 3. apply imap_ext. intros i name Hi. cbn.
  destruct (get_loc (categories_of cols) name) as [j|] eqn:Hj.
  - assert (Hin : name ∈ cols).
    { apply get_loc_Some, list_elem_of_lookup_2, categories_of_elem_of in Hj. tauto. }
    destruct (get_loc_elem_of _ _ Hin) as [i0 Hi0]. rewrite Hi0. cbn [default].
    rewrite (load_row_cell _ _ _ _ name) by (eapply get_loc_Some, Hi0).
    now rewrite Hj, Hi0, fillna_cell_twice.
  - rewrite (load_row_cell _ _ _ _ name Hi). now rewrite Hj.
Qed.

(** X6. Loading is idempotent: [load_data] applied to the table it returned
    returns the same table and the same category columns, so filling the
    nulls a second time changes nothing. *)
Theorem load_data_idempotent (data table : DataFrame) (cats : list string) :
  load_data data = Return (table, cats) ->
  load_data table = Return (table, cats).
Proof.
  rewrite load_data_Return. intros [= <- <-].
  rewrite load_data_Return. cbn [columns values].
  do 3 f_equal. rewrite map_map. apply map_ext. intros row. apply load_row_twice.
Qed.

Lemma Forall2_map_eq {A B C} (f : A -> C) (g : B -> C) (l : list A) (k : list B) :
  Forall2 (fun x y => f x = g y) l k -> map f l = map g k.
Proof. induction 1 as [|x y l k Hxy _ IH]; cbn; congruence. Qed.

(** The ranking reads nothing of a table but its header and its category
    totals. *)
Lemma ranked_categories_ext (data data' : DataFrame) :
  columns data = columns data' ->
  (forall name, name ∈ categories_of (columns data) ->
                (category_total data name == category_total data' name)%Q) ->
  ranked_categories data = ranked_categories data'.
Proof.
  intros Hcols Htotals. unfold ranked_categories.
  apply Forall2_map_eq.
  eapply Forall2_impl; [apply sort_values_desc_ext | intros a b [Hab _]; exact Hab].
  rewrite !sum_axis0_loaded, <- Hcols.
  apply Forall2_fmap, Forall_Forall2_diag, Forall_forall. intros name Hname.
  split; [reflexivity|]. cbn. rewrite !column_nansum_total. now apply Htotals.
Qed.

Lemma top_categories_ext (data data' : DataFrame) (limit : Z) :
  columns data = columns data' ->
  (forall name, name ∈ categories_of (columns data) ->
                (category_total data name == category_total data' name)%Q) ->
  get_top_categories {| df := Some (loaded_table data);
                        category_columns := categories_of (columns data) |} limit
  = get_top_categories {| df := Some (loaded_table data');
                          category_columns := categories_of (columns data') |} limit.
Proof.
  intros Hcols Htotals.
  rewrite !top_categories_sorted, <- (ranked_categories_ext data data' Hcols Htotals).
  do 6 f_equal. apply map_ext_in. intros name Hname.
  apply list_elem_of_In in Hname. apply subseteq_take in Hname.
  apply list_elem_of_fmap in Hname as (item & -> & Hitem).
  apply ranked_totals in Hitem as [_ Hitem].
  unfold top_entry. now rewrite (py_int_comp _ _ (Htotals _ Hitem)).
Qed.

(** X7. [get_kpis] and [get_top_categories] read nothing of a table but the
    values of its category cells, a null being the same as 0: two tables of
    the same header whose rows agree on these values get the same answers,
    whatever their metadata columns hold. *)
Theorem handlers_read_category_values (data data' : DataFrame) (st st' : State) :
  columns data = columns data' ->
  Forall2 (fun row row' =>
             forall name, name ∈ categories_of (columns data) ->
               num_value (row_cell (columns data) row name)
               = num_value (row_cell (columns data) row' name))
          (values data) (values data') ->
  lifespan (Some data) = Return st ->
  lifespan (Some data') = Return st' ->
  get_kpis st = get_kpis st'
  /\ forall limit, get_top_categories st limit = get_top_categories st' limit.
Proof.
  intros Hcols Hrows Hst Hst'.
  apply lifespan_Return in Hst as ->. apply lifespan_Return in Hst' as ->.
  assert (Hbaskets : map (basket_size data) (values data)
                     = map (basket_size data') (values data')).
  { apply Forall2_map_eq. eapply Forall2_impl; [exact Hrows|].
    intros row row' Hagree. unfold basket_size. rewrite <- Hcols. f_equal.
    apply map_ext_in. intros name Hname. apply Hagree. now apply list_elem_of_In. }
  assert (Htotals : forall name, name ∈ categories_of (columns data) ->
                      category_total data name = category_total data' name).
  { intros name Hname. unfold category_total. rewrite <- Hcols. f_equal.
    apply Forall2_map_eq. eapply Forall2_impl; [exact Hrows|].
    intros row row' Hagree. now apply Hagree. }
  split.
  - rewrite !get_kpis_loaded, Hbaskets. unfold len.
    now rewrite (Forall2_length _ _ _ Hrows).
  - intros limit. apply top_categories_ext; [exact Hcols|].
    intros name Hname. now rewrite Htotals.
Qed.

(** ** The order of the rows *)

Section RowOrder.
Local Open Scope Q_scope.

Lemma Qsum_Permutation (l k : list Q) : l ≡ₚ k -> Qsum l == Qsum k.
Proof.
  induction 1 as [|x l k _ IH|x y l|l k m _ IH1 _ IH2].
  - reflexivity.
  - now rewrite !Qsum_cons, IH.
  - rewrite !Qsum_cons. lra.
  - now rewrite IH1.
Qed.

Lemma Forall2_Qeq_refl (l : list Q) : Forall2 Qeq l l.
Proof. apply Forall_Forall2_diag, Forall_forall. intros x _. reflexivity. Qed.

Lemma Forall2_Qeq_trans (l k m : list Q) :
  Forall2 Qeq l k -> Forall2 Qeq k m -> Forall2 Qeq l m.
Proof.
  intros Hlk. revert m. induction Hlk as [|x y l k Hxy _ IH]; intros m Hkm.
  - inversion Hkm. constructor.
  - inversion Hkm as [|y' z k' m' Hyz Hkm']; subst.
    constructor; [now rewrite Hxy | now apply IH].
Qed.

(** Two values go into a list in either order, up to the order of equal
    values. *)
Lemma insert_sorted_swap (x y : Q) (s : list Q) :
  Forall2 Qeq (insert_sorted Qle_bool y (insert_sorted Qle_bool x s))
              (insert_sorted Qle_bool x (insert_sorted Qle_bool y s)).
Proof.
  induction s as [|z s IH]; cbn.
  - destruct (Qle_bool y x) eqn:Hyx, (Qle_bool x y) eqn:Hxy; cbn;
      rewrite ?Hyx, ?Hxy; try apply Forall2_Qeq_refl.
    + apply Qle_bool_iff in Hyx, Hxy.
      assert (x == y) by lra. repeat constructor; [symmetry|]; assumption.
    + apply Qle_bool_total in Hyx. congruence.
  - destruct (Qle_bool x z) eqn:Hxz, (Qle_bool y z) eqn:Hyz; cbn;
      rewrite ?Hxz, ?Hyz.
    + destruct (Qle_bool y x) eqn:Hyx, (Qle_bool x y) eqn:Hxy; cbn;
        rewrite ?Hxz, ?Hyz; try apply Forall2_Qeq_refl.
      * apply Qle_bool_iff in Hyx, Hxy.
        assert (x == y) by lra.
        constructor; [now symmetry|]. constructor; [assumption|].
        apply Forall2_Qeq_refl.
      * apply Qle_bool_total in Hyx. congruence.
    + assert (Hyx : Qle_bool y x = false).
      { destruct (Qle_bool y x) eqn:Hyx; [|reflexivity].
        rewrite (Qle_bool_trans _ _ _ Hyx Hxz) in Hyz. discriminate. }
      rewrite Hyx. cbn. rewrite ?Hyz, ?Hxz. apply Forall2_Qeq_refl.
    + assert (Hxy : Qle_bool x y = false).
      { destruct (Qle_bool x y) eqn:Hxy; [|reflexivity].
        rewrite (Qle_bool_trans _ _ _ Hxy Hyz) in Hxz. discriminate. }
      rewrite Hxy. cbn. rewrite ?Hxz, ?Hyz. apply Forall2_Qeq_refl.
    + constructor; [reflexivity | exact IH].
Qed.

(** Sorting the same values in another order gives the same sorted values. *)
Lemma isort_Permutation_Qeq (l k : list Q) :
  l ≡ₚ k -> Forall2 Qeq (isort Qle_bool l) (isort Qle_bool k).
Proof.
  induction 1 as [|x l k _ IH|x y l|l k m _ IH1 _ IH2]; cbn.
  - constructor.
  - now apply insert_sorted_Qeq.
  - apply insert_sorted_swap.
  - eapply Forall2_Qeq_trans; eassumption.
Qed.

Lemma series_mean_Permutation (l k : list Q) :
  l ≡ₚ k -> num_eq (series_mean l) (series_mean k).
Proof.
  intros Hperm. pose proof (Qsum_Permutation _ _ Hperm) as Hsum.
  pose proof (Permutation_length Hperm) as Hlen.
  destruct l as [|x l], k as [|y k]; try discriminate; cbn [series_mean num_eq];
    [exact I|].
  unfold float_div. rewrite Hlen.
  rewrite (round_binary64_comp _ _ (Qdiv_comp _ _ Hsum _ _ (Qeq_refl _))).
  reflexivity.
Qed.

Lemma series_median_Permutation (l k : list Q) :
  l ≡ₚ k -> num_eq (series_median l) (series_median k).
Proof.
  intros Hperm. pose proof (isort_Permutation_Qeq _ _ Hperm) as Hsorted.
  pose proof (Permutation_length Hperm) as Hlen.
  unfold series_median. cbv zeta. rewrite <- Hlen.
  destruct (length l) as [|n]; [exact I|].
  destruct (Nat.even (S n)); cbn [num_eq].
  - now rewrite (nth_Qeq _ _ (S n / 2 - 1) Hsorted), (nth_Qeq _ _ (S n / 2) Hsorted).
  - apply nth_Qeq, Hsorted.
Qed.
End RowOrder.

(** X8. The answers of [get_kpis] and [get_top_categories] do not depend on
    the order of the rows: two tables of the same header, the rows of one a
    rearrangement of the rows of the other, get the same answers. The
    category cells are taken to be missing or whole numbers, as item counts
    are: their sums are then the same in whatever order they are added, in
    binary64 as over the rationals. *)
Theorem handlers_ignore_row_order (data data' : DataFrame) (st st' : State) :
  columns data = columns data' ->
  values data ≡ₚ values data' ->
  (forall row name, row ∈ values data -> name ∈ categories_of (columns data) ->
                    whole_or_null (row_cell (columns data) row name)) ->
  lifespan (Some data) = Return st ->
  lifespan (Some data') = Return st' ->
  get_kpis st = get_kpis st'
  /\ forall limit, get_top_categories st limit = get_top_categories st' limit.
Proof.
  intros Hcols Hrows _ Hst Hst'.
  apply lifespan_Return in Hst as ->. apply lifespan_Return in Hst' as ->.
  assert (Hbaskets : map (basket_size data) (values data)
                     ≡ₚ map (basket_size data') (values data')).
  { replace (basket_size data') with (basket_size data)
      by (unfold basket_size; now rewrite Hcols).
    now apply Permutation_map. }
  assert (Htotals : forall name,
            (category_total data name == category_total data' name)%Q).
  { intros name. unfold category_total. rewrite <- Hcols.
    now apply Qsum_Permutation, Permutation_map. }
  split.
  - rewrite !get_kpis_loaded. unfold len.
    rewrite (Permutation_length Hrows).
    rewrite (py_int_comp _ _ (Qsum_Permutation _ _ Hbaskets)).
    rewrite (py_round_num_eq _ _ 2 (series_mean_Permutation _ _ Hbaskets)).
    now rewrite (py_round_num_eq _ _ 2 (series_median_Permutation _ _ Hbaskets)).
  - intros limit. apply top_categories_ext; [exact Hcols|].
    intros name _. apply Htotals.
Qed.

(** X9. On a table without rows [get_kpis] counts 0 orders and 0 items, and
    the mean and the median of the empty series of baskets are [nan], which
    [round] keeps: no fallback value is put in their place. On a table with
    rows both are numbers. *)
Theorem kpis_empty_table (data : DataFrame) (st : State) :
  lifespan (Some data) = Return st ->
  exists (total_items : Z) (avg median : num),
    get_kpis st
    = Return (JDict [("total_orders", JInt (Z.of_nat (len data)));
                     ("total_items", JInt total_items);
                     ("avg_items_per_order", JFloat avg);
                     ("median_items_per_order", JFloat median)])
    /\ (values data = [] ->
        len data = 0%nat /\ total_items = 0 /\ avg = NaN /\ median = NaN)
    /\ (values data <> [] -> avg <> NaN /\ median <> NaN).
Proof.
  intros Hst. apply lifespan_Return in Hst as ->.
  do 3 eexists. split; [apply get_kpis_loaded|].
  unfold len. destruct (values data) as [|row rows].
  - split; [|congruence]. intros _. repeat split; reflexivity.
  - split; [discriminate|]. intros _. split; [discriminate|].
    unfold series_median. cbn [map length].
    destruct (Nat.even _); discriminate.
Qed.

(** ** Counting values *)

Lemma first_seen_snoc (l : list Q) (x : Q) :
  first_seen (l ++ [x])
  = if existsb (Qeq_bool x) (first_seen l) then first_seen l else first_seen l ++ [x].
Proof. unfold first_seen. now rewrite foldl_app. Qed.

Lemma hash_counts_snoc (l : list Q) (x : Q) :
  hash_counts (l ++ [x]) = count_into x (hash_counts l).
Proof. unfold hash_counts. now rewrite foldl_app. Qed.

Lemma occurrences_snoc (k : Q) (l : list Q) (x : Q) :
  occurrences k (l ++ [x])
  = (occurrences k l + if Qeq_bool x k then 1 else 0)%nat.
Proof.
  unfold occurrences. rewrite List.filter_app, length_app. cbn.
  now destruct (Qeq_bool x k).
Qed.

Lemma occurrences_comp (k k' : Q) (l : list Q) :
  (k == k')%Q -> occurrences k l = occurrences k' l.
Proof.
  intros Hk. unfold occurrences. f_equal. apply List.filter_ext. intros x.
  destruct (Qeq_bool x k) eqn:Hx, (Qeq_bool x k') eqn:Hx'; try reflexivity.
  - apply Qeq_bool_iff in Hx. apply Qeq_bool_neq in Hx'.
    exfalso. apply Hx'. now rewrite Hx.
  - apply Qeq_bool_iff in Hx'. apply Qeq_bool_neq in Hx.
    exfalso. apply Hx. now rewrite Hx'.
Qed.

Lemma occurrences_pos (k : Q) (l : list Q) :
  (0 < occurrences k l)%nat <-> exists x, x ∈ l /\ (x == k)%Q.
Proof.
  unfold occurrences. induction l as [|y l IH]; cbn.
  - split; [lia|]. intros (x & Hx & _). now apply elem_of_nil in Hx.
  - destruct (Qeq_bool y k) eqn:Hy; cbn.
    + split; [|lia]. intros _. exists y.
      split; [apply list_elem_of_here | now apply Qeq_bool_iff].
    + rewrite IH. split.
      * intros (x & Hx & Hk). exists x. split; [now apply list_elem_of_further | exact Hk].
      * intros (x & Hx & Hk). apply elem_of_cons in Hx as [-> | Hx].
        -- apply Qeq_bool_iff in Hk. congruence.
        -- now exists x.
Qed.

Lemma existsb_Qeq (x : Q) (l : list Q) :
  existsb (Qeq_bool x) l = true <-> exists k, k ∈ l /\ (k == x)%Q.
Proof.
  rewrite existsb_exists. split.
  - intros (k & Hin & Hk). exists k. split; [now apply list_elem_of_In|].
    symmetry. now apply Qeq_bool_iff.
  - intros (k & Hin & Hk). exists k. split; [now apply list_elem_of_In|].
    apply Qeq_bool_iff. now symmetry.
Qed.

(** Every value has its representative among the distinct values, which are
    values of the list, no two of them equal. *)
Lemma first_seen_spec (l : list Q) :
  NoDup (map Qred (first_seen l))
  /\ (forall x, x ∈ l -> exists k, k ∈ first_seen l /\ (k == x)%Q)
  /\ (forall k, k ∈ first_seen l -> k ∈ l).
Proof.
  induction l as [|x l (Hnodup & Hrep & Hmem)] using rev_ind.
  - split; [constructor|]. split; intros x Hx; now apply elem_of_nil in Hx.
  - rewrite first_seen_snoc.
    destruct (existsb (Qeq_bool x) (first_seen l)) eqn:Hseen.
    + split; [exact Hnodup|]. split.
      * intros y Hy. apply elem_of_app in Hy as [Hy | Hy]; [now apply Hrep|].
        apply list_elem_of_singleton in Hy as ->. now apply existsb_Qeq.
      * intros k Hk. apply elem_of_app. left. now apply Hmem.
    + split; [|split].
      * rewrite map_app. apply NoDup_app. split; [exact Hnodup|].
        split; [|apply NoDup_singleton].
        intros q Hq Hx. apply list_elem_of_singleton in Hx as ->.
        apply list_elem_of_fmap in Hq as (k & Hk & Hin).
        assert (existsb (Qeq_bool x) (first_seen l) = true); [|congruence].
        apply existsb_Qeq. exists k. split; [exact Hin|].
        apply Qred_eq_iff. now symmetry.
      * intros y Hy. apply elem_of_app in Hy as [Hy | Hy].
        -- destruct (Hrep y Hy) as (k & Hk & Heq). exists k.
           split; [apply elem_of_app; now left | exact Heq].
        -- apply list_elem_of_singleton in Hy as ->. exists x.
           split; [apply elem_of_app; right; apply list_elem_of_here | reflexivity].
      * intros k Hk. apply elem_of_app in Hk as [Hk | Hk]; apply elem_of_app.
        -- left. now apply Hmem.
        -- now right.
Qed.

Lemma count_into_map (x : Q) (keys : list Q) (count : Q -> nat) :
  NoDup (map Qred keys) ->
  count_into x (map (fun k => (k, count k)) keys)
  = map (fun k => (k, (count k + if Qeq_bool x k then 1 else 0)%nat)) keys
    ++ (if existsb (Qeq_bool x) keys then [] else [(x, 1%nat)]).
Proof.
  induction keys as [|k keys IH]; intros Hnodup; [reflexivity|].
  cbn [map] in Hnodup. apply NoDup_cons in Hnodup as [Hk Hnodup].
  cbn. destruct (Qeq_bool x k) eqn:Hxk; cbn.
  - rewrite Nat.add_1_r, app_nil_r. f_equal.
    apply map_ext_in. intros k' Hin.
    destruct (Qeq_bool x k') eqn:Hxk'; [|now rewrite Nat.add_0_r].
    exfalso. apply Hk. apply list_elem_of_fmap. exists k'.
    split; [|now apply list_elem_of_In].
    apply Qred_eq_iff. apply Qeq_bool_iff in Hxk, Hxk'. now rewrite <- Hxk, Hxk'.
  - rewrite Nat.add_0_r. f_equal. now apply IH.
Qed.

(** The table of [value_counts] holds each distinct value, in the order
    they are first met, with the number of its occurrences. *)
Lemma hash_counts_first_seen (l : list Q) :
  hash_counts l = map (fun k => (k, occurrences k l)) (first_seen l).
Proof.
  induction l as [|x l IH] using rev_ind; [reflexivity|].
  destruct (first_seen_spec l) as (Hnodup & Hrep & _).
  rewrite hash_counts_snoc, IH, count_into_map by exact Hnodup.
  rewrite first_seen_snoc.
  destruct (existsb (Qeq_bool x) (first_seen l)) eqn:Hseen.
  - rewrite app_nil_r. apply map_ext. intros k. now rewrite occurrences_snoc.
  - rewrite map_app. f_equal.
    + apply map_ext. intros k. now rewrite occurrences_snoc.
    + cbn. rewrite occurrences_snoc, Qeq_bool_refl.
      assert (Hzero : occurrences x l = 0%nat); [|now rewrite Hzero].
      destruct (Nat.eq_dec (occurrences x l) 0%nat) as [|Hpos]; [assumption|].
      assert (Hex : exists y, y ∈ l /\ (y == x)%Q) by (apply occurrences_pos; lia).
      destruct Hex as (y & Hy & Hyx). destruct (Hrep y Hy) as (k & Hk & Hky).
      assert (existsb (Qeq_bool x) (first_seen l) = true); [|congruence].
      apply existsb_Qeq. exists k. split; [exact Hk | now rewrite Hky].
Qed.

Lemma dropna_elem_of (k : Q) (s : list num) : k ∈ dropna s <-> Num k ∈ s.
Proof.
  unfold dropna. rewrite list_elem_of_omap. split.
  - intros ([|q] & Hin & Hq); [discriminate|]. now injection Hq as ->.
  - intros Hin. now exists (Num k).
Qed.


(** The cells that hold a number are the occurrences of the number among
    the values that are not missing. *)
Lemma cells_with_occurrences (col : list num) (q : Q) :
  cells_with col q = occurrences q (dropna col).
Proof.
  unfold cells_with, occurrences.
  induction col as [|[|x] col IH]; [reflexivity | exact IH |].
  change (dropna (Num x :: col)) with (x :: dropna col). cbn.
  destruct (Qeq_bool x q); cbn; now rewrite IH.
Qed.

Lemma cells_with_pos (col : list num) (q : Q) :
  (0 < cells_with col q)%nat <-> exists k, k ∈ first_seen (dropna col) /\ (k == q)%Q.
Proof.
  rewrite cells_with_occurrences, occurrences_pos.
  destruct (first_seen_spec (dropna col)) as (_ & Hrep & Hmem). split.
  - intros (x & Hx & Hxq). destruct (Hrep x Hx) as (k & Hk & Hkx).
    exists k. split; [exact Hk | now rewrite Hkx].
  - intros (k & Hk & Hkq). exists k. split; [now apply Hmem | exact Hkq].
Qed.



Lemma NoDup_Qred_inj (l : list Q) (a b : Q) :
  NoDup (map Qred l) -> a ∈ l -> b ∈ l -> (a == b)%Q -> a = b.
Proof.
  intros Hnodup Ha Hb Hab. apply Qred_complete in Hab.
  apply list_elem_of_lookup in Ha as [i Hi]. apply list_elem_of_lookup in Hb as [j Hj].
  assert (Hij : i = j).
  { apply (NoDup_lookup (map Qred l) i j (Qred a)); [exact Hnodup | |];
      change (map Qred l) with (Qred <$> l); rewrite list_lookup_fmap.
    - now rewrite Hi.
    - now rewrite Hj, Hab. }
  subst j. congruence.
Qed.

Lemma sorted_distinct_Qlt (l : list Q) :
  StronglySorted Qle l -> NoDup (map Qred l) -> StronglySorted Qlt l.
Proof.
  induction 1 as [|x l _ IH Hle]; intros Hnodup; [constructor|].
  cbn [map] in Hnodup. apply NoDup_cons in Hnodup as [Hx Hnodup].
  constructor; [now apply IH|].
  apply Forall_forall. intros y Hy.
  pose proof (proj1 (Forall_forall _ _) Hle y Hy) as Hxy.
  apply Qle_lt_or_eq in Hxy as [Hlt | Heq]; [exact Hlt|].
  exfalso. apply Hx. apply list_elem_of_fmap. exists y.
  split; [now apply Qred_complete | exact Hy].
Qed.

(** The distinct values of a column in ascending order: each is below the
    next. *)
Lemma ascending_values_Permutation (s : list num) :
  ascending_values s ≡ₚ first_seen (dropna s).
Proof. apply isort_Permutation. Qed.

Lemma ascending_values_sorted (s : list num) : StronglySorted Qlt (ascending_values s).
Proof.
  apply sorted_distinct_Qlt.
  - apply StronglySorted_Qle_bool, isort_StronglySorted.
    + apply Qle_bool_total.
    + apply Qle_bool_trans.
  - change (map Qred ?l) with (Qred <$> l).
    rewrite ascending_values_Permutation.
    apply first_seen_spec.
Qed.

(** ** The order distribution *)

Lemma day_names_lookup (d : Z) : 0 <= d <= 6 -> day_names !! d = Some (day_name d).
Proof.
  intros Hd.
  assert (Hcases : d = 0 \/ d = 1 \/ d = 2 \/ d = 3 \/ d = 4 \/ d = 5 \/ d = 6) by lia.
  repeat destruct Hcases as [-> | Hcases]; try subst d; vm_compute; reflexivity.
Qed.

Lemma day_names_domain (d : Z) (day : string) :
  day_names !! d = Some day -> 0 <= d <= 6.
Proof.
  intros Hday. unfold day_names in Hday.
  apply elem_of_list_to_map_2 in Hday.
  repeat (apply elem_of_cons in Hday as [Heq | Hday]; [inversion Heq; lia|]).
  now apply elem_of_nil in Hday.
Qed.

(** The entries of [value_counts]: the distinct values with their counts. *)
Lemma value_counts_elem_of (s : list num) (item : Q * Q) :
  item ∈ value_counts s ->
  exists k, k ∈ first_seen (dropna s) /\ item = counted s k.
Proof.
  intros Hin. apply sort_values_desc_elem_of in Hin.
  rewrite hash_counts_first_seen, map_map in Hin.
  apply list_elem_of_fmap in Hin as (k & -> & Hk). now exists k.
Qed.

Lemma value_counts_Permutation (s : list num) :
  value_counts s ≡ₚ map (counted s) (first_seen (dropna s)).
Proof.
  unfold value_counts.
  now rewrite sort_values_desc_Permutation, hash_counts_first_seen, map_map.
Qed.

(** [value_counts().sort_index()]: the distinct values in ascending order,
    each with its count. *)
Lemma sort_index_value_counts (s : list num) :
  sort_index (value_counts s) = map (counted s) (ascending_values s).
Proof.
  assert (Hperm : sort_index (value_counts s) ≡ₚ map (counted s) (ascending_values s)).
  { rewrite sort_index_Permutation, value_counts_Permutation.
    apply Permutation_map. symmetry. apply ascending_values_Permutation. }
  apply (sorted_unique fst); [exact Hperm | apply sort_index_sorted | |].
  - eapply StronglySorted_map_in; [|apply ascending_values_sorted].
    intros a b _ _ Hab. cbn. now apply Qlt_le_weak.
  - intros a b Ha Hb Hkey.
    rewrite Hperm in Ha, Hb.
    apply list_elem_of_fmap in Ha as (k & -> & Hk).
    apply list_elem_of_fmap in Hb as (k' & -> & Hk').
    cbn in Hkey. f_equal.
    rewrite ascending_values_Permutation in Hk, Hk'.
    destruct (first_seen_spec (dropna s)) as (Hnodup & _ & _).
    exact (NoDup_Qred_inj _ _ _ Hnodup Hk Hk' Hkey).
Qed.

(** One entry of the day-of-week distribution: it is returned for a day
    value whose integer part is a key of [day_names]. *)
Lemma dow_entry_Return (dows : list num) (total : nat) (k : Q) (entry : json) :
  dow_entry total (counted dows k) = Return entry ->
  0 <= py_int k <= 6
  /\ entry = dow_json dows k (py_int k)
                      (round_to (percent (cells_with dows k) total) 1).
Proof.
  unfold dow_entry, counted.
  destruct (day_names !! py_int k) as [day|] eqn:Hday; [|discriminate].
  intros [= <-]. pose proof (day_names_domain _ _ Hday) as Hrange.
  split; [exact Hrange|].
  rewrite (day_names_lookup _ Hrange) in Hday. injection Hday as <-.
  unfold dow_json, percent. now rewrite py_int_inject_Z, cells_with_occurrences.
Qed.

Lemma mapM_Return_Forall2 {A B} (f : A -> outcome B) (l : list A) (k : list B) :
  mapM f l = Return k -> Forall2 (fun x y => f x = Return y) l k.
Proof.
  revert k. induction l as [|x l IH]; intros k; cbn [mapM].
  - intros [= <-]. constructor.
  - destruct (f x) as [y|e] eqn:Hx; cbn [mbind outcome_bind]; [|discriminate].
    destruct (mapM f l) as [k'|e]; cbn [mbind outcome_bind]; [|discriminate].
    intros [= <-]. constructor; [exact Hx | now apply IH].
Qed.

(** The hours of [hour_counts], in its order. *)
Lemma ranked_hours_elem_of (hours : list num) (item : Q * Q) :
  item ∈ sort_values_desc (value_counts hours) ->
  exists h, h ∈ first_seen (dropna hours) /\ item = counted hours h.
Proof. intros Hin. now apply sort_values_desc_elem_of, value_counts_elem_of in Hin. Qed.

Lemma ranked_hours_Permutation (hours : list num) :
  ranked_hours hours ≡ₚ first_seen (dropna hours).
Proof.
  unfold ranked_hours.
  rewrite sort_values_desc_Permutation, value_counts_Permutation, map_map. cbn.
  now rewrite map_id.
Qed.



Lemma hour_entry_counted (hours : list num) (h : Q) :
  hour_entry (counted hours h) = hour_json hours h.
Proof. unfold hour_entry, counted, hour_json. now rewrite py_int_inject_Z. Qed.

Lemma peak_hours_entries (hours : list num) :
  map hour_entry (head 10 (sort_values_desc (value_counts hours)))
  = map (hour_json hours) (take 10 (ranked_hours hours)).
Proof.
  unfold head, ranked_hours. change (map ?f ?l) with (f <$> l).
  rewrite <- fmap_take, <- list_fmap_compose.
  apply list_fmap_ext. intros i item Hitem. cbn.
  apply lookup_take_Some in Hitem as [Hitem _].
  apply list_elem_of_lookup_2, ranked_hours_elem_of in Hitem as (h & _ & ->).
  apply hour_entry_counted.
Qed.

(** What [get_order_distribution] returns, when it returns. *)
Lemma order_distribution_inv (st : State) (table : DataFrame) (r : json) :
  df st = Some table ->
  get_order_distribution st = Return r ->
  exists (dows hours : list num) (entries : list json),
    getitem table "order_dow" = Return dows
    /\ getitem table "order_hour_of_day" = Return hours
    /\ Forall2 (fun k entry => dow_entry (len table) (counted dows k) = Return entry)
               (ascending_values dows) entries
    /\ r = JDict
         [("summary",
           JDict [("total_orders", JInt (Z.of_nat (len table)));
                  ("analysis_period", JStr "All available data")]);
          ("day_of_week_distribution", JList entries);
          ("peak_hours", JList (map (hour_json hours) (take 10 (ranked_hours hours))))].
Proof.
  intros Hdf. unfold get_order_distribution. rewrite Hdf.
  destruct (getitem table "order_dow") as [dows|]; [|discriminate].
  cbn [mbind outcome_bind]. rewrite sort_index_value_counts.
  destruct (mapM (dow_entry (len table)) (map (counted dows) (ascending_values dows)))
    as [entries|] eqn:Hentries; [|discriminate].
  cbn [mbind outcome_bind].
  destruct (getitem table "order_hour_of_day") as [hours|]; [|discriminate].
  cbn [mbind outcome_bind]. rewrite peak_hours_entries. intros [= <-].
  exists dows, hours, entries. repeat (split; [reflexivity|]). split; [|reflexivity].
  apply mapM_Return_Forall2 in Hentries. now apply Forall2_fmap_l in Hentries.
Qed.

(** *** The percentage in binary64 *)

Section Percent.
Local Open Scope Q_scope.

Lemma quotient_range (c t : nat) :
  (0 < t)%nat -> (c <= t)%nat ->
  0 <= inject_Z (Z.of_nat c) / inject_Z (Z.of_nat t)
  /\ inject_Z (Z.of_nat c) / inject_Z (Z.of_nat t) <= 1.
Proof.
  intros Ht Hc. pose proof (inject_nat_pos t Ht) as Ht'.
  pose proof (inject_nat_nonneg c) as Hc'.
  assert (Hle : inject_Z (Z.of_nat c) <= inject_Z (Z.of_nat t))
    by (rewrite <- Zle_Qle; lia).
  split.
  - apply Qle_shift_div_l; [exact Ht' | lra].
  - apply Qle_shift_div_r; [exact Ht' | lra].
Qed.

(** The two roundings of [(count / total) * 100] move it by at most three
    times 2^-53 of itself. *)
Lemma percent_bounds (c t : nat) :
  (0 < t)%nat -> (c <= t)%nat ->
  inject_Z (Z.of_nat c) / inject_Z (Z.of_nat t) * 100 * (1 - 3 * half_ulp)
  <= percent c t
  /\ percent c t
     <= inject_Z (Z.of_nat c) / inject_Z (Z.of_nat t) * 100 * (1 + 3 * half_ulp).
Proof.
  intros Ht Hc. destruct (quotient_range c t Ht Hc) as [Hq _].
  unfold percent, float_mul, float_div.
  set (q := inject_Z (Z.of_nat c) / inject_Z (Z.of_nat t)) in *.
  destruct (round_binary64_error q Hq) as [H1 H2].
  pose proof (round_binary64_nonneg q Hq) as H0.
  set (r1 := round_binary64 q) in *.
  assert (Hr : 0 <= r1 * 100) by lra.
  destruct (round_binary64_error (r1 * 100) Hr) as [H3 H4].
  set (r2 := round_binary64 (r1 * 100)) in *.
  clearbody r2 r1 q. unfold half_ulp in *. split; lra.
Qed.

Lemma percent_error (c t : nat) :
  (0 < t)%nat -> (c <= t)%nat ->
  percent c t - (1 # 20) <= inject_Z (Z.of_nat c) / inject_Z (Z.of_nat t) * 100
  /\ inject_Z (Z.of_nat c) / inject_Z (Z.of_nat t) * 100 <= percent c t + (1 # 20).
Proof.
  intros Ht Hc. destruct (quotient_range c t Ht Hc) as [Hq Hq1].
  destruct (percent_bounds c t Ht Hc) as [Hlo Hhi].
  set (q := inject_Z (Z.of_nat c) / inject_Z (Z.of_nat t)) in *.
  clearbody q. unfold half_ulp in *. split; lra.
Qed.

(** The float percentage of a count in fewer than 2^40 rows, when rounded
    to 1 decimal place, is a multiple of 0.1 nearest to the exact
    percentage. *)
Lemma percent_rounded (c t : nat) :
  (0 < t)%nat -> (c <= t)%nat -> (Z.of_nat t < 2 ^ 40)%Z ->
  rounded_to 1 (inject_Z (Z.of_nat c) / inject_Z (Z.of_nat t) * 100)
             (round_to (percent c t) 1).
Proof.
  intros Ht Hc Hsize.
  pose proof (inject_nat_pos t Ht) as Ht'.
  destruct (quotient_range c t Ht Hc) as [Hq Hq1].
  destruct (percent_bounds c t Ht Hc) as [Hlo Hhi].
  unfold rounded_to, round_to. cbv zeta. change (inject_Z (10 ^ Z.of_nat 1)) with 10.
  exists (round_half_even (percent c t * 10)). split; [reflexivity|].
  assert (Hexact : inject_Z (1000 * Z.of_nat c) / inject_Z (Z.of_nat t)
                   == inject_Z (Z.of_nat c) / inject_Z (Z.of_nat t) * 100 * 10).
  { rewrite inject_Z_mult. change (inject_Z 1000) with 1000. field. lra. }
  rewrite <- Hexact.
  apply (round_half_even_nearest _ _ _
           (3000 * (inject_Z (Z.of_nat c) / inject_Z (Z.of_nat t)) * half_ulp)).
  - lia.
  - rewrite Hexact. unfold half_ulp in *. lra.
  - rewrite Hexact. unfold half_ulp in *. lra.
  - assert (Hdelta : inject_Z (2 * Z.of_nat t)
                     * (3000 * (inject_Z (Z.of_nat c) / inject_Z (Z.of_nat t)) * half_ulp)
                     == 6000 * inject_Z (Z.of_nat c) * half_ulp).
    { rewrite inject_Z_mult. change (inject_Z 2) with 2. field. lra. }
    rewrite Hdelta.
    assert (Hcount : inject_Z (Z.of_nat c) <= inject_Z (2 ^ 40))
      by (rewrite <- Zle_Qle; lia).
    change (inject_Z (2 ^ 40)) with 1099511627776 in Hcount.
    unfold half_ulp. lra.
Qed.

(** The rounded percentage lies between 0 and 100. *)
Lemma percent_range (c t : nat) :
  (0 < t)%nat -> (c <= t)%nat ->
  0 <= round_to (percent c t) 1 /\ round_to (percent c t) 1 <= 100.
Proof.
  intros Ht Hc. destruct (quotient_range c t Ht Hc) as [Hq Hq1].
  destruct (percent_bounds c t Ht Hc) as [Hlo Hhi].
  unfold round_to. cbv zeta. change (inject_Z (10 ^ Z.of_nat 1)) with 10.
  set (q := inject_Z (Z.of_nat c) / inject_Z (Z.of_nat t)) in *. clearbody q.
  assert (Hk0 : (0 <= round_half_even (percent c t * 10))%Z).
  { apply round_half_even_ge. change (inject_Z 0) with 0. unfold half_ulp in *. lra. }
  assert (Hk1 : (round_half_even (percent c t * 10) <= 1000)%Z).
  { apply round_half_even_le. change (inject_Z 1000) with 1000.
    unfold half_ulp in *. lra. }
  rewrite Zle_Qle in Hk0, Hk1.
  change (inject_Z 0) with 0 in Hk0. change (inject_Z 1000) with 1000 in Hk1.
  generalize dependent (inject_Z (round_half_even (percent c t * 10))).
  intros k Hk0 Hk1. unfold Qdiv. change (/ 10) with (1 # 10). split; lra.
Qed.
End Percent.

Lemma cells_with_le (col : list num) (q : Q) : (cells_with col q <= length col)%nat.
Proof. unfold cells_with. apply List.filter_length_le. Qed.

Lemma getitem_length (table : DataFrame) (name : string) (col : list num) :
  getitem table name = Return col -> length col = len table.
Proof.
  unfold getitem. destruct (get_loc (columns table) name); [|discriminate].
  intros [= <-]. apply length_map.
Qed.


Lemma order_distribution_sample_days :
  exists summary peak_hours,
    get_order_distribution sample_state
    = Return (JDict
        [("summary", summary);
         ("day_of_week_distribution",
          JList [JDict [("day", JStr "Sunday"); ("day_number", JInt 0);
                        ("orders", JInt 1); ("percentage", JFloat (Num 33.3))];
                 JDict [("day", JStr "Monday"); ("day_number", JInt 1);
                        ("orders", JInt 1); ("percentage", JFloat (Num 33.3))];
                 JDict [("day", JStr "Tuesday"); ("day_number", JInt 2);
                        ("orders", JInt 1); ("percentage", JFloat (Num 33.3))]]);
         ("peak_hours", peak_hours)]).
Proof.
  unfold get_order_distribution. cbn [df sample_state].
  change (getitem sample_data "order_dow") with (Return [Num 0; Num 1; Num 2]).
  cbn [mbind outcome_bind]. rewrite sort_index_value_counts.
  change (getitem sample_data "order_hour_of_day")
    with (Return [Num 10; Num 14; Num 10]).
  assert (Hdays :
    mapM (dow_entry (len sample_data))
         (map (counted [Num 0; Num 1; Num 2]) (ascending_values [Num 0; Num 1; Num 2]))
    = Return [JDict [("day", JStr "Sunday"); ("day_number", JInt 0);
                     ("orders", JInt 1); ("percentage", JFloat (Num 33.3))];
              JDict [("day", JStr "Monday"); ("day_number", JInt 1);
                     ("orders", JInt 1); ("percentage", JFloat (Num 33.3))];
              JDict [("day", JStr "Tuesday"); ("day_number", JInt 2);
                     ("orders", JInt 1); ("percentage", JFloat (Num 33.3))]])
    by (vm_compute; reflexivity).
  rewrite Hdays. cbn [mbind outcome_bind]. do 2 eexists. reflexivity.
Qed.

(** C5. For a loaded table on which [get_order_distribution] returns (it
    raises [KeyError] when a column is missing or a day is out of range),
    [day_of_week_distribution] has one entry for each distinct value of
    [order_dow], in ascending order of the values and of their day numbers;
    the entry carries the name the fixed mapping gives the day number, the
    number of orders of that day, and their share of all rows in percent,
    computed in binary64 and rounded to 1 decimal place: in a table of
    fewer than 2^40 rows this is a multiple of 0.1 nearest to the exact
    share (a share halfway between two multiples may go to either).  For
    the three orders of [sample_data], of days 0, 1 and 2, the entries are
    Sunday, Monday and Tuesday, each with 1 order and 33.3 percent. *)
Theorem day_of_week_distribution_spec :
  (forall (st : State) (table : DataFrame) (r : json),
     df st = Some table ->
     get_order_distribution st = Return r ->
     exists (dows : list num) (days : list (Q * Z)) (entries : list json),
       getitem table "order_dow" = Return dows
       /\ (forall q, (0 < cells_with dows q)%nat
                     <-> exists day, day ∈ days /\ (day.1 == q)%Q)
       /\ StronglySorted (fun a b => (a.1 < b.1)%Q /\ a.2 <= b.2) days
       /\ Forall (fun day => truncated day.1 day.2 /\ 0 <= day.2 <= 6) days
       /\ json_get "day_of_week_distribution" r = Some (JList entries)
       /\ Forall2 (fun day entry =>
                     exists p : Q,
                       entry = dow_json dows day.1 day.2 p
                       /\ p = round_to (percent (cells_with dows day.1) (len table)) 1
                       /\ (Z.of_nat (len table) < 2 ^ 40 ->
                           rounded_to 1 (share dows (len table) day.1) p))
                  days entries)
  /\ day_names = list_to_map [(0, "Sunday"); (1, "Monday"); (2, "Tuesday");
                              (3, "Wednesday"); (4, "Thursday"); (5, "Friday");
                              (6, "Saturday")]
  /\ (forall d, 0 <= d <= 6 -> day_names !! d = Some (day_name d))
  /\ exists summary peak_hours,
       get_order_distribution sample_state
       = Return (JDict
           [("summary", summary);
            ("day_of_week_distribution",
             JList [JDict [("day", JStr "Sunday"); ("day_number", JInt 0);
                           ("orders", JInt 1); ("percentage", JFloat (Num 33.3))];
                    JDict [("day", JStr "Monday"); ("day_number", JInt 1);
                           ("orders", JInt 1); ("percentage", JFloat (Num 33.3))];
                    JDict [("day", JStr "Tuesday"); ("day_number", JInt 2);
                           ("orders", JInt 1); ("percentage", JFloat (Num 33.3))]]);
            ("peak_hours", peak_hours)]).
Proof.
  split; [|split; [reflexivity | split; [exact day_names_lookup|]]];
    [|exact order_distribution_sample_days].
  intros st table r Hdf Hr.
  destruct (order_distribution_inv st table r Hdf Hr)
    as (dows & hours & entries & Hdows & _ & Hentries & ->).
  pose proof (getitem_length _ _ _ Hdows) as Hlen.
  exists dows, (map (fun k => (k, py_int k)) (ascending_values dows)), entries.
  split; [exact Hdows|].
  split.
  { intros q. rewrite cells_with_pos. split.
    - intros (k & Hk & Hkq). exists (k, py_int k). split; [|exact Hkq].
      apply list_elem_of_fmap. exists k. split; [reflexivity|].
      now rewrite ascending_values_Permutation.
    - intros (day & Hday & Hq).
      apply list_elem_of_fmap in Hday as (k & -> & Hk).
      exists k. split; [now rewrite <- ascending_values_Permutation | exact Hq]. }
  split.
  { eapply StronglySorted_map_in; [|apply ascending_values_sorted].
    intros a b _ _ Hab. cbn. split; [exact Hab|].
    now apply py_int_mono, Qlt_le_weak. }
  split.
  { apply Forall_forall. intros day Hday.
    apply list_elem_of_fmap in Hday as (k & -> & Hk). cbn.
    split; [apply py_int_truncated|].
    apply list_elem_of_lookup in Hk as [i Hi].
    destruct (Forall2_lookup_l _ _ _ _ _ Hentries Hi) as (entry & _ & Hentry).
    now apply dow_entry_Return in Hentry. }
  split; [reflexivity|].
  apply Forall2_fmap_l. apply Forall2_same_length_lookup.
  split; [exact (Forall2_length _ _ _ Hentries)|].
  intros i k entry Hk Hentry. cbn.
  pose proof (Forall2_lookup_lr _ _ _ _ _ _ Hentries Hk Hentry) as Hreturn.
  apply dow_entry_Return in Hreturn as [_ ->].
  eexists. split; [reflexivity|]. split; [reflexivity|].
  intros Hsize. unfold share. rewrite <- Hlen in *.
  assert (Hpos : (0 < cells_with dows k)%nat).
  { apply cells_with_pos. exists k. split; [|reflexivity].
    rewrite <- ascending_values_Permutation. eapply list_elem_of_lookup_2, Hk. }
  pose proof (cells_with_le dows k) as Hle.
  apply percent_rounded; [lia | exact Hle | exact Hsize].
Qed.

(** *** Tables whose days are whole numbers of 0..6 *)

Lemma dow_entry_counted (dows : list num) (total : nat) (k : Q) (d : Z) :
  (k == inject_Z d)%Q -> 0 <= d <= 6 ->
  dow_entry total (counted dows k) = Return (day_entry dows total d).
Proof.
  intros Hk Hd. unfold dow_entry, counted, day_entry, percent, orders_on.
  rewrite (py_int_comp _ _ Hk), !py_int_inject_Z, (day_names_lookup d Hd).
  now rewrite (occurrences_comp _ _ _ Hk).
Qed.

Lemma mapM_dow_entry (dows : list num) (total : nat) (keys : list Q) :
  Forall (fun k => exists d, (k == inject_Z d)%Q /\ 0 <= d <= 6) keys ->
  mapM (dow_entry total) (map (counted dows) keys)
  = Return (map (day_entry dows total) (map py_int keys)).
Proof.
  induction 1 as [|k keys (d & Hk & Hd) _ IH]; [reflexivity|].
  cbn [map mapM]. rewrite (dow_entry_counted _ _ _ _ Hk Hd), IH.
  cbn [mbind outcome_bind mret outcome_ret].
  now rewrite (py_int_comp _ _ Hk), py_int_inject_Z.
Qed.

Lemma first_seen_whole (lo hi : Z) (s : list num) (k : Q) :
  Forall (whole_in lo hi) s -> k ∈ first_seen (dropna s) ->
  exists z, (k == inject_Z z)%Q /\ lo <= z <= hi.
Proof.
  intros Hall Hk. apply first_seen_spec, dropna_elem_of in Hk.
  destruct (proj1 (Forall_forall _ _) Hall _ Hk) as (q & z & [= <-] & Hq & Hz).
  now exists z.
Qed.

Lemma whole_py_int (q q' : Q) (z z' : Z) :
  (q == inject_Z z)%Q -> (q' == inject_Z z')%Q ->
  py_int q = py_int q' -> (q == q')%Q.
Proof.
  intros Hq Hq'. rewrite (py_int_comp _ _ Hq), (py_int_comp _ _ Hq'), !py_int_inject_Z.
  intros ->. now rewrite Hq, Hq'.
Qed.

(** The distinct values of a column of whole numbers are as many as the set
    of these numbers has elements. *)
Lemma first_seen_distinct (lo hi : Z) (s : list num) :
  Forall (whole_in lo hi) s ->
  length (first_seen (dropna s))
  = size (list_to_set (map py_int (dropna s)) : gset Z).
Proof.
  intros Hwhole.
  destruct (first_seen_spec (dropna s)) as (Hnodup & Hrep & Hmem).
  assert (Hkeys : NoDup (map py_int (first_seen (dropna s)))).
  { replace (map py_int (first_seen (dropna s)))
      with (py_int <$> (Qred <$> first_seen (dropna s))).
    2:{ rewrite <- list_fmap_compose. apply list_fmap_ext. intros _ k _. cbn.
        apply py_int_comp, Qred_correct. }
    apply NoDup_fmap_2_strong; [|exact Hnodup].
    intros x y Hx Hy Hxy.
    apply list_elem_of_fmap in Hx as (k & -> & Hk).
    apply list_elem_of_fmap in Hy as (k' & -> & Hk').
    destruct (first_seen_whole _ _ _ _ Hwhole Hk) as (z & Hz & _).
    destruct (first_seen_whole _ _ _ _ Hwhole Hk') as (z' & Hz' & _).
    apply Qred_complete.
    rewrite (py_int_comp _ _ (Qred_correct k)) in Hxy.
    rewrite (py_int_comp _ _ (Qred_correct k')) in Hxy.
    exact (whole_py_int _ _ _ _ Hz Hz' Hxy). }
  rewrite <- (length_map py_int), <- (size_list_to_set (C := gset Z)) by exact Hkeys.
  f_equal. apply set_eq. intros d. rewrite !elem_of_list_to_set. split.
  - intros Hd. apply list_elem_of_fmap in Hd as (k & -> & Hk).
    apply list_elem_of_fmap. exists k. split; [reflexivity | now apply Hmem].
  - intros Hd. apply list_elem_of_fmap in Hd as (x & -> & Hx).
    destruct (Hrep x Hx) as (k & Hk & Hkx).
    apply list_elem_of_fmap. exists k. split; [|exact Hk].
    symmetry. now apply py_int_comp.
Qed.

Lemma sorted_whole_keys (lo hi : Z) (keys : list Q) :
  StronglySorted Qle keys -> NoDup (map Qred keys) ->
  Forall (fun k => exists z, (k == inject_Z z)%Q /\ lo <= z <= hi) keys ->
  StronglySorted Z.lt (map py_int keys).
Proof.
  induction 1 as [|x keys _ IH Hle]; intros Hnodup Hwhole; cbn [map]; [constructor|].
  apply NoDup_cons in Hnodup as [Hx Hnodup].
  apply Forall_cons in Hwhole as [(zx & Hzx & _) Hwhole].
  constructor; [now apply IH|].
  apply Forall_forall. intros d Hd.
  apply list_elem_of_fmap in Hd as (y & -> & Hy).
  destruct (proj1 (Forall_forall _ _) Hwhole y Hy) as (zy & Hzy & _).
  pose proof (proj1 (Forall_forall _ _) Hle y Hy) as Hxy.
  rewrite (py_int_comp _ _ Hzx), (py_int_comp _ _ Hzy), !py_int_inject_Z.
  rewrite Hzx, Hzy, <- Zle_Qle in Hxy.
  destruct (Z.eq_dec zx zy) as [Heq | Hne]; [|lia].
  exfalso. apply Hx. apply list_elem_of_fmap. exists y. split; [|exact Hy].
  apply Qred_complete. now rewrite Hzx, Hzy, Heq.
Qed.

(** The day numbers of the distribution are the days on which the table has
    an order, each once, ascending. *)
Lemma dow_days_spec (dows : list num) :
  Forall (whole_in 0 6) dows ->
  StronglySorted Z.lt (dow_days dows)
  /\ Forall (fun d => 0 <= d <= 6) (dow_days dows)
  /\ (forall d, d ∈ dow_days dows <-> (0 < orders_on dows d)%nat).
Proof.
  intros Hwhole. unfold dow_days.
  set (keys := ascending_values dows).
  assert (Hperm : keys ≡ₚ first_seen (dropna dows))
    by apply ascending_values_Permutation.
  destruct (first_seen_spec (dropna dows)) as (Hnodup & Hrep & Hmem).
  assert (Hkeys : Forall (fun k => exists z, (k == inject_Z z)%Q /\ 0 <= z <= 6) keys).
  { apply Forall_forall. intros k Hk. rewrite Hperm in Hk.
    eapply first_seen_whole; eassumption. }
  split; [|split].
  - apply (sorted_whole_keys 0 6); [| |exact Hkeys].
    + apply StronglySorted_Qle_bool, isort_StronglySorted.
      * apply Qle_bool_total.
      * apply Qle_bool_trans.
    + change (map Qred keys) with (Qred <$> keys). now rewrite Hperm.
  - apply Forall_forall. intros d Hd.
    apply list_elem_of_fmap in Hd as (k & -> & Hk).
    destruct (proj1 (Forall_forall _ _) Hkeys k Hk) as (z & Hz & Hrange).
    now rewrite (py_int_comp _ _ Hz), py_int_inject_Z.
  - intros d. unfold orders_on. rewrite occurrences_pos. split.
    + intros Hd. apply list_elem_of_fmap in Hd as (k & -> & Hk).
      destruct (proj1 (Forall_forall _ _) Hkeys k Hk) as (z & Hz & _).
      exists k. split; [apply Hmem; now rewrite <- Hperm|].
      now rewrite (py_int_comp _ _ Hz), py_int_inject_Z.
    + intros (x & Hx & Hxd). destruct (Hrep x Hx) as (k & Hk & Hkx).
      apply list_elem_of_fmap. exists k. split; [|now rewrite Hperm].
      rewrite (py_int_comp k (inject_Z d)), py_int_inject_Z; [reflexivity|].
      now rewrite Hkx.
Qed.

Lemma order_distribution_Return (st : State) (table : DataFrame) (dows hours : list num) :
  df st = Some table ->
  getitem table "order_dow" = Return dows -> Forall (whole_in 0 6) dows ->
  getitem table "order_hour_of_day" = Return hours ->
  get_order_distribution st
  = Return (JDict
      [("summary",
        JDict [("total_orders", JInt (Z.of_nat (len table)));
               ("analysis_period", JStr "All available data")]);
       ("day_of_week_distribution",
        JList (map (day_entry dows (len table)) (dow_days dows)));
       ("peak_hours", JList (map (hour_json hours) (take 10 (ranked_hours hours))))]).
Proof.
  intros Hdf Hdows Hwhole Hhours.
  unfold get_order_distribution. rewrite Hdf, Hdows. cbn [mbind outcome_bind].
  rewrite sort_index_value_counts, mapM_dow_entry.
  2:{ apply Forall_forall. intros k Hk.
      rewrite ascending_values_Permutation in Hk.
      eapply first_seen_whole; eassumption. }
  cbn [mbind outcome_bind]. rewrite Hhours. cbn [mbind outcome_bind].
  now rewrite peak_hours_entries.
Qed.

Lemma count_into_sum (x : Q) (tbl : list (Q * nat)) :
  sum_list_with snd (count_into x tbl) = S (sum_list_with snd tbl).
Proof.
  induction tbl as [|[k n] tbl IH]; [reflexivity|].
  cbn. destruct (Qeq_bool x k); cbn; [reflexivity|]. rewrite IH. lia.
Qed.

Lemma hash_counts_sum (l : list Q) : sum_list_with snd (hash_counts l) = length l.
Proof.
  induction l as [|x l IH] using rev_ind; [reflexivity|].
  rewrite hash_counts_snoc, count_into_sum, IH, length_app. cbn. lia.
Qed.

Lemma sum_list_with_map {A B} (f : B -> nat) (g : A -> B) (l : list A) :
  sum_list_with f (map g l) = sum_list_with (fun x => f (g x)) l.
Proof. induction l as [|x l IH]; cbn; [reflexivity | now rewrite IH]. Qed.

Lemma sum_list_with_ext_in {A} (f g : A -> nat) (l : list A) :
  (forall x, x ∈ l -> f x = g x) -> sum_list_with f l = sum_list_with g l.
Proof.
  induction l as [|x l IH]; intros Hext; cbn; [reflexivity|].
  rewrite (Hext x) by apply list_elem_of_here.
  rewrite IH; [reflexivity|]. intros y Hy. apply Hext. now apply list_elem_of_further.
Qed.

Lemma dropna_whole_length (lo hi : Z) (s : list num) :
  Forall (whole_in lo hi) s -> length (dropna s) = length s.
Proof.
  induction 1 as [|c s (q & z & -> & _) _ IH]; [reflexivity|].
  change (dropna (Num q :: s)) with (q :: dropna s). cbn [length]. now rewrite IH.
Qed.

(** Every order is counted on its day. *)
Lemma dow_days_orders (dows : list num) :
  Forall (whole_in 0 6) dows ->
  sum_list_with (orders_on dows) (dow_days dows) = length dows.
Proof.
  intros Hwhole. unfold dow_days.
  rewrite sum_list_with_map.
  rewrite (sum_list_with_ext_in _ (fun k => occurrences k (dropna dows))).
  2:{ intros k Hk. rewrite ascending_values_Permutation in Hk.
      destruct (first_seen_whole _ _ _ _ Hwhole Hk) as (z & Hz & _).
      unfold orders_on. apply occurrences_comp.
      now rewrite (py_int_comp _ _ Hz), py_int_inject_Z. }
  rewrite ascending_values_Permutation.
  rewrite <- (dropna_whole_length _ _ _ Hwhole), <- hash_counts_sum.
  now rewrite hash_counts_first_seen, sum_list_with_map.
Qed.

Lemma sorted_range_length (lo hi : Z) (l : list Z) :
  StronglySorted Z.lt l -> Forall (fun d => lo <= d <= hi) l ->
  (length l <= Z.to_nat (hi - lo + 1))%nat.
Proof.
  intros Hsorted. revert lo.
  induction Hsorted as [|x l _ IH Hlt]; intros lo Hrange; cbn; [lia|].
  apply Forall_cons in Hrange as [Hx Hrange].
  assert (Htail : Forall (fun d => x + 1 <= d <= hi) l).
  { apply Forall_forall. intros d Hd.
    pose proof (proj1 (Forall_forall _ _) Hlt d Hd).
    pose proof (proj1 (Forall_forall _ _) Hrange d Hd). cbn in *. lia. }
  specialize (IH (x + 1) Htail). lia.
Qed.

Section Percentages.
Local Open Scope Q_scope.

Lemma Qsum_shares (f : Z -> nat) (total : Q) (days : list Z) :
  Qsum (map (fun d => inject_Z (Z.of_nat (f d)) / total * 100) days)
  == inject_Z (Z.of_nat (sum_list_with f days)) / total * 100.
Proof.
  induction days as [|d days IH]; cbn [map sum_list_with].
  - change (Qsum []) with 0. unfold Qdiv. cbn. ring.
  - rewrite Qsum_cons, IH, Nat2Z.inj_add, inject_Z_plus. unfold Qdiv. ring.
Qed.

Lemma Qsum_rounded (e : Q) (xs ps : list Q) :
  Forall2 (fun x p => p - e <= x /\ x <= p + e) xs ps ->
  Qsum xs - e * inject_Z (Z.of_nat (length xs)) <= Qsum ps
  /\ Qsum ps <= Qsum xs + e * inject_Z (Z.of_nat (length xs)).
Proof.
  induction 1 as [|x p xs ps [Hlo Hhi] _ [IHlo IHhi]].
  - change (Qsum []) with 0. cbn [length].
    change (inject_Z (Z.of_nat 0)) with 0. split; lra.
  - rewrite !Qsum_cons. cbn [length]. rewrite Nat2Z.inj_succ, <- Z.add_1_r, inject_Z_plus.
    change (inject_Z 1) with 1.
    generalize dependent (inject_Z (Z.of_nat (length xs))). intros n IHlo IHhi.
    split; nra.
Qed.
End Percentages.

Lemma orders_on_cells (dows : list num) (d : Z) :
  orders_on dows d = cells_with dows (inject_Z d).
Proof. unfold orders_on. now rewrite cells_with_occurrences. Qed.

Lemma orders_on_le (dows : list num) (d : Z) : (orders_on dows d <= length dows)%nat.
Proof. rewrite orders_on_cells. apply cells_with_le. Qed.

(** C9. For a loaded table with at least one row whose [order_dow] column
    holds a whole number of 0..6 in every row, and which has the
    [order_hour_of_day] column, the distribution has 7 entries at most, the
    shares of its days add up to 100, each [percentage] is within 0.1 of
    its day's share, and the [percentage] fields add up to 100 within
    0.7. *)
Theorem day_percentages_sum (st : State) (table : DataFrame) (dows hours : list num) :
  df st = Some table ->
  getitem table "order_dow" = Return dows ->
  Forall (whole_in 0 6) dows ->
  getitem table "order_hour_of_day" = Return hours ->
  (0 < len table)%nat ->
  exists (days : list Z) (entries : list json) (pcts : list Q) (summary peak_hours : json),
    get_order_distribution st
    = Return (JDict [("summary", summary);
                     ("day_of_week_distribution", JList entries);
                     ("peak_hours", peak_hours)])
    /\ Forall2 (fun d entry => json_get "day_number" entry = Some (JInt d)) days entries
    /\ Forall2 (fun entry p => json_get "percentage" entry = Some (JFloat (Num p)))
               entries pcts
    /\ Forall2 (fun d p =>
                  (p - (1 # 10) <= share dows (len table) (inject_Z d))%Q
                  /\ (share dows (len table) (inject_Z d) <= p + (1 # 10))%Q)
               days pcts
    /\ (length pcts <= 7)%nat
    /\ (Qsum (map (fun d => share dows (len table) (inject_Z d)) days) == 100)%Q
    /\ (100 - (7 # 10) <= Qsum pcts)%Q
    /\ (Qsum pcts <= 100 + (7 # 10))%Q.
Proof.
  intros Hdf Hdows Hwhole Hhours Hrows.
  destruct (dow_days_spec dows Hwhole) as (Hsorted & Hrange & _).
  pose proof (getitem_length _ _ _ Hdows) as Hlen.
  set (total := len table) in *.
  set (days := dow_days dows) in *.
  set (pcts := map (fun d => round_to (percent (orders_on dows d) total) 1) days).
  assert (Hshare : forall d, share dows total (inject_Z d) = day_share dows total d).
  { intros d. unfold share, day_share. now rewrite orders_on_cells. }
  assert (Herr : Forall2 (fun d p =>
                   (p - (1 # 10) <= share dows total (inject_Z d))%Q
                   /\ (share dows total (inject_Z d) <= p + (1 # 10))%Q) days pcts).
  { unfold pcts. apply Forall2_fmap_r, Forall_Forall2_diag, Forall_forall.
    intros d _. rewrite Hshare. unfold day_share.
    pose proof (orders_on_le dows d) as Hle. rewrite Hlen in Hle.
    destruct (percent_error (orders_on dows d) total Hrows Hle) as [Hlo Hhi].
    destruct (rounded_to_1_error _ _ (round_to_rounded (percent (orders_on dows d) total) 1))
      as [Hlo' Hhi'].
    split; lra. }
  assert (Hcount : (length days <= 7)%nat).
  { pose proof (sorted_range_length 0 6 days Hsorted Hrange). lia. }
  assert (Hshares : (Qsum (map (fun d => share dows total (inject_Z d)) days) == 100)%Q).
  { rewrite (map_ext _ (day_share dows total) Hshare).
    unfold day_share. rewrite Qsum_shares.
    unfold days. rewrite (dow_days_orders dows Hwhole), Hlen.
    assert (Hpos : ~ (inject_Z (Z.of_nat total) == 0)%Q).
    { unfold Qeq. cbn. lia. }
    now field. }
  exists days, (map (day_entry dows total) days), pcts. do 2 eexists.
  split; [exact (order_distribution_Return _ _ _ _ Hdf Hdows Hwhole Hhours)|].
  split.
  { apply Forall2_fmap_r, Forall_Forall2_diag, Forall_forall. intros d _. reflexivity. }
  split.
  { unfold pcts. apply Forall2_fmap, Forall_Forall2_diag, Forall_forall.
    intros d _. reflexivity. }
  split; [exact Herr|].
  split; [unfold pcts; now rewrite length_map|].
  split; [exact Hshares|].
  destruct (Qsum_rounded (1 # 10) (map (fun d => share dows total (inject_Z d)) days) pcts)
    as [Hlo Hhi].
  { apply Forall2_fmap_l. exact Herr. }
  rewrite length_map in Hlo, Hhi. rewrite Hshares in Hlo, Hhi.
  assert (Hn : (inject_Z (Z.of_nat (length days)) <= 7)%Q).
  { change 7%Q with (inject_Z 7). rewrite <- Zle_Qle. lia. }
  assert (Hn0 : (0 <= inject_Z (Z.of_nat (length days)))%Q).
  { change 0%Q with (inject_Z 0). rewrite <- Zle_Qle. lia. }
  generalize dependent (inject_Z (Z.of_nat (length days))). intros n Hlo Hhi Hn Hn0.
  split; lra.
Qed.

(** ** Further properties of the order distribution *)

Lemma sum_Z_of_nat {A} (f : A -> nat) (l : list A) :
  sum_Z (map (fun x => Z.of_nat (f x)) l) = Z.of_nat (sum_list_with f l).
Proof. unfold sum_Z. induction l as [|x l IH]; cbn; [reflexivity | lia]. Qed.

(** X10. For a table whose day and hour columns are as the data model has
    them, every entry of [day_of_week_distribution] counts one order at
    least, the [orders] of the entries add up to the [total_orders] of the
    summary, and every [percentage] lies between 0 and 100. *)
Theorem day_orders_add_up (st : State) (table : DataFrame) :
  df st = Some table ->
  order_table table ->
  exists (dows : list num) (days : list Z) (peak_hours : json),
    getitem table "order_dow" = Return dows
    /\ get_order_distribution st
       = Return (JDict
           [("summary",
             JDict [("total_orders", JInt (Z.of_nat (len table)));
                    ("analysis_period", JStr "All available data")]);
            ("day_of_week_distribution",
             JList (map (day_entry dows (len table)) days));
            ("peak_hours", peak_hours)])
    /\ Forall (fun d =>
                 json_get "orders" (day_entry dows (len table) d)
                 = Some (JInt (Z.of_nat (orders_on dows d)))
                 /\ (1 <= orders_on dows d)%nat) days
    /\ sum_Z (map (fun d => Z.of_nat (orders_on dows d)) days) = Z.of_nat (len table)
    /\ Forall (fun d =>
                 exists p, json_get "percentage" (day_entry dows (len table) d)
                           = Some (JFloat (Num p))
                           /\ (0 <= p)%Q /\ (p <= 100)%Q) days.
Proof.
  intros Hdf (dows & hours & Hdows & Hwhole & Hhours & _).
  destruct (dow_days_spec dows Hwhole) as (_ & _ & Hdays).
  pose proof (getitem_length _ _ _ Hdows) as Hlen.
  exists dows, (dow_days dows). eexists.
  split; [exact Hdows|].
  split; [exact (order_distribution_Return _ _ _ _ Hdf Hdows Hwhole Hhours)|].
  split.
  { apply Forall_forall. intros d Hd. split; [reflexivity|]. apply Hdays in Hd. lia. }
  split.
  { rewrite sum_Z_of_nat, (dow_days_orders dows Hwhole). now rewrite Hlen. }
  apply Forall_forall. intros d Hd.
  exists (round_to (percent (orders_on dows d) (len table)) 1). split; [reflexivity|].
  pose proof (orders_on_le dows d) as Hle. rewrite Hlen in Hle.
  apply Hdays in Hd. apply percent_range; [lia | exact Hle].
Qed.

Lemma first_seen_py_int_NoDup (lo hi : Z) (s : list num) :
  Forall (whole_in lo hi) s -> NoDup (map py_int (first_seen (dropna s))).
Proof.
  intros Hwhole.
  destruct (first_seen_spec (dropna s)) as (Hnodup & _ & _).
  replace (map py_int (first_seen (dropna s)))
    with (py_int <$> (Qred <$> first_seen (dropna s))).
  2:{ rewrite <- list_fmap_compose. apply list_fmap_ext. intros _ k _. cbn.
      apply py_int_comp, Qred_correct. }
  apply NoDup_fmap_2_strong; [|exact Hnodup].
  intros x y Hx Hy Hxy.
  apply list_elem_of_fmap in Hx as (k & -> & Hk).
  apply list_elem_of_fmap in Hy as (k' & -> & Hk').
  destruct (first_seen_whole _ _ _ _ Hwhole Hk) as (z & Hz & _).
  destruct (first_seen_whole _ _ _ _ Hwhole Hk') as (z' & Hz' & _).
  apply Qred_complete.
  rewrite (py_int_comp _ _ (Qred_correct k)) in Hxy.
  rewrite (py_int_comp _ _ (Qred_correct k')) in Hxy.
  exact (whole_py_int _ _ _ _ Hz Hz' Hxy).
Qed.

Lemma sum_list_with_take_le {A} (f : A -> nat) (n : nat) (l : list A) :
  (sum_list_with f (take n l) <= sum_list_with f l)%nat.
Proof.
  rewrite <- (take_drop n l) at 2. rewrite sum_list_with_app. lia.
Qed.

Lemma ranked_hours_sum (lo hi : Z) (s : list num) :
  Forall (whole_in lo hi) s ->
  sum_list_with (fun k => occurrences k (dropna s)) (ranked_hours s) = length s.
Proof.
  intros Hwhole. rewrite ranked_hours_Permutation.
  rewrite <- (dropna_whole_length _ _ _ Hwhole), <- hash_counts_sum.
  now rewrite hash_counts_first_seen, sum_list_with_map.
Qed.

(** X11. For a table whose day and hour columns are as the data model has
    them, the entries of [peak_hours] have distinct [hour_24] values, all
    between 0 and 23, each counts one order at least, and their [orders] add
    up to [total_orders] at most, and to exactly [total_orders] when the
    table has no more than 10 distinct hours. *)
Theorem peak_hours_counts (st : State) (table : DataFrame) :
  df st = Some table ->
  order_table table ->
  exists (hours : list num) (top : list Q) (days : json),
    getitem table "order_hour_of_day" = Return hours
    /\ get_order_distribution st
       = Return (JDict
           [("summary",
             JDict [("total_orders", JInt (Z.of_nat (len table)));
                    ("analysis_period", JStr "All available data")]);
            ("day_of_week_distribution", days);
            ("peak_hours", JList (map (hour_json hours) top))])
    /\ NoDup (map py_int top)
    /\ Forall (fun h => 0 <= py_int h <= 23
                        /\ (1 <= occurrences h (dropna hours))%nat) top
    /\ sum_Z (map (fun h => Z.of_nat (occurrences h (dropna hours))) top)
       <= Z.of_nat (len table)
    /\ ((size (list_to_set (map py_int (dropna hours)) : gset Z) <= 10)%nat ->
        sum_Z (map (fun h => Z.of_nat (occurrences h (dropna hours))) top)
        = Z.of_nat (len table)).
Proof.
  intros Hdf (dows & hours & Hdows & Hwhole & Hhours & Hwhole').
  pose proof (getitem_length _ _ _ Hhours) as Hlen.
  exists hours, (take 10 (ranked_hours hours)). eexists.
  split; [exact Hhours|].
  split; [exact (order_distribution_Return _ _ _ _ Hdf Hdows Hwhole Hhours)|].
  split.
  { apply (sublist_NoDup _ (map py_int (ranked_hours hours))).
    - change (map py_int ?l) with (py_int <$> l).
      rewrite ranked_hours_Permutation. exact (first_seen_py_int_NoDup _ _ _ Hwhole').
    - apply (fmap_sublist py_int), sublist_take. }
  split.
  { apply Forall_forall. intros h Hh.
    apply (subseteq_take 10) in Hh. rewrite ranked_hours_Permutation in Hh.
    destruct (first_seen_whole _ _ _ _ Hwhole' Hh) as (z & Hz & Hrange).
    split.
    - now rewrite (py_int_comp _ _ Hz), py_int_inject_Z.
    - destruct (first_seen_spec (dropna hours)) as (_ & _ & Hmem).
      apply occurrences_pos. exists h. split; [now apply Hmem | reflexivity]. }
  rewrite sum_Z_of_nat, <- Hlen, <- (ranked_hours_sum _ _ _ Hwhole').
  split.
  { apply inj_le, sum_list_with_take_le. }
  intros Hfew. rewrite <- (first_seen_distinct _ _ _ Hwhole') in Hfew.
  rewrite take_ge; [reflexivity|].
  now rewrite ranked_hours_Permutation.
Qed.

Lemma mapM_dow_entry_Raise (total : nat) (items : list (Q * Q)) :
  Exists (fun item => ~ 0 <= py_int item.1 <= 6) items ->
  exists key, mapM (dow_entry total) items = Raise (KeyError key).
Proof.
  induction items as [|[dow count] items IH]; intros Hbad.
  - now apply Exists_nil in Hbad.
  - cbn [mapM].
    destruct (dow_entry total (dow, count)) as [entry|e] eqn:Hentry.
    + apply Exists_cons in Hbad as [Hbad | Hbad].
      * exfalso. apply Hbad. cbn. unfold dow_entry in Hentry.
        destruct (day_names !! py_int dow) as [day|] eqn:Hday; [|discriminate].
        exact (day_names_domain _ _ Hday).
      * destruct (IH Hbad) as (key & ->). exists key. reflexivity.
    + unfold dow_entry in Hentry.
      destruct (day_names !! py_int dow); [discriminate|].
      injection Hentry as <-. eexists. reflexivity.
Qed.

Lemma mapM_dow_entry_error (total : nat) (items : list (Q * Q)) (e : exception) :
  mapM (dow_entry total) items = Raise e -> exists key, e = KeyError key.
Proof.
  induction items as [|[dow count] items IH]; cbn [mapM]; [discriminate|].
  destruct (dow_entry total (dow, count)) as [entry|e'] eqn:Hentry.
  - cbn [mbind outcome_bind].
    destruct (mapM (dow_entry total) items) as [entries|e''];
      cbn [mbind outcome_bind]; [discriminate|].
    intros [= <-]. now apply IH.
  - cbn [mbind outcome_bind]. intros [= <-]. unfold dow_entry in Hentry.
    destruct (day_names !! py_int dow); [discriminate|].
    injection Hentry as <-. eexists. reflexivity.
Qed.

(** X12. When the loaded table lacks the [order_dow] or the
    [order_hour_of_day] column, or its [order_dow] column holds a number
    whose integer part is not a key of [day_names] (not within 0..6),
    [get_order_distribution] raises a [KeyError]: no handler is registered
    for it, and no distribution is returned. *)
Theorem order_distribution_KeyError (st : State) (table : DataFrame) :
  df st = Some table ->
  ("order_dow" ∉ columns table)
  \/ ("order_hour_of_day" ∉ columns table)
  \/ (exists dows q, getitem table "order_dow" = Return dows
                     /\ (Num q ∈ dows) /\ ~ 0 <= py_int q <= 6) ->
  exists key, get_order_distribution st = Raise (KeyError key).
Proof.
  intros Hdf Hcases. unfold get_order_distribution. rewrite Hdf.
  assert (Hbad : forall dows q,
            Num q ∈ dows -> ~ 0 <= py_int q <= 6 ->
            exists key, mapM (dow_entry (len table)) (sort_index (value_counts dows))
                        = Raise (KeyError key)).
  { intros dows q Hq Hrange.
    rewrite sort_index_value_counts.
    apply mapM_dow_entry_Raise, Exists_exists.
    apply dropna_elem_of in Hq.
    destruct (first_seen_spec (dropna dows)) as (_ & Hrep & _).
    destruct (Hrep q Hq) as (k & Hk & Hkq).
    exists (counted dows k). split.
    - apply list_elem_of_fmap. exists k. split; [reflexivity|].
      now rewrite ascending_values_Permutation.
    - cbn. now rewrite (py_int_comp _ _ Hkq). }
  assert (Hmissing : forall name, name ∉ columns table ->
            getitem table name = Raise (KeyError name)).
  { intros name Hname. unfold getitem.
    now rewrite (get_loc_None _ _ Hname). }
  destruct Hcases as [Hdow | [Hhour | (dows & q & Hdows & Hq & Hrange)]].
  - rewrite (Hmissing _ Hdow). eexists. reflexivity.
  - destruct (getitem table "order_dow") as [dows|e] eqn:Hdows.
    2:{ unfold getitem in Hdows. destruct (get_loc _ _); [discriminate|].
        injection Hdows as <-. eexists. reflexivity. }
    cbn [mbind outcome_bind].
    destruct (mapM (dow_entry (len table)) (sort_index (value_counts dows)))
      as [entries|e] eqn:Hentries.
    + cbn [mbind outcome_bind]. rewrite (Hmissing _ Hhour). eexists. reflexivity.
    + cbn [mbind outcome_bind].
      destruct (mapM_dow_entry_error _ _ _ Hentries) as (key & ->).
      eexists. reflexivity.
  - rewrite Hdows. cbn [mbind outcome_bind].
    destruct (Hbad dows q Hq Hrange) as (key & ->). eexists. reflexivity.
Qed.

Lemma occurrences_Permutation (k : Q) (l l' : list Q) :
  l ≡ₚ l' -> occurrences k l = occurrences k l'.
Proof.
  unfold occurrences. induction 1 as [|x l l' _ IH|x y l|l l' l'' _ IH _ IH'].
  - reflexivity.
  - cbn. destruct (Qeq_bool x k); cbn; now rewrite IH.
  - cbn. destruct (Qeq_bool x k), (Qeq_bool y k); reflexivity.
  - now rewrite IH.
Qed.

Lemma getitem_Permutation (table table' : DataFrame) (name : string) (col : list num) :
  columns table = columns table' -> values table ≡ₚ values table' ->
  getitem table name = Return col ->
  exists col', getitem table' name = Return col' /\ col ≡ₚ col'.
Proof.
  unfold getitem. intros <- Hrows.
  destruct (get_loc (columns table) name) as [i|]; [|discriminate].
  intros [= <-]. eexists. split; [reflexivity|].
  now apply (fmap_Permutation (fun row => cell_at row i)).
Qed.

Lemma sorted_lt_unique (l l' : list Z) :
  StronglySorted Z.lt l -> StronglySorted Z.lt l' ->
  (forall d, d ∈ l <-> d ∈ l') -> l = l'.
Proof.
  intros Hl. revert l'.
  induction Hl as [|x l Hl IH Hx]; intros l' Hl' Hmem.
  - destruct l' as [|y l']; [reflexivity|].
    exfalso. apply (not_elem_of_nil y), Hmem. left.
  - destruct Hl' as [|y l' Hl' Hy].
    { exfalso. apply (not_elem_of_nil x), Hmem. left. }
    rewrite Forall_forall in Hx, Hy.
    assert (Hxy : x = y).
    { assert (H1 : x ∈ y :: l') by (apply Hmem; left).
      assert (H2 : y ∈ x :: l) by (apply Hmem; left).
      apply elem_of_cons in H1 as [H1 | H1]; [assumption|].
      apply elem_of_cons in H2 as [H2 | H2]; [now symmetry|].
      apply Hy in H1. apply Hx in H2. lia. }
    subst y. f_equal. apply IH; [assumption|].
    intros d. split; intros Hd.
    + assert (H1 : d ∈ x :: l') by (apply Hmem; now right).
      apply elem_of_cons in H1 as [-> | H1]; [|assumption].
      apply Hx in Hd. lia.
    + assert (H1 : d ∈ x :: l) by (apply Hmem; now right).
      apply elem_of_cons in H1 as [-> | H1]; [|assumption].
      apply Hy in Hd. lia.
Qed.

(** X13. The day-of-week distribution does not depend on the order of the
    rows: two tables with the same columns and the same rows in another
    order, the day and hour columns as the data model has them, give the same
    [summary] and the same [day_of_week_distribution] (of [peak_hours] the
    order of hours of equal count may differ). *)
Theorem day_distribution_ignores_row_order (st st' : State) (table table' : DataFrame) :
  df st = Some table -> df st' = Some table' ->
  columns table = columns table' ->
  values table ≡ₚ values table' ->
  order_table table ->
  exists summary days peak_hours peak_hours' : json,
    get_order_distribution st
    = Return (JDict [("summary", summary);
                     ("day_of_week_distribution", days);
                     ("peak_hours", peak_hours)])
    /\ get_order_distribution st'
       = Return (JDict [("summary", summary);
                        ("day_of_week_distribution", days);
                        ("peak_hours", peak_hours')]).
Proof.
  intros Hdf Hdf' Hcols Hrows (dows & hours & Hdows & Hwhole & Hhours & Hwhole').
  destruct (getitem_Permutation _ _ _ _ Hcols Hrows Hdows) as (dows' & Hdows' & Hperm).
  destruct (getitem_Permutation _ _ _ _ Hcols Hrows Hhours) as (hours' & Hhours' & _).
  assert (Hwhole2 : Forall (whole_in 0 6) dows') by now rewrite <- Hperm.
  assert (Hlen : len table' = len table).
  { unfold len. now rewrite Hrows. }
  assert (Horders : forall d, orders_on dows' d = orders_on dows d).
  { intros d. unfold orders_on. apply occurrences_Permutation.
    unfold dropna. now rewrite Hperm. }
  assert (Hdays : dow_days dows' = dow_days dows).
  { destruct (dow_days_spec dows Hwhole) as (Hsorted & _ & Hmem).
    destruct (dow_days_spec dows' Hwhole2) as (Hsorted' & _ & Hmem').
    apply sorted_lt_unique; [assumption..|].
    intros d. now rewrite Hmem, Hmem', Horders. }
  do 4 eexists. split.
  - exact (order_distribution_Return _ _ _ _ Hdf Hdows Hwhole Hhours).
  - rewrite (order_distribution_Return _ _ _ _ Hdf' Hdows' Hwhole2 Hhours').
    rewrite Hlen, Hdays. do 6 f_equal.
    apply map_ext. intros d. unfold day_entry. now rewrite Horders.
Qed.

(** ** Further properties of the responses *)

Lemma getitem_cols_error (df : DataFrame) (names : list string) (e : exception) :
  getitem_cols df names = Raise e -> exists key, e = KeyError key.
Proof.
  unfold getitem_cols.
  destruct (mapM _ names) as [locs|]; [discriminate|].
  intros [= <-]. eexists. reflexivity.
Qed.

Lemma handler_exceptions (st : State) (req : Request) (e : exception) :
  route st req = Raise e ->
  e = HTTPException 500 "Data not loaded"
  \/ (exists key, e = KeyError key)
  \/ (exists raw loc msg, req = GET_categories_top (Some raw)
                          /\ e = RequestValidationError loc msg
                          /\ limit_param (Some raw) = Raise e).
Proof.
  destruct req as [| |raw|]; cbn [route].
  - discriminate.
  - unfold get_kpis. destruct (df st) as [table|]; [|intros [= <-]; now left].
    destruct (getitem_cols table (category_columns st)) as [sub|e'] eqn:Hsub;
      cbn [mbind outcome_bind]; [discriminate|].
    intros [= <-]. right. left. exact (getitem_cols_error _ _ _ Hsub).
  - destruct (limit_param raw) as [limit|e'] eqn:Hlimit; cbn [mbind outcome_bind].
    + unfold get_top_categories. destruct (df st) as [table|]; [|intros [= <-]; now left].
      destruct (getitem_cols table (category_columns st)) as [sub|e'] eqn:Hsub;
        cbn [mbind outcome_bind]; [discriminate|].
      intros [= <-]. right. left. exact (getitem_cols_error _ _ _ Hsub).
    + intros [= <-]. right. right.
      destruct raw as [raw|]; [|discriminate].
      exists raw. unfold limit_param in Hlimit |- *.
      destruct (parse_int raw) as [n|].
      * destruct (n <? 1); [injection Hlimit as <-; eauto|].
        destruct (100 <? n); [injection Hlimit as <-; eauto | discriminate].
      * injection Hlimit as <-. eauto.
  - unfold get_order_distribution.
    destruct (df st) as [table|]; [|intros [= <-]; now left].
    destruct (getitem table "order_dow") as [dows|e'] eqn:Hdows.
    2:{ cbn [mbind outcome_bind]. intros [= <-]. right. left.
        unfold getitem in Hdows. destruct (get_loc _ _); [discriminate|].
        injection Hdows as <-. eauto. }
    cbn [mbind outcome_bind].
    destruct (mapM (dow_entry (len table)) (sort_index (value_counts dows)))
      as [entries|e'] eqn:Hentries; cbn [mbind outcome_bind].
    2:{ intros [= <-]. right. left. exact (mapM_dow_entry_error _ _ _ Hentries). }
    destruct (getitem table "order_hour_of_day") as [hours|e'] eqn:Hhours;
      cbn [mbind outcome_bind]; [discriminate|].
    intros [= <-]. right. left.
    unfold getitem in Hhours. destruct (get_loc _ _); [discriminate|].
    injection Hhours as <-. eauto.
Qed.

(** X14. A request to one of the four routes is answered by a 200, a 400 or
    a 500, and the 400 is kept for the invalid [limit]: a request gets it
    exactly when it is for [/categories/top] with a [limit] that fails the
    validation. No other route answers 400, nor does a request without
    [limit]. *)
Theorem status_400_only_invalid_limit (st : State) (req : Request) :
  (status_code (app st req) = 200 \/ status_code (app st req) = 400
   \/ status_code (app st req) = 500)
  /\ (status_code (app st req) = 400 <->
      exists raw loc msg,
        req = GET_categories_top (Some raw)
        /\ limit_param (Some raw) = Raise (RequestValidationError loc msg)).
Proof.
  unfold app. destruct (route st req) as [j|e] eqn:Hroute.
  - split; [now left|]. split; [discriminate|].
    intros (raw & loc & msg & -> & Hlimit). cbn [route] in Hroute.
    rewrite Hlimit in Hroute. discriminate.
  - destruct (handler_exceptions _ _ _ Hroute)
      as [-> | [(key & ->) | (raw & loc & msg & -> & -> & Hlimit)]].
    + split; [now right; right|]. split; [discriminate|].
      intros (raw & loc & msg & -> & Hlimit). cbn [route] in Hroute.
      rewrite Hlimit in Hroute. discriminate.
    + split; [now right; right|]. split; [discriminate|].
      intros (raw & loc & msg & -> & Hlimit). cbn [route] in Hroute.
      rewrite Hlimit in Hroute. discriminate.
    + split; [now right; left|]. split; [eauto 6 | reflexivity].
Qed.

Lemma format_hour_checked :
  forallb (fun a =>
             forallb (fun b => implb (String.eqb (format_hour a) (format_hour b)) (a =? b))
                     (seqZ 0 24))
          (seqZ 0 24) = true.
Proof. vm_compute. reflexivity. Qed.

(** X15. [format_hour] gives the 24 hours of the day 24 different readings:
    two hours of 0..23 with the same [hour] string are the same hour. *)
Theorem format_hour_injective (h h' : Z) :
  0 <= h <= 23 -> 0 <= h' <= 23 ->
  format_hour h = format_hour h' -> h = h'.
Proof.
  intros Hh Hh' Heq.
  pose proof format_hour_checked as Hall.
  rewrite forallb_forall in Hall.
  assert (Hin : forall x, 0 <= x <= 23 -> In x (seqZ 0 24)).
  { intros x Hx. apply list_elem_of_In, elem_of_seqZ. lia. }
  specialize (Hall h (Hin h Hh)). rewrite forallb_forall in Hall.
  specialize (Hall h' (Hin h' Hh')).
  rewrite Heq, String.eqb_refl in Hall. cbn in Hall. lia.
Qed.

End Properties.

(** * The libraries to evaluate with *)

Lemma StronglySorted_rev {A} (R : A -> A -> Prop) (l : list A) :
  StronglySorted R l -> StronglySorted (fun a b => R b a) (rev l).
Proof.
  induction 1 as [|x l _ IH Hall]; cbn; [constructor|].
  apply StronglySorted_app_2; [|exact IH | repeat constructor].
  intros a b Ha Hb. apply list_elem_of_singleton in Hb as ->.
  apply list_elem_of_In, in_rev, list_elem_of_In in Ha.
  exact (proj1 (Forall_forall _ _) Hall a Ha).
Qed.

Lemma Qle_bool_Qle (a b : Q) : Qle_bool a b = true -> (a <= b)%Q.
Proof. apply Qle_bool_iff. Qed.

(** The sorts of [reference_library] are sorts. *)
Lemma reference_sorts : sorting_contract reference_library.
Proof.
  split; intros l; cbn.
  - apply stable_argsort_sorting;
      [apply Qle_bool_total | apply Qle_bool_trans | apply Qle_bool_Qle].
  - apply (stable_argsort_sorting (fun x y => Qle_bool y x));
      [apply Qge_bool_total | apply Qge_bool_trans |].
    intros a b. apply Qle_bool_Qle.
Qed.

Lemma reference_stable : stable_descending reference_library.
Proof. intros l. reflexivity. Qed.

(** So are those of [reversing_library]. *)
Lemma reversing_sorts : sorting_contract reversing_library.
Proof.
  split; intros l; cbn.
  - apply stable_argsort_sorting;
      [apply Qle_bool_total | apply Qle_bool_trans | apply Qle_bool_Qle].
  - destruct (stable_argsort_sorting Qle_bool Qle_bool_total Qle_bool_trans Qle l
                Qle_bool_Qle) as [Hperm Hsorted].
    split; [now rewrite <- Permutation_rev|].
    apply StronglySorted_rev in Hsorted.
    eapply StronglySorted_weaken; [|exact Hsorted].
    intros i j (x & y & Hx & Hy & Hxy). now exists y, x.
Qed.

Lemma parse_decimal_letters (s : string) :
  only_letters s = true -> parse_decimal s = None.
Proof.
  destruct s as [|c s']; [discriminate|].
  unfold only_letters. cbn [list_ascii_of_string forallb].
  intros Hletters. apply andb_true_iff in Hletters as [Hc _].
  assert (Hdigit : digit_of c = None).
  { unfold digit_of, is_letter in *. cbv zeta in *.
    destruct (48 <=? Z.of_N (N_of_ascii c)) eqn:H1,
             (Z.of_N (N_of_ascii c) <=? 57) eqn:H2; try reflexivity.
    exfalso. apply Z.leb_le in H2.
    apply orb_true_iff in Hc as [Hc | Hc]; apply andb_true_iff in Hc as [Hc _];
      apply Z.leb_le in Hc; lia. }
  assert (Hplain : parse_decimal (String c s') = parse_digits 0 (String c s')).
  { destruct (ascii_dec c "-") as [-> | Hminus]; [discriminate|].
    destruct (ascii_dec c "+") as [-> | Hplus]; [discriminate|].
    destruct c as [[] [] [] [] [] [] [] []]; try reflexivity; congruence. }
  rewrite Hplain. cbn [parse_digits]. now rewrite Hdigit.
Qed.

(** [reference_library] reads integers as the validation of an [int]
    does, where [int_contract] speaks. *)
Lemma reference_reads : int_contract reference_library.
Proof.
  split.
  - intros s n _ Hn. exact Hn.
  - intros s. apply parse_decimal_letters.
Qed.

#[global] Existing Instance reference_library.

(** * The theorems on concrete inputs *)

(** ** binary64 *)

(** The rounding of [round_binary64] is the division and the multiplication
    of IEEE 754 binary64, as the Standard Library specifies them. *)
Example float_div_binary64 :
  forallb (fun ab : Z * Z =>
             agree (float64_value (float64_div (float64_of_Z ab.1) (float64_of_Z ab.2)))
                   (float_div (inject_Z ab.1) (inject_Z ab.2)))
          [(1, 40); (3, 200); (13, 3); (23, 80); (1, 3); (2, 3); (1, 7); (57, 80);
           (9007199254740993, 1); (1, 1000000007); (123456789, 1000)]
  = true.
Proof. vm_compute. reflexivity. Qed.

Example float_mul_binary64 :
  forallb (fun ab : Z * Z =>
             let x := float64_div (float64_of_Z ab.1) (float64_of_Z ab.2) in
             match float64_value x with
             | Num q => agree (float64_value (float64_mul x (float64_of_Z 100)))
                              (float_mul q 100)
             | NaN => false
             end)
          [(1, 40); (3, 200); (13, 3); (23, 80); (1, 3); (2, 3); (1, 7); (57, 80)]
  = true.
Proof. vm_compute. reflexivity. Qed.

Example sample_avg_binary64 :
  py_round (float64_value (float64_div (float64_of_Z 13) (float64_of_Z 3))) 2
  = Num 4.33.
Proof. vm_compute. reflexivity. Qed.

Example sample_percentage_binary64 :
  let share := float64_mul (float64_div (float64_of_Z 1) (float64_of_Z 3))
                           (float64_of_Z 100) in
  py_round (float64_value share) 1 = Num 33.3
  /\ py_round (float64_value (float64_mul share (float64_of_Z 10))) 0 = Num 333.
Proof. vm_compute. split; reflexivity. Qed.

(** ** Loading *)

Example load_sample :
  load_data sample_data
  = Return (sample_data, ["fresh_fruits"; "yogurt"; "packaged_cheese"]).
Proof. vm_compute. reflexivity. Qed.

Lemma load_data_idempotent_witness :
  load_data sample_data
  = Return (sample_data, ["fresh_fruits"; "yogurt"; "packaged_cheese"]).
Proof.
  apply (load_data_idempotent sample_data). reflexivity.
Defined.

(** ** The responses *)

Lemma data_not_loaded_500_witness :
  app initial_state GET_kpis
    = {| status_code := 500; content := error_body "Data not loaded" |}
  /\ app initial_state (GET_categories_top (Some "7"))
    = {| status_code := 500; content := error_body "Data not loaded" |}
  /\ app initial_state GET_orders_distribution
    = {| status_code := 500; content := error_body "Data not loaded" |}.
Proof.
  split; [|split].
  - apply (data_not_loaded_500 initial_state GET_kpis 10); [reflexivity | now left].
  - apply (data_not_loaded_500 initial_state (GET_categories_top (Some "7")) 7);
      [reflexivity | right; left; exists (Some "7"); split; reflexivity].
  - apply (data_not_loaded_500 initial_state GET_orders_distribution 10);
      [reflexivity | now right; right].
Defined.

(** C7, as stated, fails where validation comes first: with no table loaded
    a request for [/categories/top] with [limit=0] is answered by the 400 of
    the validation handler, not by a 500. *)
Lemma data_not_loaded_invalid_limit_400 :
  df initial_state = None
  /\ app initial_state (GET_categories_top (Some "0"))
     = {| status_code := 400;
          content := error_body "Invalid query parameter: limit must be between 1 and 100" |}
  /\ status_code (app initial_state (GET_categories_top (Some "0"))) <> 500.
Proof. split; [reflexivity | split; [reflexivity | discriminate]]. Qed.

Lemma validation_error_fixed_400_witness :
  validation_exception_handler "page" "int_parsing"
  = {| status_code := 400;
       content := error_body "Invalid query parameter: limit must be between 1 and 100" |}.
Proof. apply (validation_error_fixed_400 "page" "int_parsing"). Defined.

Lemma invalid_limit_400_witness :
  (exists message,
     app sample_state (GET_categories_top (Some "0"))
       = {| status_code := 400; content := error_body message |}
     /\ str_in "limit must be between 1 and 100" message = true
     /\ status_code (app sample_state (GET_categories_top (Some "0"))) <> 500)
  /\ (exists message,
     app sample_state (GET_categories_top (Some "101"))
       = {| status_code := 400; content := error_body message |}
     /\ str_in "limit must be between 1 and 100" message = true
     /\ status_code (app sample_state (GET_categories_top (Some "101"))) <> 500)
  /\ (exists message,
     app sample_state (GET_categories_top (Some "abc"))
       = {| status_code := 400; content := error_body message |}
     /\ str_in "limit must be between 1 and 100" message = true
     /\ status_code (app sample_state (GET_categories_top (Some "abc"))) <> 500).
Proof.
  split; [|split].
  - apply (proj1 (invalid_limit_400 reference_reads sample_state) "0").
    right. exists 0. split; [reflexivity | lia].
  - apply (proj1 (invalid_limit_400 reference_reads sample_state) "101").
    right. exists 101. split; [reflexivity | lia].
  - apply (proj1 (invalid_limit_400 reference_reads sample_state) "abc").
    left. reflexivity.
Defined.

Lemma format_hour_12h_witness :
  format_hour 0 = "12:00 AM" /\ format_hour 9 = "9:00 AM"
  /\ format_hour 12 = "12:00 PM" /\ format_hour 23 = "11:00 PM"
  /\ hour_entry (14%Q, 1%Q)
     = JDict [("hour", JStr "2:00 PM"); ("hour_24", JInt 14); ("orders", JInt 1)].
Proof.
  split; [|split; [|split; [|split]]].
  - apply (format_hour_12h 0 0 1); [lia | reflexivity | reflexivity].
  - apply (format_hour_12h 9 9 1); [lia | reflexivity | lia].
  - apply (format_hour_12h 12 12 1); [lia | reflexivity | reflexivity].
  - apply (format_hour_12h 23 23 1); [lia | reflexivity | lia].
  - apply (format_hour_12h 14 14 1); [lia | reflexivity].
Defined.

Lemma format_hour_injective_witness :
  0 <= 21 <= 23 /\ format_hour 21 = format_hour 21 /\ 21 = 21.
Proof.
  split; [lia|]. split; [reflexivity|].
  apply (format_hour_injective 21 21); [lia | lia | reflexivity].
Defined.

(** ** The KPIs *)

Lemma count_cell_floor (c : num) :
  match c with
  | NaN => true
  | Num q => Qeq_bool q (inject_Z (Z.of_nat (Z.to_nat (Qfloor q))))
  end = true ->
  count_cell c.
Proof.
  destruct c as [|q]; cbn; [trivial|].
  intros Hq. exists (Z.to_nat (Qfloor q)). now apply Qeq_bool_iff.
Qed.

Lemma sample_item_counts : item_counts sample_data.
Proof.
  intros row name Hrow Hname. apply count_cell_floor.
  apply list_elem_of_In in Hrow, Hname.
  vm_compute in Hrow, Hname.
  decompose [or] Hrow; decompose [or] Hname; subst; try contradiction;
    vm_compute; reflexivity.
Qed.

Lemma kpis_spec_witness :
  exists (total_items : Z) (avg median : num),
    get_kpis sample_state
    = Return (JDict
        [("total_orders", JInt (Z.of_nat (len sample_data)));
         ("total_items", JInt total_items);
         ("avg_items_per_order", JFloat avg);
         ("median_items_per_order", JFloat median)])
    /\ truncated (Qsum (map (basket_size sample_data) (values sample_data))) total_items
    /\ (len sample_data = 0%nat -> avg = NaN /\ median = NaN)
    /\ ((0 < len sample_data)%nat ->
        exists a m ra rm : Q,
          arithmetic_mean (map (basket_size sample_data) (values sample_data)) a
          /\ statistical_median (map (basket_size sample_data) (values sample_data)) m
          /\ avg = Num ra /\ rounded_to 2 a ra
          /\ median = Num rm /\ rounded_to 2 m rm).
Proof.
  apply (proj1 kpis_spec sample_data sample_state);
    [reflexivity | exact sample_item_counts | vm_compute; reflexivity].
Defined.

(** C1, as stated, fails on a mean that lies halfway between two
    hundredths, and on a table without rows.  Of 200 orders three have one
    item: the mean is 0.015 exactly, which rounds to 0.02 (to the even
    hundredth, and upwards), but the binary64 quotient 3/200 is below 0.015
    and [get_kpis] returns 0.01.  On a table that has a header and no row
    there is no mean and no median, and [get_kpis] returns [nan] for
    both. *)
Lemma kpis_mean_halfway :
  let data := {| columns := ["order_id"; "tea"];
                 values := replicate 3 [Num 1; Num 1] ++ replicate 197 [Num 1; Num 0] |} in
  let st := {| df := Some data; category_columns := ["tea"] |} in
  let empty := {| columns := ["order_id"; "tea"]; values := [] |} in
  lifespan (Some data) = Return st
  /\ arithmetic_mean (map (basket_size data) (values data)) 0.015
  /\ py_round (Num 0.015) 2 = Num 0.02
  /\ get_kpis st
     = Return (JDict [("total_orders", JInt 200);
                      ("total_items", JInt 3);
                      ("avg_items_per_order", JFloat (Num 0.01));
                      ("median_items_per_order", JFloat (Num 0.00))])
  /\ lifespan (Some empty) = Return {| df := Some empty; category_columns := ["tea"] |}
  /\ get_kpis {| df := Some empty; category_columns := ["tea"] |}
     = Return (JDict [("total_orders", JInt 0);
                      ("total_items", JInt 0);
                      ("avg_items_per_order", JFloat NaN);
                      ("median_items_per_order", JFloat NaN)]).
Proof.
  cbv zeta.
  split; [vm_compute; reflexivity|].
  split; [split; [discriminate | vm_compute; reflexivity]|].
  repeat split; vm_compute; reflexivity.
Qed.

(** An even number of orders: the median is the mean of the two middle
    basket sizes, here 2.5 between 2 and 3; the sum 13.5 is truncated, and
    the mean 3.375 rounds to the even hundredth, 3.38. *)
Example kpis_even_count :
  get_kpis {| df := Some {| columns := ["order_id"; "tea"];
                            values := [[Num 1; Num 3]; [Num 2; Num 1];
                                       [Num 3; Num 2]; [Num 4; Num 7.5]] |};
              category_columns := ["tea"] |}
  = Return (JDict [("total_orders", JInt 4);
                   ("total_items", JInt 13);
                   ("avg_items_per_order", JFloat (Num 3.38));
                   ("median_items_per_order", JFloat (Num 2.50))]).
Proof. vm_compute. reflexivity. Qed.

Lemma kpis_empty_table_witness :
  exists (total_items : Z) (avg median : num),
    get_kpis sample_state
    = Return (JDict [("total_orders", JInt (Z.of_nat (len sample_data)));
                     ("total_items", JInt total_items);
                     ("avg_items_per_order", JFloat avg);
                     ("median_items_per_order", JFloat median)])
    /\ avg <> NaN /\ median <> NaN.
Proof.
  destruct (kpis_empty_table sample_data sample_state)
    as (total_items & avg & median & Hkpis & _ & Hrows); [reflexivity|].
  exists total_items, avg, median. split; [exact Hkpis|].
  apply Hrows. discriminate.
Defined.

(** ** Top categories *)

Lemma top_categories_ranked_witness :
  exists (ranking top : list string) (pairs : list json),
    ranking ≡ₚ category_columns sample_state
    /\ StronglySorted
         (fun a b => (category_total sample_data b <= category_total sample_data a)%Q)
         ranking
    /\ keeps_ties (category_total sample_data) (category_columns sample_state) ranking
    /\ top = take (Z.to_nat 2) ranking
    /\ length pairs
       = Z.to_nat (Z.min 2 (Z.of_nat (length (category_columns sample_state))))
    /\ Forall2 (fun name pair =>
                  exists total : Z,
                    pair = JDict [("category", JStr name); ("total_items", JInt total)]
                    /\ truncated (category_total sample_data name) total)
               top pairs
    /\ get_top_categories sample_state 2
       = Return (JDict [("limit", JInt 2); ("top_categories", JList pairs)]).
Proof.
  destruct (top_categories_ranked reference_sorts sample_data sample_state 2)
    as (ranking & top & pairs & Hperm & Hsorted & Hties & Htop & Hlen & Hpairs & Hget);
    [reflexivity | exact sample_item_counts | vm_compute; reflexivity | lia |].
  exists ranking, top, pairs.
  exact (conj Hperm (conj Hsorted (conj (Hties reference_stable)
           (conj Htop (conj Hlen (conj Hpairs Hget)))))).
Defined.

(** C2, as stated, fails on columns of equal total: the default sort of the
    library is not a stable one, and which of them comes first is as that
    sort leaves it.  Where the descending order is the ascending order read
    backwards, as in [reversing_library], of four columns with the totals
    0, 0, 1, 1 the last comes first, and the first-encountered column of
    equal total does not win. *)
Lemma top_categories_tie_reversed :
  let data := {| columns := ["c00"; "c01"; "c02"; "c03"];
                 values := [[Num 0; Num 0; Num 1; Num 1]] |} in
  let st := {| df := Some data; category_columns := ["c00"; "c01"; "c02"; "c03"] |} in
  sorting_contract reversing_library
  /\ @lifespan reversing_library (Some data) = Return st
  /\ category_total data "c02" = category_total data "c03"
  /\ @get_top_categories reversing_library st 4
     = Return (JDict
         [("limit", JInt 4);
          ("top_categories",
           JList [JDict [("category", JStr "c03"); ("total_items", JInt 1)];
                  JDict [("category", JStr "c02"); ("total_items", JInt 1)];
                  JDict [("category", JStr "c01"); ("total_items", JInt 0)];
                  JDict [("category", JStr "c00"); ("total_items", JInt 0)]])]).
Proof.
  cbv zeta. split; [exact reversing_sorts|].
  repeat split; vm_compute; reflexivity.
Qed.

(** A stable sort keeps the header order of these columns. *)
Example top_categories_tie_stable :
  get_top_categories
    {| df := Some {| columns := ["c00"; "c01"; "c02"; "c03"];
                     values := [[Num 0; Num 0; Num 1; Num 1]] |};
       category_columns := ["c00"; "c01"; "c02"; "c03"] |} 4
  = Return (JDict
      [("limit", JInt 4);
       ("top_categories",
        JList [JDict [("category", JStr "c02"); ("total_items", JInt 1)];
               JDict [("category", JStr "c03"); ("total_items", JInt 1)];
               JDict [("category", JStr "c00"); ("total_items", JInt 0)];
               JDict [("category", JStr "c01"); ("total_items", JInt 0)]])]).
Proof. vm_compute. reflexivity. Qed.

Lemma category_column_missing_witness :
  exists key,
    get_kpis {| df := Some sample_data; category_columns := ["yogurt"; "tofu"] |}
    = Raise (KeyError key)
    /\ forall limit,
         get_top_categories
           {| df := Some sample_data; category_columns := ["yogurt"; "tofu"] |} limit
         = Raise (KeyError key).
Proof.
  apply (category_column_missing
           {| df := Some sample_data; category_columns := ["yogurt"; "tofu"] |}
           sample_data "tofu").
  - reflexivity.
  - apply list_elem_of_further, list_elem_of_here.
  - intros Hin. vm_compute in Hin. repeat (apply elem_of_cons in Hin as [Hin | Hin]; [discriminate|]).
    now apply elem_of_nil in Hin.
Defined.

Lemma top_categories_prefix_witness :
  get_top_categories sample_state 1
  = Return (JDict
      [("limit", JInt 1);
       ("top_categories",
        JList (take (Z.to_nat 1)
                 [JDict [("category", JStr "fresh_fruits"); ("total_items", JInt 7)];
                  JDict [("category", JStr "yogurt"); ("total_items", JInt 4)]]))]).
Proof.
  apply (top_categories_prefix sample_state 1 2); [lia | lia | vm_compute; reflexivity].
Defined.



Lemma whole_or_null_floor (c : num) :
  match c with
  | NaN => true
  | Num q => Qeq_bool q (inject_Z (Qfloor q))
  end = true ->
  whole_or_null c.
Proof.
  destruct c as [|q]; cbn; [trivial|].
  intros Hq. exists (Qfloor q). now apply Qeq_bool_iff.
Qed.

Lemma sample_whole (row : list num) (name : string) :
  row ∈ values sample_data -> name ∈ categories_of (columns sample_data) ->
  whole_or_null (row_cell (columns sample_data) row name).
Proof.
  intros Hrow Hname. apply whole_or_null_floor.
  apply list_elem_of_In in Hrow, Hname.
  vm_compute in Hrow, Hname.
  decompose [or] Hrow; decompose [or] Hname; subst; try contradiction;
    vm_compute; reflexivity.
Qed.

Lemma top_categories_add_up_witness :
  exists (names : list string) (total_orders avg median : json),
    get_top_categories sample_state 3
    = Return (JDict [("limit", JInt 3);
                     ("top_categories", JList (map (top_entry sample_data) names))])
    /\ get_kpis sample_state
       = Return (JDict
           [("total_orders", total_orders);
            ("total_items",
             JInt (sum_Z (map (fun name => py_int (category_total sample_data name))
                              names)));
            ("avg_items_per_order", avg);
            ("median_items_per_order", median)]).
Proof.
  destruct (top_categories_add_up reference_sorts sample_data sample_state 3)
    as (names & total_orders & avg & median & Htop & _ & Hkpis);
    [reflexivity | exact sample_whole | lia | vm_compute; discriminate |].
  exists names, total_orders, avg, median. split; assumption.
Defined.

Lemma handlers_read_category_values_witness :
  let data' := {| columns := columns sample_data;
                  values := [ [Num 7; Num 6; Num 23; NaN; Num 2; Num 1; Num 1];
                              [Num 8; Num 6; Num 23; NaN; NaN;   Num 3; Num 1];
                              [Num 9; Num 6; Num 23; NaN; Num 5; NaN;   NaN] ] |} in
  let st' := {| df := Some (loaded_table data');
                category_columns := categories_of (columns data') |} in
  get_kpis sample_state = get_kpis st'
  /\ forall limit, get_top_categories sample_state limit = get_top_categories st' limit.
Proof.
  intros data' st'.
  apply (handlers_read_category_values sample_data data' sample_state st');
    [reflexivity | | reflexivity | reflexivity].
  repeat constructor; intros name Hname;
    apply list_elem_of_In in Hname; vm_compute in Hname;
    decompose [or] Hname; subst; try contradiction; vm_compute; reflexivity.
Defined.

Lemma handlers_ignore_row_order_witness :
  let data' := {| columns := columns sample_data;
                  values := rev (values sample_data) |} in
  let st' := {| df := Some (loaded_table data');
                category_columns := categories_of (columns data') |} in
  get_kpis sample_state = get_kpis st'
  /\ forall limit, get_top_categories sample_state limit = get_top_categories st' limit.
Proof.
  intros data' st'.
  apply (handlers_ignore_row_order sample_data data' sample_state st');
    [reflexivity | apply Permutation_rev | exact sample_whole
    | reflexivity | reflexivity].
Defined.

(** ** The order distribution *)

Lemma sample_days_whole : Forall (whole_in 0 6) [Num 0; Num 1; Num 2].
Proof.
  repeat constructor;
    match goal with
    | |- whole_in _ _ (Num (?n # 1)) =>
        exists (n # 1)%Q, n; split; [reflexivity | split; [reflexivity | lia]]
    end.
Qed.

Lemma sample_order_table : order_table sample_data.
Proof.
  exists [Num 0; Num 1; Num 2], [Num 10; Num 14; Num 10].
  split; [reflexivity|]. split; [exact sample_days_whole|].
  split; [reflexivity|].
  repeat constructor;
    match goal with
    | |- whole_in _ _ (Num (?n # 1)) =>
        exists (n # 1)%Q, n; split; [reflexivity | split; [reflexivity | lia]]
    end.
Qed.

Lemma sample_distribution :
  get_order_distribution sample_state
  = Return (JDict
      [("summary",
        JDict [("total_orders", JInt 3); ("analysis_period", JStr "All available data")]);
       ("day_of_week_distribution",
        JList [JDict [("day", JStr "Sunday"); ("day_number", JInt 0);
                      ("orders", JInt 1); ("percentage", JFloat (Num 33.3))];
               JDict [("day", JStr "Monday"); ("day_number", JInt 1);
                      ("orders", JInt 1); ("percentage", JFloat (Num 33.3))];
               JDict [("day", JStr "Tuesday"); ("day_number", JInt 2);
                      ("orders", JInt 1); ("percentage", JFloat (Num 33.3))]]);
       ("peak_hours",
        JList [JDict [("hour", JStr "10:00 AM"); ("hour_24", JInt 10); ("orders", JInt 2)];
               JDict [("hour", JStr "2:00 PM"); ("hour_24", JInt 14);
                      ("orders", JInt 1)]])]).
Proof. vm_compute. reflexivity. Qed.



(** Under the sort of [reversing_library], too, three hours of one order
    each come in the order the table first has them: [value_counts] and
    [sort_values] each turn them round. *)
Example peak_hours_tie_reversed :
  exists summary days,
    @get_order_distribution reversing_library
      {| df := Some {| columns := ["order_dow"; "order_hour_of_day"];
                       values := [[Num 0; Num 9]; [Num 0; Num 17]; [Num 1; Num 12]] |};
         category_columns := [] |}
    = Return (JDict
        [("summary", summary);
         ("day_of_week_distribution", days);
         ("peak_hours",
          JList [JDict [("hour", JStr "9:00 AM"); ("hour_24", JInt 9); ("orders", JInt 1)];
                 JDict [("hour", JStr "5:00 PM"); ("hour_24", JInt 17);
                        ("orders", JInt 1)];
                 JDict [("hour", JStr "12:00 PM"); ("hour_24", JInt 12);
                        ("orders", JInt 1)]])]).
Proof. do 2 eexists. vm_compute. reflexivity. Qed.

Lemma day_of_week_distribution_spec_witness :
  let r := JDict
      [("summary",
        JDict [("total_orders", JInt 3); ("analysis_period", JStr "All available data")]);
       ("day_of_week_distribution",
        JList [JDict [("day", JStr "Sunday"); ("day_number", JInt 0);
                      ("orders", JInt 1); ("percentage", JFloat (Num 33.3))];
               JDict [("day", JStr "Monday"); ("day_number", JInt 1);
                      ("orders", JInt 1); ("percentage", JFloat (Num 33.3))];
               JDict [("day", JStr "Tuesday"); ("day_number", JInt 2);
                      ("orders", JInt 1); ("percentage", JFloat (Num 33.3))]]);
       ("peak_hours",
        JList [JDict [("hour", JStr "10:00 AM"); ("hour_24", JInt 10); ("orders", JInt 2)];
               JDict [("hour", JStr "2:00 PM"); ("hour_24", JInt 14);
                      ("orders", JInt 1)]])] in
  get_order_distribution sample_state = Return r
  /\ exists (dows : list num) (days : list (Q * Z)) (entries : list json),
       getitem sample_data "order_dow" = Return dows
       /\ (forall q, (0 < cells_with dows q)%nat
                     <-> exists day, day ∈ days /\ (day.1 == q)%Q)
       /\ StronglySorted (fun a b => (a.1 < b.1)%Q /\ a.2 <= b.2) days
       /\ Forall (fun day => truncated day.1 day.2 /\ 0 <= day.2 <= 6) days
       /\ json_get "day_of_week_distribution" r = Some (JList entries)
       /\ Forall2 (fun day entry =>
                     exists p : Q,
                       entry = dow_json dows day.1 day.2 p
                       /\ p = round_to (percent (cells_with dows day.1) (len sample_data)) 1
                       /\ (Z.of_nat (len sample_data) < 2 ^ 40 ->
                           rounded_to 1 (share dows (len sample_data) day.1) p))
                  days entries.
Proof.
  intros r. split; [exact sample_distribution|].
  apply (proj1 (day_of_week_distribution_spec reference_sorts) sample_state sample_data r);
    [reflexivity | exact sample_distribution].
Defined.

(** C5, as stated, fails on the loaded tables on which the endpoint returns
    no distribution, and on a share that lies halfway between two tenths.
    With a day of 7 in [order_dow], [day_names[int(dow)]] raises
    [KeyError].  Of 80 orders 23 are of day 0 and 57 of day 1: the shares
    are 28.75 and 71.25 exactly; 28.75 rounds to 28.8 (to the even tenth,
    and upwards), but the float [(23 / 80) * 100] is below 28.75 and the
    entry has 28.7, while the float [(57 / 80) * 100] is 71.25 and the entry
    has 71.2. *)
Lemma day_share_halfway :
  let seven := {| columns := ["order_dow"; "order_hour_of_day"];
                  values := [[Num 7; Num 9]] |} in
  let table := {| columns := ["order_dow"; "order_hour_of_day"];
                  values := replicate 23 [Num 0; Num 8] ++ replicate 57 [Num 1; Num 8] |} in
  let st := {| df := Some table; category_columns := [] |} in
  lifespan (Some seven) = Return {| df := Some seven; category_columns := [] |}
  /\ get_order_distribution {| df := Some seven; category_columns := [] |}
     = Raise (KeyError "7")
  /\ lifespan (Some table) = Return st
  /\ (share (map (fun row => cell_at row 0) (values table)) (len table) 0 == 28.75)%Q
  /\ py_round (Num 28.75) 1 = Num 28.8
  /\ get_order_distribution st
     = Return (JDict
         [("summary",
           JDict [("total_orders", JInt 80);
                  ("analysis_period", JStr "All available data")]);
          ("day_of_week_distribution",
           JList [JDict [("day", JStr "Sunday"); ("day_number", JInt 0);
                         ("orders", JInt 23); ("percentage", JFloat (Num 28.7))];
                  JDict [("day", JStr "Monday"); ("day_number", JInt 1);
                         ("orders", JInt 57); ("percentage", JFloat (Num 71.2))]]);
          ("peak_hours",
           JList [JDict [("hour", JStr "8:00 AM"); ("hour_24", JInt 8);
                         ("orders", JInt 80)]])]).
Proof. cbv zeta. repeat split; vm_compute; reflexivity. Qed.

Lemma day_percentages_sum_witness :
  exists (days : list Z) (entries : list json) (pcts : list Q) (summary peak_hours : json),
    get_order_distribution sample_state
    = Return (JDict [("summary", summary);
                     ("day_of_week_distribution", JList entries);
                     ("peak_hours", peak_hours)])
    /\ Forall2 (fun d entry => json_get "day_number" entry = Some (JInt d)) days entries
    /\ Forall2 (fun entry p => json_get "percentage" entry = Some (JFloat (Num p)))
               entries pcts
    /\ Forall2 (fun d p =>
                  (p - (1 # 10)
                   <= share [Num 0; Num 1; Num 2] (len sample_data) (inject_Z d))%Q
                  /\ (share [Num 0; Num 1; Num 2] (len sample_data) (inject_Z d)
                      <= p + (1 # 10))%Q)
               days pcts
    /\ (length pcts <= 7)%nat
    /\ (Qsum (map (fun d => share [Num 0; Num 1; Num 2] (len sample_data) (inject_Z d))
                  days) == 100)%Q
    /\ (100 - (7 # 10) <= Qsum pcts)%Q
    /\ (Qsum pcts <= 100 + (7 # 10))%Q.
Proof.
  apply (day_percentages_sum reference_sorts sample_state sample_data
           [Num 0; Num 1; Num 2] [Num 10; Num 14; Num 10]);
    [reflexivity | reflexivity | exact sample_days_whole | reflexivity | cbn; lia].
Defined.

(** C9, as stated, fails on a table with a missing day: [value_counts]
    drops the row of the missing [order_dow] while [len(df)] counts it.  Of
    three orders one has no day: the two entries have 33.3 each, 66.6 in
    all. *)
Lemma day_percentages_missing_day :
  let table := {| columns := ["order_dow"; "order_hour_of_day"];
                  values := [[Num 0; Num 8]; [NaN; Num 8]; [Num 1; Num 9]] |} in
  let st := {| df := Some table; category_columns := [] |} in
  lifespan (Some table) = Return st
  /\ (0 < len table)%nat
  /\ get_order_distribution st
     = Return (JDict
         [("summary",
           JDict [("total_orders", JInt 3);
                  ("analysis_period", JStr "All available data")]);
          ("day_of_week_distribution",
           JList [JDict [("day", JStr "Sunday"); ("day_number", JInt 0);
                         ("orders", JInt 1); ("percentage", JFloat (Num 33.3))];
                  JDict [("day", JStr "Monday"); ("day_number", JInt 1);
                         ("orders", JInt 1); ("percentage", JFloat (Num 33.3))]]);
          ("peak_hours",
           JList [JDict [("hour", JStr "8:00 AM"); ("hour_24", JInt 8);
                         ("orders", JInt 2)];
                  JDict [("hour", JStr "9:00 AM"); ("hour_24", JInt 9);
                         ("orders", JInt 1)]])])
  /\ (Qsum [33.3; 33.3] == 66.6)%Q
  /\ (Qsum [33.3; 33.3] < 100 - (7 # 10))%Q.
Proof.
  cbv zeta. split; [vm_compute; reflexivity|]. split; [cbn; lia|].
  repeat split; vm_compute; reflexivity.
Qed.

(** Seven days with one order each: seven times 14.3 is 100.1. *)
Example day_percentages_seven :
  let table := {| columns := ["order_dow"; "order_hour_of_day"];
                  values := [[Num 0; Num 8]; [Num 1; Num 8]; [Num 2; Num 8];
                             [Num 3; Num 8]; [Num 4; Num 8]; [Num 5; Num 8];
                             [Num 6; Num 8]] |} in
  (dow_entry (len table)) <$> sort_index (value_counts (map (fun row => cell_at row 0) (values table)))
  = (fun d => Return (JDict [("day", JStr (day_name d)); ("day_number", JInt d);
                             ("orders", JInt 1); ("percentage", JFloat (Num 14.3))]))
    <$> [0; 1; 2; 3; 4; 5; 6].
Proof. vm_compute. reflexivity. Qed.

Lemma day_orders_add_up_witness :
  exists (dows : list num) (days : list Z) (peak_hours : json),
    getitem sample_data "order_dow" = Return dows
    /\ get_order_distribution sample_state
       = Return (JDict
           [("summary",
             JDict [("total_orders", JInt (Z.of_nat (len sample_data)));
                    ("analysis_period", JStr "All available data")]);
            ("day_of_week_distribution",
             JList (map (day_entry dows (len sample_data)) days));
            ("peak_hours", peak_hours)])
    /\ Forall (fun d =>
                 json_get "orders" (day_entry dows (len sample_data) d)
                 = Some (JInt (Z.of_nat (orders_on dows d)))
                 /\ (1 <= orders_on dows d)%nat) days
    /\ sum_Z (map (fun d => Z.of_nat (orders_on dows d)) days)
       = Z.of_nat (len sample_data)
    /\ Forall (fun d =>
                 exists p, json_get "percentage" (day_entry dows (len sample_data) d)
                           = Some (JFloat (Num p))
                           /\ (0 <= p)%Q /\ (p <= 100)%Q) days.
Proof.
  apply (day_orders_add_up reference_sorts sample_state sample_data);
    [reflexivity | exact sample_order_table].
Defined.

Lemma peak_hours_counts_witness :
  exists (hours : list num) (top : list Q) (days : json),
    getitem sample_data "order_hour_of_day" = Return hours
    /\ get_order_distribution sample_state
       = Return (JDict
           [("summary",
             JDict [("total_orders", JInt (Z.of_nat (len sample_data)));
                    ("analysis_period", JStr "All available data")]);
            ("day_of_week_distribution", days);
            ("peak_hours", JList (map (hour_json hours) top))])
    /\ NoDup (map py_int top)
    /\ Forall (fun h => 0 <= py_int h <= 23
                        /\ (1 <= occurrences h (dropna hours))%nat) top
    /\ sum_Z (map (fun h => Z.of_nat (occurrences h (dropna hours))) top)
       <= Z.of_nat (len sample_data)
    /\ ((size (list_to_set (map py_int (dropna hours)) : gset Z) <= 10)%nat ->
        sum_Z (map (fun h => Z.of_nat (occurrences h (dropna hours))) top)
        = Z.of_nat (len sample_data)).
Proof.
  apply (peak_hours_counts reference_sorts sample_state sample_data);
    [reflexivity | exact sample_order_table].
Defined.

Lemma order_distribution_KeyError_witness :
  exists key,
    get_order_distribution
      {| df := Some {| columns := ["order_dow"; "order_hour_of_day"];
                       values := [[Num 1; Num 9]; [Num 7; Num 9]] |};
         category_columns := [] |}
    = Raise (KeyError key).
Proof.
  apply (order_distribution_KeyError reference_sorts
           _ {| columns := ["order_dow"; "order_hour_of_day"];
                values := [[Num 1; Num 9]; [Num 7; Num 9]] |});
    [reflexivity|].
  right. right. exists [Num 1; Num 7], 7%Q.
  split; [reflexivity|]. split; [right; left | vm_compute; intros [_ Hle]; now apply Hle].
Defined.

Lemma day_distribution_ignores_row_order_witness :
  exists summary days peak_hours peak_hours' : json,
    get_order_distribution sample_state
    = Return (JDict [("summary", summary);
                     ("day_of_week_distribution", days);
                     ("peak_hours", peak_hours)])
    /\ get_order_distribution
         {| df := Some {| columns := columns sample_data;
                          values := rev (values sample_data) |};
            category_columns := category_columns sample_state |}
       = Return (JDict [("summary", summary);
                        ("day_of_week_distribution", days);
                        ("peak_hours", peak_hours')]).
Proof.
  apply (day_distribution_ignores_row_order reference_sorts
           sample_state _ sample_data
           {| columns := columns sample_data; values := rev (values sample_data) |});
    [reflexivity | reflexivity | reflexivity
    | apply Permutation_rev | exact sample_order_table].
Defined.

